(** * JAWS / Case Manager reconciliation: a shallow embedding of [done.py]

    The orchestrator [JAWSCasemgrRecon] reads two spreadsheet tables, cleans
    them, joins them on a business identifier, keeps the rows whose statuses
    differ and writes them to a workbook.  This development embeds each
    method of the class as a function of the same name and states the
    properties of the pipeline over those functions.

    Conventions of the embedding.
    - A spreadsheet cell of a text column is either a text or blank; the
      blank cell is pandas' missing value (NaN / None).
    - A text is a Python [str], held as the bytes of its UTF-8 encoding, so
      that the order of two texts is the order of their code points.
      [str.upper] and [str.strip] work on characters (code points):
      [str.strip] removes the characters for which [str.isspace] holds, and
      [str.upper] replaces each character by its upper case, which can be
      longer than the character.  Both follow the Unicode database of
      Python 3.11 (Unicode 14).
    - A DataFrame is the list of its rows, in row order, restricted to the
      columns the program names.  Columns the program never names are
      carried along unchanged by every step and are not represented.  Where
      a step looks at every cell of a frame (the write of the report), the
      two input tables are taken to have the named columns and no others,
      in the order CASE_DATA, key, value and IDN_REQUEST, CDE_JNL_STA.
    - A Python exception is a value of [exn]; a call that can raise returns
      [exn + A]. *)

From Stdlib Require Import Ascii String DecimalString DecimalN.
From stdpp Require Import gmap strings list.

Local Open Scope string_scope.
Set Warnings "-register-all".

(** ** Text *)

Module Text.

(** A text is a Python [str], held as the bytes of its UTF-8 encoding; a
    character is the byte sequence of one code point.  [bytes] writes a
    text by its bytes, for the characters a literal does not show. *)
Definition bytes (l : list nat) : string :=
  fold_right (fun n s => String (ascii_of_nat n) s) EmptyString l.

(** The number of bytes of the character that starts with byte [b]. *)
Definition width (b : ascii) : nat :=
  let n := nat_of_ascii b in
  if Nat.ltb n 192 then 1 else if Nat.ltb n 224 then 2 else if Nat.ltb n 240 then 3 else 4.

(** The characters of a text, in order.  A sequence cut short at the end
    of the text is kept as the last element. *)
Fixpoint chars (s : string) : list string :=
  match s with
  | EmptyString => []
  | String b1 s1 =>
      match width b1, s1 with
      | 1, _ => String b1 EmptyString :: chars s1
      | 2, String b2 s2 => String b1 (String b2 EmptyString) :: chars s2
      | 3, String b2 (String b3 s3) =>
          String b1 (String b2 (String b3 EmptyString)) :: chars s3
      | S (S (S (S _))), String b2 (String b3 (String b4 s4)) =>
          String b1 (String b2 (String b3 (String b4 EmptyString))) :: chars s4
      | _, _ => [s]
      end
  end.

Definition join (l : list string) : string := fold_right String.append EmptyString l.

(** The characters for which [str.isspace] holds; [str.strip] removes
    exactly these. *)
Definition whitespace : list string :=
  [ bytes [9]; bytes [10]; bytes [11]; bytes [12]; bytes [13]; bytes [28]; bytes [29];
    bytes [30]; bytes [31]; bytes [32]; bytes [194; 133]; bytes [194; 160];
    bytes [225; 154; 128]; bytes [226; 128; 128]; bytes [226; 128; 129];
    bytes [226; 128; 130]; bytes [226; 128; 131]; bytes [226; 128; 132];
    bytes [226; 128; 133]; bytes [226; 128; 134]; bytes [226; 128; 135];
    bytes [226; 128; 136]; bytes [226; 128; 137]; bytes [226; 128; 138];
    bytes [226; 128; 168]; bytes [226; 128; 169]; bytes [226; 128; 175];
    bytes [226; 129; 159]; bytes [227; 128; 128] ].

Definition isspace (c : string) : bool := existsb (String.eqb c) whitespace.

(** The characters beyond ASCII whose [str.upper] differs from the
    character, each with its upper case (one to three characters), as the
    Unicode database of Python 3.11 (Unicode 14) has them. *)
Definition uppercase : list (string * string) :=
  [
    ("µ", "Μ"); ("ß", "SS"); ("à", "À"); ("á", "Á"); ("â", "Â"); ("ã", "Ã");
    ("ä", "Ä"); ("å", "Å"); ("æ", "Æ"); ("ç", "Ç"); ("è", "È"); ("é", "É");
    ("ê", "Ê"); ("ë", "Ë"); ("ì", "Ì"); ("í", "Í"); ("î", "Î"); ("ï", "Ï");
    ("ð", "Ð"); ("ñ", "Ñ"); ("ò", "Ò"); ("ó", "Ó"); ("ô", "Ô"); ("õ", "Õ");
    ("ö", "Ö"); ("ø", "Ø"); ("ù", "Ù"); ("ú", "Ú"); ("û", "Û"); ("ü", "Ü");
    ("ý", "Ý"); ("þ", "Þ"); ("ÿ", "Ÿ"); ("ā", "Ā"); ("ă", "Ă"); ("ą", "Ą");
    ("ć", "Ć"); ("ĉ", "Ĉ"); ("ċ", "Ċ"); ("č", "Č"); ("ď", "Ď"); ("đ", "Đ");
    ("ē", "Ē"); ("ĕ", "Ĕ"); ("ė", "Ė"); ("ę", "Ę"); ("ě", "Ě"); ("ĝ", "Ĝ");
    ("ğ", "Ğ"); ("ġ", "Ġ"); ("ģ", "Ģ"); ("ĥ", "Ĥ"); ("ħ", "Ħ"); ("ĩ", "Ĩ");
    ("ī", "Ī"); ("ĭ", "Ĭ"); ("į", "Į"); ("ı", "I"); ("ĳ", "Ĳ"); ("ĵ", "Ĵ");
    ("ķ", "Ķ"); ("ĺ", "Ĺ"); ("ļ", "Ļ"); ("ľ", "Ľ"); ("ŀ", "Ŀ"); ("ł", "Ł");
    ("ń", "Ń"); ("ņ", "Ņ"); ("ň", "Ň"); ("ŉ", "ʼN"); ("ŋ", "Ŋ"); ("ō", "Ō");
    ("ŏ", "Ŏ"); ("ő", "Ő"); ("œ", "Œ"); ("ŕ", "Ŕ"); ("ŗ", "Ŗ"); ("ř", "Ř");
    ("ś", "Ś"); ("ŝ", "Ŝ"); ("ş", "Ş"); ("š", "Š"); ("ţ", "Ţ"); ("ť", "Ť");
    ("ŧ", "Ŧ"); ("ũ", "Ũ"); ("ū", "Ū"); ("ŭ", "Ŭ"); ("ů", "Ů"); ("ű", "Ű");
    ("ų", "Ų"); ("ŵ", "Ŵ"); ("ŷ", "Ŷ"); ("ź", "Ź"); ("ż", "Ż"); ("ž", "Ž");
    ("ſ", "S"); ("ƀ", "Ƀ"); ("ƃ", "Ƃ"); ("ƅ", "Ƅ"); ("ƈ", "Ƈ"); ("ƌ", "Ƌ");
    ("ƒ", "Ƒ"); ("ƕ", "Ƕ"); ("ƙ", "Ƙ"); ("ƚ", "Ƚ"); ("ƞ", "Ƞ"); ("ơ", "Ơ");
    ("ƣ", "Ƣ"); ("ƥ", "Ƥ"); ("ƨ", "Ƨ"); ("ƭ", "Ƭ"); ("ư", "Ư"); ("ƴ", "Ƴ");
    ("ƶ", "Ƶ"); ("ƹ", "Ƹ"); ("ƽ", "Ƽ"); ("ƿ", "Ƿ"); ("ǅ", "Ǆ"); ("ǆ", "Ǆ");
    ("ǈ", "Ǉ"); ("ǉ", "Ǉ"); ("ǋ", "Ǌ"); ("ǌ", "Ǌ"); ("ǎ", "Ǎ"); ("ǐ", "Ǐ");
    ("ǒ", "Ǒ"); ("ǔ", "Ǔ"); ("ǖ", "Ǖ"); ("ǘ", "Ǘ"); ("ǚ", "Ǚ"); ("ǜ", "Ǜ");
    ("ǝ", "Ǝ"); ("ǟ", "Ǟ"); ("ǡ", "Ǡ"); ("ǣ", "Ǣ"); ("ǥ", "Ǥ"); ("ǧ", "Ǧ");
    ("ǩ", "Ǩ"); ("ǫ", "Ǫ"); ("ǭ", "Ǭ"); ("ǯ", "Ǯ"); ("ǰ", "J̌"); ("ǲ", "Ǳ");
    ("ǳ", "Ǳ"); ("ǵ", "Ǵ"); ("ǹ", "Ǹ"); ("ǻ", "Ǻ"); ("ǽ", "Ǽ"); ("ǿ", "Ǿ");
    ("ȁ", "Ȁ"); ("ȃ", "Ȃ"); ("ȅ", "Ȅ"); ("ȇ", "Ȇ"); ("ȉ", "Ȉ"); ("ȋ", "Ȋ");
    ("ȍ", "Ȍ"); ("ȏ", "Ȏ"); ("ȑ", "Ȑ"); ("ȓ", "Ȓ"); ("ȕ", "Ȕ"); ("ȗ", "Ȗ");
    ("ș", "Ș"); ("ț", "Ț"); ("ȝ", "Ȝ"); ("ȟ", "Ȟ"); ("ȣ", "Ȣ"); ("ȥ", "Ȥ");
    ("ȧ", "Ȧ"); ("ȩ", "Ȩ"); ("ȫ", "Ȫ"); ("ȭ", "Ȭ"); ("ȯ", "Ȯ"); ("ȱ", "Ȱ");
    ("ȳ", "Ȳ"); ("ȼ", "Ȼ"); ("ȿ", "Ȿ"); ("ɀ", "Ɀ"); ("ɂ", "Ɂ"); ("ɇ", "Ɇ");
    ("ɉ", "Ɉ"); ("ɋ", "Ɋ"); ("ɍ", "Ɍ"); ("ɏ", "Ɏ"); ("ɐ", "Ɐ"); ("ɑ", "Ɑ");
    ("ɒ", "Ɒ"); ("ɓ", "Ɓ"); ("ɔ", "Ɔ"); ("ɖ", "Ɖ"); ("ɗ", "Ɗ"); ("ə", "Ə");
    ("ɛ", "Ɛ"); ("ɜ", "Ɜ"); ("ɠ", "Ɠ"); ("ɡ", "Ɡ"); ("ɣ", "Ɣ"); ("ɥ", "Ɥ");
    ("ɦ", "Ɦ"); ("ɨ", "Ɨ"); ("ɩ", "Ɩ"); ("ɪ", "Ɪ"); ("ɫ", "Ɫ"); ("ɬ", "Ɬ");
    ("ɯ", "Ɯ"); ("ɱ", "Ɱ"); ("ɲ", "Ɲ"); ("ɵ", "Ɵ"); ("ɽ", "Ɽ"); ("ʀ", "Ʀ");
    ("ʂ", "Ʂ"); ("ʃ", "Ʃ"); ("ʇ", "Ʇ"); ("ʈ", "Ʈ"); ("ʉ", "Ʉ"); ("ʊ", "Ʊ");
    ("ʋ", "Ʋ"); ("ʌ", "Ʌ"); ("ʒ", "Ʒ"); ("ʝ", "Ʝ"); ("ʞ", "Ʞ"); ("ͅ", "Ι");
    ("ͱ", "Ͱ"); ("ͳ", "Ͳ"); ("ͷ", "Ͷ"); ("ͻ", "Ͻ"); ("ͼ", "Ͼ"); ("ͽ", "Ͽ");
    ("ΐ", "Ϊ́"); ("ά", "Ά"); ("έ", "Έ"); ("ή", "Ή"); ("ί", "Ί"); ("ΰ", "Ϋ́");
    ("α", "Α"); ("β", "Β"); ("γ", "Γ"); ("δ", "Δ"); ("ε", "Ε"); ("ζ", "Ζ");
    ("η", "Η"); ("θ", "Θ"); ("ι", "Ι"); ("κ", "Κ"); ("λ", "Λ"); ("μ", "Μ");
    ("ν", "Ν"); ("ξ", "Ξ"); ("ο", "Ο"); ("π", "Π"); ("ρ", "Ρ"); ("ς", "Σ");
    ("σ", "Σ"); ("τ", "Τ"); ("υ", "Υ"); ("φ", "Φ"); ("χ", "Χ"); ("ψ", "Ψ");
    ("ω", "Ω"); ("ϊ", "Ϊ"); ("ϋ", "Ϋ"); ("ό", "Ό"); ("ύ", "Ύ"); ("ώ", "Ώ");
    ("ϐ", "Β"); ("ϑ", "Θ"); ("ϕ", "Φ"); ("ϖ", "Π"); ("ϗ", "Ϗ"); ("ϙ", "Ϙ");
    ("ϛ", "Ϛ"); ("ϝ", "Ϝ"); ("ϟ", "Ϟ"); ("ϡ", "Ϡ"); ("ϣ", "Ϣ"); ("ϥ", "Ϥ");
    ("ϧ", "Ϧ"); ("ϩ", "Ϩ"); ("ϫ", "Ϫ"); ("ϭ", "Ϭ"); ("ϯ", "Ϯ"); ("ϰ", "Κ");
    ("ϱ", "Ρ"); ("ϲ", "Ϲ"); ("ϳ", "Ϳ"); ("ϵ", "Ε"); ("ϸ", "Ϸ"); ("ϻ", "Ϻ");
    ("а", "А"); ("б", "Б"); ("в", "В"); ("г", "Г"); ("д", "Д"); ("е", "Е");
    ("ж", "Ж"); ("з", "З"); ("и", "И"); ("й", "Й"); ("к", "К"); ("л", "Л");
    ("м", "М"); ("н", "Н"); ("о", "О"); ("п", "П"); ("р", "Р"); ("с", "С");
    ("т", "Т"); ("у", "У"); ("ф", "Ф"); ("х", "Х"); ("ц", "Ц"); ("ч", "Ч");
    ("ш", "Ш"); ("щ", "Щ"); ("ъ", "Ъ"); ("ы", "Ы"); ("ь", "Ь"); ("э", "Э");
    ("ю", "Ю"); ("я", "Я"); ("ѐ", "Ѐ"); ("ё", "Ё"); ("ђ", "Ђ"); ("ѓ", "Ѓ");
    ("є", "Є"); ("ѕ", "Ѕ"); ("і", "І"); ("ї", "Ї"); ("ј", "Ј"); ("љ", "Љ");
    ("њ", "Њ"); ("ћ", "Ћ"); ("ќ", "Ќ"); ("ѝ", "Ѝ"); ("ў", "Ў"); ("џ", "Џ");
    ("ѡ", "Ѡ"); ("ѣ", "Ѣ"); ("ѥ", "Ѥ"); ("ѧ", "Ѧ"); ("ѩ", "Ѩ"); ("ѫ", "Ѫ");
    ("ѭ", "Ѭ"); ("ѯ", "Ѯ"); ("ѱ", "Ѱ"); ("ѳ", "Ѳ"); ("ѵ", "Ѵ"); ("ѷ", "Ѷ");
    ("ѹ", "Ѹ"); ("ѻ", "Ѻ"); ("ѽ", "Ѽ"); ("ѿ", "Ѿ"); ("ҁ", "Ҁ"); ("ҋ", "Ҋ");
    ("ҍ", "Ҍ"); ("ҏ", "Ҏ"); ("ґ", "Ґ"); ("ғ", "Ғ"); ("ҕ", "Ҕ"); ("җ", "Җ");
    ("ҙ", "Ҙ"); ("қ", "Қ"); ("ҝ", "Ҝ"); ("ҟ", "Ҟ"); ("ҡ", "Ҡ"); ("ң", "Ң");
    ("ҥ", "Ҥ"); ("ҧ", "Ҧ"); ("ҩ", "Ҩ"); ("ҫ", "Ҫ"); ("ҭ", "Ҭ"); ("ү", "Ү");
    ("ұ", "Ұ"); ("ҳ", "Ҳ"); ("ҵ", "Ҵ"); ("ҷ", "Ҷ"); ("ҹ", "Ҹ"); ("һ", "Һ");
    ("ҽ", "Ҽ"); ("ҿ", "Ҿ"); ("ӂ", "Ӂ"); ("ӄ", "Ӄ"); ("ӆ", "Ӆ"); ("ӈ", "Ӈ");
    ("ӊ", "Ӊ"); ("ӌ", "Ӌ"); ("ӎ", "Ӎ"); ("ӏ", "Ӏ"); ("ӑ", "Ӑ"); ("ӓ", "Ӓ");
    ("ӕ", "Ӕ"); ("ӗ", "Ӗ"); ("ә", "Ә"); ("ӛ", "Ӛ"); ("ӝ", "Ӝ"); ("ӟ", "Ӟ");
    ("ӡ", "Ӡ"); ("ӣ", "Ӣ"); ("ӥ", "Ӥ"); ("ӧ", "Ӧ"); ("ө", "Ө"); ("ӫ", "Ӫ");
    ("ӭ", "Ӭ"); ("ӯ", "Ӯ"); ("ӱ", "Ӱ"); ("ӳ", "Ӳ"); ("ӵ", "Ӵ"); ("ӷ", "Ӷ");
    ("ӹ", "Ӹ"); ("ӻ", "Ӻ"); ("ӽ", "Ӽ"); ("ӿ", "Ӿ"); ("ԁ", "Ԁ"); ("ԃ", "Ԃ");
    ("ԅ", "Ԅ"); ("ԇ", "Ԇ"); ("ԉ", "Ԉ"); ("ԋ", "Ԋ"); ("ԍ", "Ԍ"); ("ԏ", "Ԏ");
    ("ԑ", "Ԑ"); ("ԓ", "Ԓ"); ("ԕ", "Ԕ"); ("ԗ", "Ԗ"); ("ԙ", "Ԙ"); ("ԛ", "Ԛ");
    ("ԝ", "Ԝ"); ("ԟ", "Ԟ"); ("ԡ", "Ԡ"); ("ԣ", "Ԣ"); ("ԥ", "Ԥ"); ("ԧ", "Ԧ");
    ("ԩ", "Ԩ"); ("ԫ", "Ԫ"); ("ԭ", "Ԭ"); ("ԯ", "Ԯ"); ("ա", "Ա"); ("բ", "Բ");
    ("գ", "Գ"); ("դ", "Դ"); ("ե", "Ե"); ("զ", "Զ"); ("է", "Է"); ("ը", "Ը");
    ("թ", "Թ"); ("ժ", "Ժ"); ("ի", "Ի"); ("լ", "Լ"); ("խ", "Խ"); ("ծ", "Ծ");
    ("կ", "Կ"); ("հ", "Հ"); ("ձ", "Ձ"); ("ղ", "Ղ"); ("ճ", "Ճ"); ("մ", "Մ");
    ("յ", "Յ"); ("ն", "Ն"); ("շ", "Շ"); ("ո", "Ո"); ("չ", "Չ"); ("պ", "Պ");
    ("ջ", "Ջ"); ("ռ", "Ռ"); ("ս", "Ս"); ("վ", "Վ"); ("տ", "Տ"); ("ր", "Ր");
    ("ց", "Ց"); ("ւ", "Ւ"); ("փ", "Փ"); ("ք", "Ք"); ("օ", "Օ"); ("ֆ", "Ֆ");
    ("և", "ԵՒ"); ("ა", "Ა"); ("ბ", "Ბ"); ("გ", "Გ"); ("დ", "Დ"); ("ე", "Ე");
    ("ვ", "Ვ"); ("ზ", "Ზ"); ("თ", "Თ"); ("ი", "Ი"); ("კ", "Კ"); ("ლ", "Ლ");
    ("მ", "Მ"); ("ნ", "Ნ"); ("ო", "Ო"); ("პ", "Პ"); ("ჟ", "Ჟ"); ("რ", "Რ");
    ("ს", "Ს"); ("ტ", "Ტ"); ("უ", "Უ"); ("ფ", "Ფ"); ("ქ", "Ქ"); ("ღ", "Ღ");
    ("ყ", "Ყ"); ("შ", "Შ"); ("ჩ", "Ჩ"); ("ც", "Ც"); ("ძ", "Ძ"); ("წ", "Წ");
    ("ჭ", "Ჭ"); ("ხ", "Ხ"); ("ჯ", "Ჯ"); ("ჰ", "Ჰ"); ("ჱ", "Ჱ"); ("ჲ", "Ჲ");
    ("ჳ", "Ჳ"); ("ჴ", "Ჴ"); ("ჵ", "Ჵ"); ("ჶ", "Ჶ"); ("ჷ", "Ჷ"); ("ჸ", "Ჸ");
    ("ჹ", "Ჹ"); ("ჺ", "Ჺ"); ("ჽ", "Ჽ"); ("ჾ", "Ჾ"); ("ჿ", "Ჿ"); ("ᏸ", "Ᏸ");
    ("ᏹ", "Ᏹ"); ("ᏺ", "Ᏺ"); ("ᏻ", "Ᏻ"); ("ᏼ", "Ᏼ"); ("ᏽ", "Ᏽ"); ("ᲀ", "В");
    ("ᲁ", "Д"); ("ᲂ", "О"); ("ᲃ", "С"); ("ᲄ", "Т"); ("ᲅ", "Т"); ("ᲆ", "Ъ");
    ("ᲇ", "Ѣ"); ("ᲈ", "Ꙋ"); ("ᵹ", "Ᵹ"); ("ᵽ", "Ᵽ"); ("ᶎ", "Ᶎ"); ("ḁ", "Ḁ");
    ("ḃ", "Ḃ"); ("ḅ", "Ḅ"); ("ḇ", "Ḇ"); ("ḉ", "Ḉ"); ("ḋ", "Ḋ"); ("ḍ", "Ḍ");
    ("ḏ", "Ḏ"); ("ḑ", "Ḑ"); ("ḓ", "Ḓ"); ("ḕ", "Ḕ"); ("ḗ", "Ḗ"); ("ḙ", "Ḙ");
    ("ḛ", "Ḛ"); ("ḝ", "Ḝ"); ("ḟ", "Ḟ"); ("ḡ", "Ḡ"); ("ḣ", "Ḣ"); ("ḥ", "Ḥ");
    ("ḧ", "Ḧ"); ("ḩ", "Ḩ"); ("ḫ", "Ḫ"); ("ḭ", "Ḭ"); ("ḯ", "Ḯ"); ("ḱ", "Ḱ");
    ("ḳ", "Ḳ"); ("ḵ", "Ḵ"); ("ḷ", "Ḷ"); ("ḹ", "Ḹ"); ("ḻ", "Ḻ"); ("ḽ", "Ḽ");
    ("ḿ", "Ḿ"); ("ṁ", "Ṁ"); ("ṃ", "Ṃ"); ("ṅ", "Ṅ"); ("ṇ", "Ṇ"); ("ṉ", "Ṉ");
    ("ṋ", "Ṋ"); ("ṍ", "Ṍ"); ("ṏ", "Ṏ"); ("ṑ", "Ṑ"); ("ṓ", "Ṓ"); ("ṕ", "Ṕ");
    ("ṗ", "Ṗ"); ("ṙ", "Ṙ"); ("ṛ", "Ṛ"); ("ṝ", "Ṝ"); ("ṟ", "Ṟ"); ("ṡ", "Ṡ");
    ("ṣ", "Ṣ"); ("ṥ", "Ṥ"); ("ṧ", "Ṧ"); ("ṩ", "Ṩ"); ("ṫ", "Ṫ"); ("ṭ", "Ṭ");
    ("ṯ", "Ṯ"); ("ṱ", "Ṱ"); ("ṳ", "Ṳ"); ("ṵ", "Ṵ"); ("ṷ", "Ṷ"); ("ṹ", "Ṹ");
    ("ṻ", "Ṻ"); ("ṽ", "Ṽ"); ("ṿ", "Ṿ"); ("ẁ", "Ẁ"); ("ẃ", "Ẃ"); ("ẅ", "Ẅ");
    ("ẇ", "Ẇ"); ("ẉ", "Ẉ"); ("ẋ", "Ẋ"); ("ẍ", "Ẍ"); ("ẏ", "Ẏ"); ("ẑ", "Ẑ");
    ("ẓ", "Ẓ"); ("ẕ", "Ẕ"); ("ẖ", "H̱"); ("ẗ", "T̈"); ("ẘ", "W̊"); ("ẙ", "Y̊");
    ("ẚ", "Aʾ"); ("ẛ", "Ṡ"); ("ạ", "Ạ"); ("ả", "Ả"); ("ấ", "Ấ"); ("ầ", "Ầ");
    ("ẩ", "Ẩ"); ("ẫ", "Ẫ"); ("ậ", "Ậ"); ("ắ", "Ắ"); ("ằ", "Ằ"); ("ẳ", "Ẳ");
    ("ẵ", "Ẵ"); ("ặ", "Ặ"); ("ẹ", "Ẹ"); ("ẻ", "Ẻ"); ("ẽ", "Ẽ"); ("ế", "Ế");
    ("ề", "Ề"); ("ể", "Ể"); ("ễ", "Ễ"); ("ệ", "Ệ"); ("ỉ", "Ỉ"); ("ị", "Ị");
    ("ọ", "Ọ"); ("ỏ", "Ỏ"); ("ố", "Ố"); ("ồ", "Ồ"); ("ổ", "Ổ"); ("ỗ", "Ỗ");
    ("ộ", "Ộ"); ("ớ", "Ớ"); ("ờ", "Ờ"); ("ở", "Ở"); ("ỡ", "Ỡ"); ("ợ", "Ợ");
    ("ụ", "Ụ"); ("ủ", "Ủ"); ("ứ", "Ứ"); ("ừ", "Ừ"); ("ử", "Ử"); ("ữ", "Ữ");
    ("ự", "Ự"); ("ỳ", "Ỳ"); ("ỵ", "Ỵ"); ("ỷ", "Ỷ"); ("ỹ", "Ỹ"); ("ỻ", "Ỻ");
    ("ỽ", "Ỽ"); ("ỿ", "Ỿ"); ("ἀ", "Ἀ"); ("ἁ", "Ἁ"); ("ἂ", "Ἂ"); ("ἃ", "Ἃ");
    ("ἄ", "Ἄ"); ("ἅ", "Ἅ"); ("ἆ", "Ἆ"); ("ἇ", "Ἇ"); ("ἐ", "Ἐ"); ("ἑ", "Ἑ");
    ("ἒ", "Ἒ"); ("ἓ", "Ἓ"); ("ἔ", "Ἔ"); ("ἕ", "Ἕ"); ("ἠ", "Ἠ"); ("ἡ", "Ἡ");
    ("ἢ", "Ἢ"); ("ἣ", "Ἣ"); ("ἤ", "Ἤ"); ("ἥ", "Ἥ"); ("ἦ", "Ἦ"); ("ἧ", "Ἧ");
    ("ἰ", "Ἰ"); ("ἱ", "Ἱ"); ("ἲ", "Ἲ"); ("ἳ", "Ἳ"); ("ἴ", "Ἴ"); ("ἵ", "Ἵ");
    ("ἶ", "Ἶ"); ("ἷ", "Ἷ"); ("ὀ", "Ὀ"); ("ὁ", "Ὁ"); ("ὂ", "Ὂ"); ("ὃ", "Ὃ");
    ("ὄ", "Ὄ"); ("ὅ", "Ὅ"); ("ὐ", "Υ̓"); ("ὑ", "Ὑ"); ("ὒ", "Υ̓̀"); ("ὓ", "Ὓ");
    ("ὔ", "Υ̓́"); ("ὕ", "Ὕ"); ("ὖ", "Υ̓͂"); ("ὗ", "Ὗ"); ("ὠ", "Ὠ"); ("ὡ", "Ὡ");
    ("ὢ", "Ὢ"); ("ὣ", "Ὣ"); ("ὤ", "Ὤ"); ("ὥ", "Ὥ"); ("ὦ", "Ὦ"); ("ὧ", "Ὧ");
    ("ὰ", "Ὰ"); ("ά", "Ά"); ("ὲ", "Ὲ"); ("έ", "Έ"); ("ὴ", "Ὴ"); ("ή", "Ή");
    ("ὶ", "Ὶ"); ("ί", "Ί"); ("ὸ", "Ὸ"); ("ό", "Ό"); ("ὺ", "Ὺ"); ("ύ", "Ύ");
    ("ὼ", "Ὼ"); ("ώ", "Ώ"); ("ᾀ", "ἈΙ"); ("ᾁ", "ἉΙ"); ("ᾂ", "ἊΙ"); ("ᾃ", "ἋΙ");
    ("ᾄ", "ἌΙ"); ("ᾅ", "ἍΙ"); ("ᾆ", "ἎΙ"); ("ᾇ", "ἏΙ"); ("ᾈ", "ἈΙ"); ("ᾉ", "ἉΙ");
    ("ᾊ", "ἊΙ"); ("ᾋ", "ἋΙ"); ("ᾌ", "ἌΙ"); ("ᾍ", "ἍΙ"); ("ᾎ", "ἎΙ"); ("ᾏ", "ἏΙ");
    ("ᾐ", "ἨΙ"); ("ᾑ", "ἩΙ"); ("ᾒ", "ἪΙ"); ("ᾓ", "ἫΙ"); ("ᾔ", "ἬΙ"); ("ᾕ", "ἭΙ");
    ("ᾖ", "ἮΙ"); ("ᾗ", "ἯΙ"); ("ᾘ", "ἨΙ"); ("ᾙ", "ἩΙ"); ("ᾚ", "ἪΙ"); ("ᾛ", "ἫΙ");
    ("ᾜ", "ἬΙ"); ("ᾝ", "ἭΙ"); ("ᾞ", "ἮΙ"); ("ᾟ", "ἯΙ"); ("ᾠ", "ὨΙ"); ("ᾡ", "ὩΙ");
    ("ᾢ", "ὪΙ"); ("ᾣ", "ὫΙ"); ("ᾤ", "ὬΙ"); ("ᾥ", "ὭΙ"); ("ᾦ", "ὮΙ"); ("ᾧ", "ὯΙ");
    ("ᾨ", "ὨΙ"); ("ᾩ", "ὩΙ"); ("ᾪ", "ὪΙ"); ("ᾫ", "ὫΙ"); ("ᾬ", "ὬΙ"); ("ᾭ", "ὭΙ");
    ("ᾮ", "ὮΙ"); ("ᾯ", "ὯΙ"); ("ᾰ", "Ᾰ"); ("ᾱ", "Ᾱ"); ("ᾲ", "ᾺΙ"); ("ᾳ", "ΑΙ");
    ("ᾴ", "ΆΙ"); ("ᾶ", "Α͂"); ("ᾷ", "Α͂Ι"); ("ᾼ", "ΑΙ"); ("ι", "Ι"); ("ῂ", "ῊΙ");
    ("ῃ", "ΗΙ"); ("ῄ", "ΉΙ"); ("ῆ", "Η͂"); ("ῇ", "Η͂Ι"); ("ῌ", "ΗΙ"); ("ῐ", "Ῐ");
    ("ῑ", "Ῑ"); ("ῒ", "Ϊ̀"); ("ΐ", "Ϊ́"); ("ῖ", "Ι͂"); ("ῗ", "Ϊ͂"); ("ῠ", "Ῠ");
    ("ῡ", "Ῡ"); ("ῢ", "Ϋ̀"); ("ΰ", "Ϋ́"); ("ῤ", "Ρ̓"); ("ῥ", "Ῥ"); ("ῦ", "Υ͂");
    ("ῧ", "Ϋ͂"); ("ῲ", "ῺΙ"); ("ῳ", "ΩΙ"); ("ῴ", "ΏΙ"); ("ῶ", "Ω͂"); ("ῷ", "Ω͂Ι");
    ("ῼ", "ΩΙ"); ("ⅎ", "Ⅎ"); ("ⅰ", "Ⅰ"); ("ⅱ", "Ⅱ"); ("ⅲ", "Ⅲ"); ("ⅳ", "Ⅳ");
    ("ⅴ", "Ⅴ"); ("ⅵ", "Ⅵ"); ("ⅶ", "Ⅶ"); ("ⅷ", "Ⅷ"); ("ⅸ", "Ⅸ"); ("ⅹ", "Ⅹ");
    ("ⅺ", "Ⅺ"); ("ⅻ", "Ⅻ"); ("ⅼ", "Ⅼ"); ("ⅽ", "Ⅽ"); ("ⅾ", "Ⅾ"); ("ⅿ", "Ⅿ");
    ("ↄ", "Ↄ"); ("ⓐ", "Ⓐ"); ("ⓑ", "Ⓑ"); ("ⓒ", "Ⓒ"); ("ⓓ", "Ⓓ"); ("ⓔ", "Ⓔ");
    ("ⓕ", "Ⓕ"); ("ⓖ", "Ⓖ"); ("ⓗ", "Ⓗ"); ("ⓘ", "Ⓘ"); ("ⓙ", "Ⓙ"); ("ⓚ", "Ⓚ");
    ("ⓛ", "Ⓛ"); ("ⓜ", "Ⓜ"); ("ⓝ", "Ⓝ"); ("ⓞ", "Ⓞ"); ("ⓟ", "Ⓟ"); ("ⓠ", "Ⓠ");
    ("ⓡ", "Ⓡ"); ("ⓢ", "Ⓢ"); ("ⓣ", "Ⓣ"); ("ⓤ", "Ⓤ"); ("ⓥ", "Ⓥ"); ("ⓦ", "Ⓦ");
    ("ⓧ", "Ⓧ"); ("ⓨ", "Ⓨ"); ("ⓩ", "Ⓩ"); ("ⰰ", "Ⰰ"); ("ⰱ", "Ⰱ"); ("ⰲ", "Ⰲ");
    ("ⰳ", "Ⰳ"); ("ⰴ", "Ⰴ"); ("ⰵ", "Ⰵ"); ("ⰶ", "Ⰶ"); ("ⰷ", "Ⰷ"); ("ⰸ", "Ⰸ");
    ("ⰹ", "Ⰹ"); ("ⰺ", "Ⰺ"); ("ⰻ", "Ⰻ"); ("ⰼ", "Ⰼ"); ("ⰽ", "Ⰽ"); ("ⰾ", "Ⰾ");
    ("ⰿ", "Ⰿ"); ("ⱀ", "Ⱀ"); ("ⱁ", "Ⱁ"); ("ⱂ", "Ⱂ"); ("ⱃ", "Ⱃ"); ("ⱄ", "Ⱄ");
    ("ⱅ", "Ⱅ"); ("ⱆ", "Ⱆ"); ("ⱇ", "Ⱇ"); ("ⱈ", "Ⱈ"); ("ⱉ", "Ⱉ"); ("ⱊ", "Ⱊ");
    ("ⱋ", "Ⱋ"); ("ⱌ", "Ⱌ"); ("ⱍ", "Ⱍ"); ("ⱎ", "Ⱎ"); ("ⱏ", "Ⱏ"); ("ⱐ", "Ⱐ");
    ("ⱑ", "Ⱑ"); ("ⱒ", "Ⱒ"); ("ⱓ", "Ⱓ"); ("ⱔ", "Ⱔ"); ("ⱕ", "Ⱕ"); ("ⱖ", "Ⱖ");
    ("ⱗ", "Ⱗ"); ("ⱘ", "Ⱘ"); ("ⱙ", "Ⱙ"); ("ⱚ", "Ⱚ"); ("ⱛ", "Ⱛ"); ("ⱜ", "Ⱜ");
    ("ⱝ", "Ⱝ"); ("ⱞ", "Ⱞ"); ("ⱟ", "Ⱟ"); ("ⱡ", "Ⱡ"); ("ⱥ", "Ⱥ"); ("ⱦ", "Ⱦ");
    ("ⱨ", "Ⱨ"); ("ⱪ", "Ⱪ"); ("ⱬ", "Ⱬ"); ("ⱳ", "Ⱳ"); ("ⱶ", "Ⱶ"); ("ⲁ", "Ⲁ");
    ("ⲃ", "Ⲃ"); ("ⲅ", "Ⲅ"); ("ⲇ", "Ⲇ"); ("ⲉ", "Ⲉ"); ("ⲋ", "Ⲋ"); ("ⲍ", "Ⲍ");
    ("ⲏ", "Ⲏ"); ("ⲑ", "Ⲑ"); ("ⲓ", "Ⲓ"); ("ⲕ", "Ⲕ"); ("ⲗ", "Ⲗ"); ("ⲙ", "Ⲙ");
    ("ⲛ", "Ⲛ"); ("ⲝ", "Ⲝ"); ("ⲟ", "Ⲟ"); ("ⲡ", "Ⲡ"); ("ⲣ", "Ⲣ"); ("ⲥ", "Ⲥ");
    ("ⲧ", "Ⲧ"); ("ⲩ", "Ⲩ"); ("ⲫ", "Ⲫ"); ("ⲭ", "Ⲭ"); ("ⲯ", "Ⲯ"); ("ⲱ", "Ⲱ");
    ("ⲳ", "Ⲳ"); ("ⲵ", "Ⲵ"); ("ⲷ", "Ⲷ"); ("ⲹ", "Ⲹ"); ("ⲻ", "Ⲻ"); ("ⲽ", "Ⲽ");
    ("ⲿ", "Ⲿ"); ("ⳁ", "Ⳁ"); ("ⳃ", "Ⳃ"); ("ⳅ", "Ⳅ"); ("ⳇ", "Ⳇ"); ("ⳉ", "Ⳉ");
    ("ⳋ", "Ⳋ"); ("ⳍ", "Ⳍ"); ("ⳏ", "Ⳏ"); ("ⳑ", "Ⳑ"); ("ⳓ", "Ⳓ"); ("ⳕ", "Ⳕ");
    ("ⳗ", "Ⳗ"); ("ⳙ", "Ⳙ"); ("ⳛ", "Ⳛ"); ("ⳝ", "Ⳝ"); ("ⳟ", "Ⳟ"); ("ⳡ", "Ⳡ");
    ("ⳣ", "Ⳣ"); ("ⳬ", "Ⳬ"); ("ⳮ", "Ⳮ"); ("ⳳ", "Ⳳ"); ("ⴀ", "Ⴀ"); ("ⴁ", "Ⴁ");
    ("ⴂ", "Ⴂ"); ("ⴃ", "Ⴃ"); ("ⴄ", "Ⴄ"); ("ⴅ", "Ⴅ"); ("ⴆ", "Ⴆ"); ("ⴇ", "Ⴇ");
    ("ⴈ", "Ⴈ"); ("ⴉ", "Ⴉ"); ("ⴊ", "Ⴊ"); ("ⴋ", "Ⴋ"); ("ⴌ", "Ⴌ"); ("ⴍ", "Ⴍ");
    ("ⴎ", "Ⴎ"); ("ⴏ", "Ⴏ"); ("ⴐ", "Ⴐ"); ("ⴑ", "Ⴑ"); ("ⴒ", "Ⴒ"); ("ⴓ", "Ⴓ");
    ("ⴔ", "Ⴔ"); ("ⴕ", "Ⴕ"); ("ⴖ", "Ⴖ"); ("ⴗ", "Ⴗ"); ("ⴘ", "Ⴘ"); ("ⴙ", "Ⴙ");
    ("ⴚ", "Ⴚ"); ("ⴛ", "Ⴛ"); ("ⴜ", "Ⴜ"); ("ⴝ", "Ⴝ"); ("ⴞ", "Ⴞ"); ("ⴟ", "Ⴟ");
    ("ⴠ", "Ⴠ"); ("ⴡ", "Ⴡ"); ("ⴢ", "Ⴢ"); ("ⴣ", "Ⴣ"); ("ⴤ", "Ⴤ"); ("ⴥ", "Ⴥ");
    ("ⴧ", "Ⴧ"); ("ⴭ", "Ⴭ"); ("ꙁ", "Ꙁ"); ("ꙃ", "Ꙃ"); ("ꙅ", "Ꙅ"); ("ꙇ", "Ꙇ");
    ("ꙉ", "Ꙉ"); ("ꙋ", "Ꙋ"); ("ꙍ", "Ꙍ"); ("ꙏ", "Ꙏ"); ("ꙑ", "Ꙑ"); ("ꙓ", "Ꙓ");
    ("ꙕ", "Ꙕ"); ("ꙗ", "Ꙗ"); ("ꙙ", "Ꙙ"); ("ꙛ", "Ꙛ"); ("ꙝ", "Ꙝ"); ("ꙟ", "Ꙟ");
    ("ꙡ", "Ꙡ"); ("ꙣ", "Ꙣ"); ("ꙥ", "Ꙥ"); ("ꙧ", "Ꙧ"); ("ꙩ", "Ꙩ"); ("ꙫ", "Ꙫ");
    ("ꙭ", "Ꙭ"); ("ꚁ", "Ꚁ"); ("ꚃ", "Ꚃ"); ("ꚅ", "Ꚅ"); ("ꚇ", "Ꚇ"); ("ꚉ", "Ꚉ");
    ("ꚋ", "Ꚋ"); ("ꚍ", "Ꚍ"); ("ꚏ", "Ꚏ"); ("ꚑ", "Ꚑ"); ("ꚓ", "Ꚓ"); ("ꚕ", "Ꚕ");
    ("ꚗ", "Ꚗ"); ("ꚙ", "Ꚙ"); ("ꚛ", "Ꚛ"); ("ꜣ", "Ꜣ"); ("ꜥ", "Ꜥ"); ("ꜧ", "Ꜧ");
    ("ꜩ", "Ꜩ"); ("ꜫ", "Ꜫ"); ("ꜭ", "Ꜭ"); ("ꜯ", "Ꜯ"); ("ꜳ", "Ꜳ"); ("ꜵ", "Ꜵ");
    ("ꜷ", "Ꜷ"); ("ꜹ", "Ꜹ"); ("ꜻ", "Ꜻ"); ("ꜽ", "Ꜽ"); ("ꜿ", "Ꜿ"); ("ꝁ", "Ꝁ");
    ("ꝃ", "Ꝃ"); ("ꝅ", "Ꝅ"); ("ꝇ", "Ꝇ"); ("ꝉ", "Ꝉ"); ("ꝋ", "Ꝋ"); ("ꝍ", "Ꝍ");
    ("ꝏ", "Ꝏ"); ("ꝑ", "Ꝑ"); ("ꝓ", "Ꝓ"); ("ꝕ", "Ꝕ"); ("ꝗ", "Ꝗ"); ("ꝙ", "Ꝙ");
    ("ꝛ", "Ꝛ"); ("ꝝ", "Ꝝ"); ("ꝟ", "Ꝟ"); ("ꝡ", "Ꝡ"); ("ꝣ", "Ꝣ"); ("ꝥ", "Ꝥ");
    ("ꝧ", "Ꝧ"); ("ꝩ", "Ꝩ"); ("ꝫ", "Ꝫ"); ("ꝭ", "Ꝭ"); ("ꝯ", "Ꝯ"); ("ꝺ", "Ꝺ");
    ("ꝼ", "Ꝼ"); ("ꝿ", "Ꝿ"); ("ꞁ", "Ꞁ"); ("ꞃ", "Ꞃ"); ("ꞅ", "Ꞅ"); ("ꞇ", "Ꞇ");
    ("ꞌ", "Ꞌ"); ("ꞑ", "Ꞑ"); ("ꞓ", "Ꞓ"); ("ꞔ", "Ꞔ"); ("ꞗ", "Ꞗ"); ("ꞙ", "Ꞙ");
    ("ꞛ", "Ꞛ"); ("ꞝ", "Ꞝ"); ("ꞟ", "Ꞟ"); ("ꞡ", "Ꞡ"); ("ꞣ", "Ꞣ"); ("ꞥ", "Ꞥ");
    ("ꞧ", "Ꞧ"); ("ꞩ", "Ꞩ"); ("ꞵ", "Ꞵ"); ("ꞷ", "Ꞷ"); ("ꞹ", "Ꞹ"); ("ꞻ", "Ꞻ");
    ("ꞽ", "Ꞽ"); ("ꞿ", "Ꞿ"); ("ꟁ", "Ꟁ"); ("ꟃ", "Ꟃ"); ("ꟈ", "Ꟈ"); ("ꟊ", "Ꟊ");
    ("ꟑ", "Ꟑ"); ("ꟗ", "Ꟗ"); ("ꟙ", "Ꟙ"); ("ꟶ", "Ꟶ"); ("ꭓ", "Ꭓ"); ("ꭰ", "Ꭰ");
    ("ꭱ", "Ꭱ"); ("ꭲ", "Ꭲ"); ("ꭳ", "Ꭳ"); ("ꭴ", "Ꭴ"); ("ꭵ", "Ꭵ"); ("ꭶ", "Ꭶ");
    ("ꭷ", "Ꭷ"); ("ꭸ", "Ꭸ"); ("ꭹ", "Ꭹ"); ("ꭺ", "Ꭺ"); ("ꭻ", "Ꭻ"); ("ꭼ", "Ꭼ");
    ("ꭽ", "Ꭽ"); ("ꭾ", "Ꭾ"); ("ꭿ", "Ꭿ"); ("ꮀ", "Ꮀ"); ("ꮁ", "Ꮁ"); ("ꮂ", "Ꮂ");
    ("ꮃ", "Ꮃ"); ("ꮄ", "Ꮄ"); ("ꮅ", "Ꮅ"); ("ꮆ", "Ꮆ"); ("ꮇ", "Ꮇ"); ("ꮈ", "Ꮈ");
    ("ꮉ", "Ꮉ"); ("ꮊ", "Ꮊ"); ("ꮋ", "Ꮋ"); ("ꮌ", "Ꮌ"); ("ꮍ", "Ꮍ"); ("ꮎ", "Ꮎ");
    ("ꮏ", "Ꮏ"); ("ꮐ", "Ꮐ"); ("ꮑ", "Ꮑ"); ("ꮒ", "Ꮒ"); ("ꮓ", "Ꮓ"); ("ꮔ", "Ꮔ");
    ("ꮕ", "Ꮕ"); ("ꮖ", "Ꮖ"); ("ꮗ", "Ꮗ"); ("ꮘ", "Ꮘ"); ("ꮙ", "Ꮙ"); ("ꮚ", "Ꮚ");
    ("ꮛ", "Ꮛ"); ("ꮜ", "Ꮜ"); ("ꮝ", "Ꮝ"); ("ꮞ", "Ꮞ"); ("ꮟ", "Ꮟ"); ("ꮠ", "Ꮠ");
    ("ꮡ", "Ꮡ"); ("ꮢ", "Ꮢ"); ("ꮣ", "Ꮣ"); ("ꮤ", "Ꮤ"); ("ꮥ", "Ꮥ"); ("ꮦ", "Ꮦ");
    ("ꮧ", "Ꮧ"); ("ꮨ", "Ꮨ"); ("ꮩ", "Ꮩ"); ("ꮪ", "Ꮪ"); ("ꮫ", "Ꮫ"); ("ꮬ", "Ꮬ");
    ("ꮭ", "Ꮭ"); ("ꮮ", "Ꮮ"); ("ꮯ", "Ꮯ"); ("ꮰ", "Ꮰ"); ("ꮱ", "Ꮱ"); ("ꮲ", "Ꮲ");
    ("ꮳ", "Ꮳ"); ("ꮴ", "Ꮴ"); ("ꮵ", "Ꮵ"); ("ꮶ", "Ꮶ"); ("ꮷ", "Ꮷ"); ("ꮸ", "Ꮸ");
    ("ꮹ", "Ꮹ"); ("ꮺ", "Ꮺ"); ("ꮻ", "Ꮻ"); ("ꮼ", "Ꮼ"); ("ꮽ", "Ꮽ"); ("ꮾ", "Ꮾ");
    ("ꮿ", "Ꮿ"); ("ﬀ", "FF"); ("ﬁ", "FI"); ("ﬂ", "FL"); ("ﬃ", "FFI"); ("ﬄ", "FFL");
    ("ﬅ", "ST"); ("ﬆ", "ST"); ("ﬓ", "ՄՆ"); ("ﬔ", "ՄԵ"); ("ﬕ", "ՄԻ"); ("ﬖ", "ՎՆ");
    ("ﬗ", "ՄԽ"); ("ａ", "Ａ"); ("ｂ", "Ｂ"); ("ｃ", "Ｃ"); ("ｄ", "Ｄ"); ("ｅ", "Ｅ");
    ("ｆ", "Ｆ"); ("ｇ", "Ｇ"); ("ｈ", "Ｈ"); ("ｉ", "Ｉ"); ("ｊ", "Ｊ"); ("ｋ", "Ｋ");
    ("ｌ", "Ｌ"); ("ｍ", "Ｍ"); ("ｎ", "Ｎ"); ("ｏ", "Ｏ"); ("ｐ", "Ｐ"); ("ｑ", "Ｑ");
    ("ｒ", "Ｒ"); ("ｓ", "Ｓ"); ("ｔ", "Ｔ"); ("ｕ", "Ｕ"); ("ｖ", "Ｖ"); ("ｗ", "Ｗ");
    ("ｘ", "Ｘ"); ("ｙ", "Ｙ"); ("ｚ", "Ｚ"); ("𐐨", "𐐀"); ("𐐩", "𐐁"); ("𐐪", "𐐂");
    ("𐐫", "𐐃"); ("𐐬", "𐐄"); ("𐐭", "𐐅"); ("𐐮", "𐐆"); ("𐐯", "𐐇"); ("𐐰", "𐐈");
    ("𐐱", "𐐉"); ("𐐲", "𐐊"); ("𐐳", "𐐋"); ("𐐴", "𐐌"); ("𐐵", "𐐍"); ("𐐶", "𐐎");
    ("𐐷", "𐐏"); ("𐐸", "𐐐"); ("𐐹", "𐐑"); ("𐐺", "𐐒"); ("𐐻", "𐐓"); ("𐐼", "𐐔");
    ("𐐽", "𐐕"); ("𐐾", "𐐖"); ("𐐿", "𐐗"); ("𐑀", "𐐘"); ("𐑁", "𐐙"); ("𐑂", "𐐚");
    ("𐑃", "𐐛"); ("𐑄", "𐐜"); ("𐑅", "𐐝"); ("𐑆", "𐐞"); ("𐑇", "𐐟"); ("𐑈", "𐐠");
    ("𐑉", "𐐡"); ("𐑊", "𐐢"); ("𐑋", "𐐣"); ("𐑌", "𐐤"); ("𐑍", "𐐥"); ("𐑎", "𐐦");
    ("𐑏", "𐐧"); ("𐓘", "𐒰"); ("𐓙", "𐒱"); ("𐓚", "𐒲"); ("𐓛", "𐒳"); ("𐓜", "𐒴");
    ("𐓝", "𐒵"); ("𐓞", "𐒶"); ("𐓟", "𐒷"); ("𐓠", "𐒸"); ("𐓡", "𐒹"); ("𐓢", "𐒺");
    ("𐓣", "𐒻"); ("𐓤", "𐒼"); ("𐓥", "𐒽"); ("𐓦", "𐒾"); ("𐓧", "𐒿"); ("𐓨", "𐓀");
    ("𐓩", "𐓁"); ("𐓪", "𐓂"); ("𐓫", "𐓃"); ("𐓬", "𐓄"); ("𐓭", "𐓅"); ("𐓮", "𐓆");
    ("𐓯", "𐓇"); ("𐓰", "𐓈"); ("𐓱", "𐓉"); ("𐓲", "𐓊"); ("𐓳", "𐓋"); ("𐓴", "𐓌");
    ("𐓵", "𐓍"); ("𐓶", "𐓎"); ("𐓷", "𐓏"); ("𐓸", "𐓐"); ("𐓹", "𐓑"); ("𐓺", "𐓒");
    ("𐓻", "𐓓"); ("𐖗", "𐕰"); ("𐖘", "𐕱"); ("𐖙", "𐕲"); ("𐖚", "𐕳"); ("𐖛", "𐕴");
    ("𐖜", "𐕵"); ("𐖝", "𐕶"); ("𐖞", "𐕷"); ("𐖟", "𐕸"); ("𐖠", "𐕹"); ("𐖡", "𐕺");
    ("𐖣", "𐕼"); ("𐖤", "𐕽"); ("𐖥", "𐕾"); ("𐖦", "𐕿"); ("𐖧", "𐖀"); ("𐖨", "𐖁");
    ("𐖩", "𐖂"); ("𐖪", "𐖃"); ("𐖫", "𐖄"); ("𐖬", "𐖅"); ("𐖭", "𐖆"); ("𐖮", "𐖇");
    ("𐖯", "𐖈"); ("𐖰", "𐖉"); ("𐖱", "𐖊"); ("𐖳", "𐖌"); ("𐖴", "𐖍"); ("𐖵", "𐖎");
    ("𐖶", "𐖏"); ("𐖷", "𐖐"); ("𐖸", "𐖑"); ("𐖹", "𐖒"); ("𐖻", "𐖔"); ("𐖼", "𐖕");
    ("𐳀", "𐲀"); ("𐳁", "𐲁"); ("𐳂", "𐲂"); ("𐳃", "𐲃"); ("𐳄", "𐲄"); ("𐳅", "𐲅");
    ("𐳆", "𐲆"); ("𐳇", "𐲇"); ("𐳈", "𐲈"); ("𐳉", "𐲉"); ("𐳊", "𐲊"); ("𐳋", "𐲋");
    ("𐳌", "𐲌"); ("𐳍", "𐲍"); ("𐳎", "𐲎"); ("𐳏", "𐲏"); ("𐳐", "𐲐"); ("𐳑", "𐲑");
    ("𐳒", "𐲒"); ("𐳓", "𐲓"); ("𐳔", "𐲔"); ("𐳕", "𐲕"); ("𐳖", "𐲖"); ("𐳗", "𐲗");
    ("𐳘", "𐲘"); ("𐳙", "𐲙"); ("𐳚", "𐲚"); ("𐳛", "𐲛"); ("𐳜", "𐲜"); ("𐳝", "𐲝");
    ("𐳞", "𐲞"); ("𐳟", "𐲟"); ("𐳠", "𐲠"); ("𐳡", "𐲡"); ("𐳢", "𐲢"); ("𐳣", "𐲣");
    ("𐳤", "𐲤"); ("𐳥", "𐲥"); ("𐳦", "𐲦"); ("𐳧", "𐲧"); ("𐳨", "𐲨"); ("𐳩", "𐲩");
    ("𐳪", "𐲪"); ("𐳫", "𐲫"); ("𐳬", "𐲬"); ("𐳭", "𐲭"); ("𐳮", "𐲮"); ("𐳯", "𐲯");
    ("𐳰", "𐲰"); ("𐳱", "𐲱"); ("𐳲", "𐲲"); ("𑣀", "𑢠"); ("𑣁", "𑢡"); ("𑣂", "𑢢");
    ("𑣃", "𑢣"); ("𑣄", "𑢤"); ("𑣅", "𑢥"); ("𑣆", "𑢦"); ("𑣇", "𑢧"); ("𑣈", "𑢨");
    ("𑣉", "𑢩"); ("𑣊", "𑢪"); ("𑣋", "𑢫"); ("𑣌", "𑢬"); ("𑣍", "𑢭"); ("𑣎", "𑢮");
    ("𑣏", "𑢯"); ("𑣐", "𑢰"); ("𑣑", "𑢱"); ("𑣒", "𑢲"); ("𑣓", "𑢳"); ("𑣔", "𑢴");
    ("𑣕", "𑢵"); ("𑣖", "𑢶"); ("𑣗", "𑢷"); ("𑣘", "𑢸"); ("𑣙", "𑢹"); ("𑣚", "𑢺");
    ("𑣛", "𑢻"); ("𑣜", "𑢼"); ("𑣝", "𑢽"); ("𑣞", "𑢾"); ("𑣟", "𑢿"); ("𖹠", "𖹀");
    ("𖹡", "𖹁"); ("𖹢", "𖹂"); ("𖹣", "𖹃"); ("𖹤", "𖹄"); ("𖹥", "𖹅"); ("𖹦", "𖹆");
    ("𖹧", "𖹇"); ("𖹨", "𖹈"); ("𖹩", "𖹉"); ("𖹪", "𖹊"); ("𖹫", "𖹋"); ("𖹬", "𖹌");
    ("𖹭", "𖹍"); ("𖹮", "𖹎"); ("𖹯", "𖹏"); ("𖹰", "𖹐"); ("𖹱", "𖹑"); ("𖹲", "𖹒");
    ("𖹳", "𖹓"); ("𖹴", "𖹔"); ("𖹵", "𖹕"); ("𖹶", "𖹖"); ("𖹷", "𖹗"); ("𖹸", "𖹘");
    ("𖹹", "𖹙"); ("𖹺", "𖹚"); ("𖹻", "𖹛"); ("𖹼", "𖹜"); ("𖹽", "𖹝"); ("𖹾", "𖹞");
    ("𖹿", "𖹟"); ("𞤢", "𞤀"); ("𞤣", "𞤁"); ("𞤤", "𞤂"); ("𞤥", "𞤃"); ("𞤦", "𞤄");
    ("𞤧", "𞤅"); ("𞤨", "𞤆"); ("𞤩", "𞤇"); ("𞤪", "𞤈"); ("𞤫", "𞤉"); ("𞤬", "𞤊");
    ("𞤭", "𞤋"); ("𞤮", "𞤌"); ("𞤯", "𞤍"); ("𞤰", "𞤎"); ("𞤱", "𞤏"); ("𞤲", "𞤐");
    ("𞤳", "𞤑"); ("𞤴", "𞤒"); ("𞤵", "𞤓"); ("𞤶", "𞤔"); ("𞤷", "𞤕"); ("𞤸", "𞤖");
    ("𞤹", "𞤗"); ("𞤺", "𞤘"); ("𞤻", "𞤙"); ("𞤼", "𞤚"); ("𞤽", "𞤛"); ("𞤾", "𞤜");
    ("𞤿", "𞤝"); ("𞥀", "𞤞"); ("𞥁", "𞤟"); ("𞥂", "𞤠"); ("𞥃", "𞤡")
  ].

(** [str.upper] on one character. *)
Definition upper_char (c : string) : string :=
  match c with
  | String b EmptyString =>
      let n := nat_of_ascii b in
      if Nat.leb 97 n && Nat.leb n 122 then String (ascii_of_nat (n - 32)) EmptyString
      else c
  | _ =>
      match List.find (fun kv => String.eqb (fst kv) c) uppercase with
      | Some kv => snd kv
      | None => c
      end
  end.

(** [s.upper()] *)
Definition upper (s : string) : string := join (map upper_char (chars s)).

Fixpoint lstrip_chars (l : list string) : list string :=
  match l with
  | [] => []
  | c :: l' => if isspace c then lstrip_chars l' else l
  end.

Fixpoint rstrip_chars (l : list string) : list string :=
  match l with
  | [] => []
  | c :: l' =>
      match rstrip_chars l' with
      | [] => if isspace c then [] else [c]
      | r => c :: r
      end
  end.

(** [s.lstrip()], [s.rstrip()], [s.strip()] *)
Definition lstrip (s : string) : string := join (lstrip_chars (chars s)).
Definition rstrip (s : string) : string := join (rstrip_chars (chars s)).
Definition strip (s : string) : string := join (rstrip_chars (lstrip_chars (chars s))).

(** [s.split(sep)] for a separator of one character: the pieces between
    the occurrences of [sep], empty pieces included; a text without the
    separator is its own single piece. *)
Fixpoint split (sep : ascii) (s : string) : list string :=
  match s with
  | EmptyString => [EmptyString]
  | String c s' =>
      if Ascii.eqb c sep then EmptyString :: split sep s'
      else match split sep s' with
           | [] => [String c EmptyString]
           | w :: ws => String c w :: ws
           end
  end.

(** A whole character: as many bytes as its first byte announces; a
    sequence cut short has fewer.  Every character of a Python [str] is
    whole. *)
Definition full (c : string) : bool :=
  match c with
  | String b _ => Nat.eqb (String.length c) (width b)
  | EmptyString => false
  end.

Definition short (c : string) : bool :=
  match c with
  | String b _ => Nat.ltb (String.length c) (width b)
  | EmptyString => false
  end.

(** A text that ends with a whole character, as every Python [str] does. *)
Definition well_formed (s : string) : bool := forallb full (chars s).

(** The shape of the list [chars] returns: whole characters, the last one
    possibly cut short. *)
Inductive chunked : list string -> Prop :=
| chunked_nil : chunked []
| chunked_short c : short c = true -> chunked [c]
| chunked_cons c l : full c = true -> chunked l -> chunked (c :: l).

Definition elem (c : string) : Prop := full c = true \/ short c = true.

(** The letters a to z. *)
Definition lower_ascii (c : string) : bool :=
  match c with
  | String b EmptyString => Nat.leb 97 (nat_of_ascii b) && Nat.leb (nat_of_ascii b) 122
  | _ => false
  end.

Definition first_of (l : list string) : string := hd EmptyString l.
Definition last_of (l : list string) : string := List.last l EmptyString.

(** The characters of the upper case of one character. *)
Definition up (c : string) : list string := chars (upper_char c).

(** What the tables are checked for, entry by entry: the upper case [u] of
    a whole character [c] is made of whole characters, each its own upper
    case and none of them a letter a to z; it is not empty; a whitespace
    character is its own upper case, and the upper case of any other
    character neither begins nor ends with whitespace. *)
Definition upper_ok (c u : string) : bool :=
  let cs := chars u in
  forallb full cs
  && forallb (fun d => String.eqb (upper_char d) d) cs
  && forallb (fun d => negb (lower_ascii d)) cs
  && negb (Nat.eqb (length cs) 0)
  && (if isspace c then String.eqb u c
      else negb (isspace (first_of cs)) && negb (isspace (last_of cs))).

(** A list of characters with no whitespace at either end. *)
Definition trimmed (l : list string) : Prop :=
  l = [] \/ (isspace (first_of l) = false /\ isspace (last_of l) = false).

End Text.


(** ** Exceptions and fallible calls *)

Inductive exn : Type :=
| JSONDecodeError      (* json.loads on a text that is not JSON *)
| TypeError            (* json.loads on a value that is not a text *)
| AttributeError       (* the .str accessor on a column without text *)
| ValueError           (* pandas / numpy argument checks *)
| OverflowError        (* datetime arithmetic leaving the calendar *)
| FileNotFoundError
| FileExistsError
| NotADirectoryError
| IsADirectoryError
| OSError              (* pandas: the directory of the output file is missing *)
| IllegalCharacterError (* openpyxl: a control character in a cell *)
| Raised (name : string).  (* an exception of a collaborator *)

Definition result (A : Type) : Type := (exn + A)%type.

Definition ok {A} (a : A) : result A := inr a.
Definition raise {A} (e : exn) : result A := inl e.

Definition bind {A B} (r : result A) (k : A -> result B) : result B :=
  match r with
  | inl e => inl e
  | inr a => k a
  end.

Notation "x <- r ;; k" := (bind r (fun x => k))
  (at level 100, r at next level, right associativity).

(** The calls of a loop body, in order; the first exception stops the loop. *)
Fixpoint mapM {A B} (f : A -> result B) (l : list A) : result (list B) :=
  match l with
  | [] => ok []
  | a :: l' => b <- f a ;; bs <- mapM f l' ;; ok (b :: bs)
  end.

(** ** Cells, decoded JSON and rows *)

(** A cell of a text column: a text, or blank (pandas' NaN / None). *)
Inductive cell : Type :=
| Str (s : string)
| NaN.

Global Instance cell_eq_dec : EqDecision cell.
Proof. solve_decision. Defined.

Definition is_text (c : cell) : bool :=
  match c with Str _ => true | NaN => false end.

Definition isna (c : cell) : bool :=
  match c with Str _ => false | NaN => true end.

(** The Python object [json.loads] returns: None, bool, number (kept as its
    literal), str, list, and dict (its items in insertion order, one per
    key). *)
Inductive json : Type :=
| JNull
| JBool (b : bool)
| JNumber (literal : string)
| JString (s : string)
| JArray (items : list json)
| JObject (members : list (string * json)).

(** A row of the "Casemgr" sheet; [D] is what the CASE_DATA column holds at
    the current stage: the text as read, the decoded object, or one entry of
    it after the explode ([None] is the NaN marker of an empty container). *)
Record casemgr_row (D : Type) : Type := mk_casemgr
  { CASE_DATA : D; key : cell; value : cell }.
Arguments mk_casemgr {D}.
Arguments CASE_DATA {D}.
Arguments key {D}.
Arguments value {D}.

(** A row of the "JAWS DB" sheet. *)
Record jaws_row : Type := mk_jaws
  { IDN_REQUEST : cell; CDE_JNL_STA : cell }.

(** A Case Record: a row of [case_df] as [process_data] returns it. *)
Record case_record : Type := mk_case
  { CASE_DATA_entry : option json; Status : cell; Symbol : cell; Security_ID : cell }.

(** ** The pandas operations the program calls *)

Module pd.

(** [Series.str]: pandas validates the column before it hands out the
    accessor and raises AttributeError unless the column is of object dtype
    with text in it.  A sheet column read by [read_excel] is of object dtype
    when it has no row or at least one text; with rows that are all blank it
    is a float column. *)
Definition str_accessor (col : list cell) : result unit :=
  match col with
  | [] => ok tt
  | _ :: _ => if existsb is_text col then ok tt else raise AttributeError
  end.

(** One element of [Series.str.split(sep, expand=True)] before padding: the
    pieces of a text; a blank cell stays one blank. *)
Definition split_cell (sep : ascii) (c : cell) : list cell :=
  match c with
  | Str s => map Str (Text.split sep s)
  | NaN => [NaN]
  end.

(** The number of columns of the expanded frame: the longest row. *)
Definition width (rows : list (list cell)) : nat :=
  foldr (fun r n => Nat.max (length r) n) 0 rows.

Definition pad (n : nat) (r : list cell) : list cell :=
  r ++ replicate (n - length r) NaN.

(** [Series.str.split(sep, expand=True)]: a frame with one column per piece
    of the longest row, shorter rows filled with blanks.  Returned as the
    number of columns and the rows. *)
Definition str_split_expand (sep : ascii) (col : list cell) : nat * list (list cell) :=
  let rows := map (split_cell sep) col in
  (width rows, map (pad (width rows)) rows).

(** [df[[k1, ..., kn]] = frame]: pandas checks that the frame has as many
    columns as there are keys ("Columns must be same length as key"). *)
Definition check_key_length (nkeys : nat) (ncols : nat) : result unit :=
  if Nat.eqb ncols nkeys then ok tt else raise ValueError.

(** Column [i] of a row of the expanded frame. *)
Definition column (i : nat) (r : list cell) : cell := nth i r NaN.

(** [Series.str.strip()] and [Series.str.upper()], cell by cell; a blank
    stays blank. *)
Definition str_strip (c : cell) : cell :=
  match c with Str s => Str (Text.strip s) | NaN => NaN end.
Definition str_upper (c : cell) : cell :=
  match c with Str s => Str (Text.upper s) | NaN => NaN end.

(** The entries [DataFrame.explode] makes of one decoded object: the items
    of a list, the keys of a dict, the NaN marker for an empty container, and
    any other object as it is. *)
Definition explode_entries (j : json) : list (option json) :=
  match j with
  | JArray [] => [None]
  | JArray items => map Some items
  | JObject [] => [None]
  | JObject members => map (fun kv => Some (JString (fst kv))) members
  | _ => [Some j]
  end.

(** [df.explode("CASE_DATA")]: one row per entry, the other columns
    repeated, row order kept. *)
Definition explode (df : list (casemgr_row json)) : list (casemgr_row (option json)) :=
  flat_map (fun r => map (fun e => mk_casemgr e (key r) (value r))
                         (explode_entries (CASE_DATA r))) df.

(** The blanks pandas fills in on the side of a joined row that has no
    counterpart. *)
Definition case_absent : case_record := mk_case None NaN NaN NaN.
Definition jaws_absent : jaws_row := mk_jaws NaN NaN.

(** The distinct texts of the key columns in lexicographic order: pandas
    documents [how="outer"] as the union of the keys of both frames, sorted
    lexicographically.  The properties below are stated up to the order of
    the rows. *)
Fixpoint insert_key (k : string) (ks : list string) : list string :=
  match ks with
  | [] => [k]
  | k' :: ks' =>
      match String.compare k k' with
      | Lt => k :: ks
      | Eq => ks
      | Gt => k' :: insert_key k ks'
      end
  end.

Definition sorted_keys (col : list cell) : list string :=
  foldr (fun c acc => match c with Str s => insert_key s acc | NaN => acc end) [] col.

(** The key groups of the join: the sorted texts, and last the group of the
    blank keys when there is one (pandas matches blank keys with each
    other). *)
Definition join_keys (lk rk : list cell) : list cell :=
  map Str (sorted_keys (lk ++ rk))
  ++ (if existsb isna (lk ++ rk) then [NaN] else []).

(** The rows of one key group: the left rows alone when no right row has
    the key, the right rows alone when no left row has it, and otherwise
    every pair, left row by left row. *)
Definition join_group (left : list case_record) (right : list jaws_row) (k : cell)
  : list (case_record * jaws_row) :=
  let ls := List.filter (fun l => bool_decide (Security_ID l = k)) left in
  let rs := List.filter (fun r => bool_decide (IDN_REQUEST r = k)) right in
  match ls, rs with
  | _, [] => map (fun l => (l, jaws_absent)) ls
  | [], _ => map (fun r => (case_absent, r)) rs
  | _, _ => flat_map (fun l => map (fun r => (l, r)) rs) ls
  end.

(** [pd.merge(left, right, left_on="Security ID", right_on="IDN_REQUEST",
    how="outer")]. *)
Definition merge_outer (left : list case_record) (right : list jaws_row)
  : list (case_record * jaws_row) :=
  flat_map (join_group left right)
           (join_keys (map Security_ID left) (map IDN_REQUEST right)).

(** [a != b] on two cells of object columns: a blank differs from
    everything, a blank included; two texts differ unless they are the same
    text. *)
Definition ne (a b : cell) : bool :=
  match a, b with
  | Str x, Str y => negb (String.eqb x y)
  | _, _ => true
  end.

End pd.

(** ** process_data *)

Section Process.

(** [json.loads] of the standard library: the decoded object, or [None]
    when the text is not JSON. *)
Variable json_loads : string -> option json.

(** [json.loads] applied to one CASE_DATA cell. *)
Definition apply_json_loads (r : casemgr_row cell) : result (casemgr_row json) :=
  match CASE_DATA r with
  | Str s =>
      match json_loads s with
      | Some j => ok (mk_casemgr j (key r) (value r))
      | None => raise JSONDecodeError
      end
  | NaN => raise TypeError
  end.

(** The two calls [.str.strip().str.upper()] of lines 93 and 94. *)
Definition strip_upper (c : cell) : cell := pd.str_upper (pd.str_strip c).

(** [process_data(jaws_data, casemgr_data)], statement by statement. *)
Definition process_data (jaws_data : list jaws_row) (casemgr_data : list (casemgr_row cell))
  : result (list case_record * list jaws_row) :=
  (* case_df["CASE_DATA"] = case_df["CASE_DATA"].apply(json.loads) *)
  decoded <- mapM apply_json_loads casemgr_data ;;
  (* case_df = case_df.explode("CASE_DATA") *)
  let case_df := pd.explode decoded in
  (* case_df["key"].str.split("3", expand=True) *)
  _ <- pd.str_accessor (map key case_df) ;;
  let '(ncols, pieces) := pd.str_split_expand "3" (map key case_df) in
  (* case_df[["colNull", "Symbol", "nullcol", "Security ID"]] = ... *)
  _ <- pd.check_key_length 4 ncols ;;
  (* rename value to Status; drop key, colNull, nullcol;
     case_df["Security ID"].str.strip().str.upper() *)
  let case_df :=
    zip_with (fun r p => mk_case (CASE_DATA r) (value r) (pd.column 1 p)
                                 (strip_upper (pd.column 3 p)))
             case_df pieces in
  (* jaws_df["IDN_REQUEST"].str.strip().str.upper() *)
  _ <- pd.str_accessor (map IDN_REQUEST jaws_data) ;;
  let jaws_df :=
    map (fun j => mk_jaws (strip_upper (IDN_REQUEST j)) (CDE_JNL_STA j)) jaws_data in
  ok (case_df, jaws_df).

End Process.

(** ** merge_data, compare_data *)

(** A Merged Record: the columns of the Case side, the columns of the JAWS
    side, and the derived column "Recon Status". *)
Record merged_row : Type := mk_merged
  { case_side : case_record; jaws_side : jaws_row; Recon_Status : string }.

(** [np.vectorize(pyfunc)(xs, ys)] on two columns of one length: [pyfunc]
    on each pair of elements in order.  numpy refuses an input without
    elements ("cannot call `vectorize` on size 0 inputs unless `otypes` is
    set"). *)
Definition np_vectorize {A} (pyfunc : cell -> cell -> A) (xs ys : list cell)
  : result (list A) :=
  match xs with
  | [] => raise ValueError
  | _ :: _ => ok (zip_with pyfunc xs ys)
  end.

Section Merge.

(** [Mapping().jaws_casestatus_map(jaws_status, case_status)] of
    [application.mapping], the Status Mapping Translator.  Its rule table is
    not part of this file; it is a function of its two arguments that
    returns the canonical status word. *)
Variable jaws_casestatus_map : cell -> cell -> string.

(** [calreconstatuscase(case_status, jaws_status)] *)
Definition calreconstatuscase (case_status jaws_status : cell) : string :=
  let valid_jaws_sta := jaws_casestatus_map jaws_status case_status in
  valid_jaws_sta.

(** [merge_data(case_df, jaws_df)] *)
Definition merge_data (case_df : list case_record) (jaws_df : list jaws_row)
  : result (list merged_row) :=
  let merged := pd.merge_outer case_df jaws_df in
  recon <- np_vectorize calreconstatuscase
             (map (fun m => Status (fst m)) merged)
             (map (fun m => CDE_JNL_STA (snd m)) merged) ;;
  ok (zip_with (fun m s => mk_merged (fst m) (snd m) s) merged recon).

End Merge.

(** [compare_data(merged_data)]: the rows of the boolean mask
    [merged_data["Status"] != merged_data["CDE_JNL_STA"]]. *)
Definition compare_data (merged_data : list merged_row) : list merged_row :=
  List.filter (fun m => pd.ne (Status (case_side m)) (CDE_JNL_STA (jaws_side m)))
              merged_data.

(** ** The world the orchestrator acts on *)

(** [datetime.datetime]: a calendar date and a time of day. *)
Record datetime : Type := mk_datetime
  { year : N; month : N; day : N; hour : N; minute : N; second : N }.

(** The fields of a datetime of the present era: a four-digit year and the
    calendar ranges. *)
Definition datetime_ok (t : datetime) : bool :=
  (1000 <=? year t)%N && (year t <=? 9999)%N
  && (1 <=? month t)%N && (month t <=? 12)%N
  && (1 <=? day t)%N && (day t <=? 31)%N
  && (hour t <=? 23)%N && (minute t <=? 59)%N && (second t <=? 59)%N.

(** A number in decimal, and in two digits as [%m %d %H %M %S] print it. *)
Definition dec (n : N) : string := NilEmpty.string_of_uint (N.to_uint n).
Definition dec2 (n : N) : string := if (n <? 10)%N then "0" +:+ dec n else dec n.

(** [t.strftime('%Y%m%d_%H%M%S')]; [%Y] prints the year in decimal. *)
Definition strftime_stamp (t : datetime) : string :=
  dec (year t) +:+ dec2 (month t) +:+ dec2 (day t) +:+ "_"
  +:+ dec2 (hour t) +:+ dec2 (minute t) +:+ dec2 (second t).

(** [t.strftime("%Y-%m-%d %H:%M:%S")] *)
Definition strftime_sql (t : datetime) : string :=
  dec (year t) +:+ "-" +:+ dec2 (month t) +:+ "-" +:+ dec2 (day t) +:+ " "
  +:+ dec2 (hour t) +:+ ":" +:+ dec2 (minute t) +:+ ":" +:+ dec2 (second t).

Definition is_leap (y : N) : bool :=
  (y mod 4 =? 0)%N && (negb (y mod 100 =? 0)%N || (y mod 400 =? 0)%N).

Definition days_in_month (y m : N) : N :=
  if (m =? 2)%N then (if is_leap y then 29 else 28)%N
  else if (m =? 4)%N || (m =? 6)%N || (m =? 9)%N || (m =? 11)%N then 30%N
  else 31%N.

(** [t - datetime.timedelta(minutes=30)]: half an hour earlier on the
    calendar; OverflowError before year 1. *)
Definition minus_30_minutes (t : datetime) : result datetime :=
  let 'mk_datetime y mo d h mi s := t in
  if (30 <=? mi)%N then ok (mk_datetime y mo d h (mi - 30) s)
  else if (1 <=? h)%N then ok (mk_datetime y mo d (h - 1) (mi + 30) s)
  else if (2 <=? d)%N then ok (mk_datetime y mo (d - 1) 23 (mi + 30) s)
  else if (2 <=? mo)%N then
    ok (mk_datetime y (mo - 1) (days_in_month y (mo - 1)) 23 (mi + 30) s)
  else if (2 <=? y)%N then ok (mk_datetime (y - 1) 12 31 23 (mi + 30) s)
  else raise OverflowError.

(** What [DataFrame.to_excel] leaves in a file: the rows, and whether the
    index column was written next to them; or, when a cell stopped the
    write, a workbook cut short: the header row and the cells written before
    that cell. *)
Inductive workbook : Type :=
| mk_workbook (wb_rows : list merged_row) (wb_index : bool)
| cut_workbook.

(** The state a run reads and changes.  A path of the file system is the
    list of its components from the root; [fs_dirs] are the directories and
    [fs_files] the workbooks.  [clock] counts the readings of the system
    clock so far. *)
Record World : Type := mk_world
  { fs_dirs : gset (list string);
    fs_files : gmap (list string) workbook;
    cwd : list string;
    stdout : list (list merged_row);
    log : list string;
    clock : nat }.

(** A method body: it runs in a world and leaves a world, with a value or
    with the exception that stopped it. *)
Definition prog (A : Type) : Type := World -> result A * World.

Definition ret {A} (a : A) : prog A := fun w => (ok a, w).

Definition lift {A} (r : result A) : prog A := fun w => (r, w).

Definition bindP {A B} (m : prog A) (k : A -> prog B) : prog B :=
  fun w =>
    match m w with
    | (inl e, w') => (inl e, w')
    | (inr a, w') => k a w'
    end.

Notation "x <~ m ;; k" := (bindP m (fun x => k))
  (at level 100, m at next level, right associativity).

(** *** Paths *)

(** The components of a POSIX path; empty components and "." name no
    directory of their own.  A component ".." is not interpreted: the paths
    of this model are free of it. *)
Definition components (s : string) : list string :=
  List.filter (fun c => negb (String.eqb c "" || String.eqb c "."))
              (Text.split "/" s).

Definition isabs (s : string) : bool :=
  match s with
  | String c _ => Ascii.eqb c "/"
  | EmptyString => false
  end.

Definition resolve (cwd : list string) (s : string) : list string :=
  if isabs s then components s else cwd ++ components s.

Fixpoint endswith_slash (s : string) : bool :=
  match s with
  | EmptyString => false
  | String c EmptyString => Ascii.eqb c "/"
  | String _ s' => endswith_slash s'
  end.

(** [os.path.join(a, b)] *)
Definition os_path_join (a b : string) : string :=
  if isabs b then b
  else if String.eqb a "" || endswith_slash a then a +:+ b
  else a +:+ "/" +:+ b.

(** The path and all its ancestors, the root first. *)
Definition ancestors (p : list string) : list (list string) :=
  map (fun n => take n p) (seq 0 (S (length p))).

Definition parent (p : list string) : list string := take (length p - 1) p.

(** *** The calls that act on the world *)

(** [logger.info(msg)] *)
Definition logger_info (msg : string) : prog unit :=
  fun w => (ok tt, mk_world (fs_dirs w) (fs_files w) (cwd w) (stdout w)
                            (log w ++ [msg]) (clock w)).

(** [print(df)] *)
Definition print (df : list merged_row) : prog unit :=
  fun w => (ok tt, mk_world (fs_dirs w) (fs_files w) (cwd w) (stdout w ++ [df])
                            (log w) (clock w)).

(** [os.path.exists(name)] *)
Definition os_path_exists (name : string) : prog bool :=
  fun w =>
    let p := resolve (cwd w) name in
    (ok (negb (String.eqb name "")
         && (bool_decide (p ∈ fs_dirs w) || bool_decide (is_Some (fs_files w !! p)))), w).

(** [os.makedirs(name)]: the directory and every missing ancestor.  It
    raises when the path exists already or runs through a file. *)
Definition os_makedirs (name : string) : prog unit :=
  fun w =>
    let p := resolve (cwd w) name in
    if String.eqb name "" then (raise FileNotFoundError, w)
    else if bool_decide (p ∈ fs_dirs w) || bool_decide (is_Some (fs_files w !! p))
    then (raise FileExistsError, w)
    else if existsb (fun q => bool_decide (is_Some (fs_files w !! q))) (ancestors p)
    then (raise NotADirectoryError, w)
    else (ok tt, mk_world (fs_dirs w ∪ list_to_set (ancestors p)) (fs_files w) (cwd w)
                          (stdout w) (log w) (clock w)).

(** *** Writing a workbook

    [DataFrame.to_excel] for a path that ends in .xlsx, with the engine
    openpyxl. *)

(** The text a cell hands to the workbook, when it hands one.  A blank
    cell is written as the empty text and a number or a truth value as a
    number; a list or a dict is written as its [str], in which Python
    escapes every control character. *)
Definition cell_text (c : cell) : option string :=
  match c with Str s => Some s | NaN => None end.

Definition entry_text (e : option json) : option string :=
  match e with Some (JString s) => Some s | _ => None end.

(** The columns of the merged frame, in the order of the frame: those of
    the Case side, those of the JAWS side, and Recon Status. *)
Definition columns : list (merged_row -> option string) :=
  [ fun m => entry_text (CASE_DATA_entry (case_side m));
    fun m => cell_text (Status (case_side m));
    fun m => cell_text (Symbol (case_side m));
    fun m => cell_text (Security_ID (case_side m));
    fun m => cell_text (IDN_REQUEST (jaws_side m));
    fun m => cell_text (CDE_JNL_STA (jaws_side m));
    fun m => Some (Recon_Status m) ].

(** openpyxl's ILLEGAL_CHARACTERS_RE: the control characters 0 to 8, 11, 12
    and 14 to 31. *)
Definition illegal_character (c : string) : bool :=
  match c with
  | String b EmptyString =>
      let n := nat_of_ascii b in
      Nat.leb n 8 || (Nat.leb 11 n && Nat.leb n 12) || (Nat.leb 14 n && Nat.leb n 31)
  | _ => false
  end.

(** A text without an illegal character among its first 32767 characters;
    openpyxl cuts a longer text to these before it looks. *)
Definition legal (v : option string) : bool :=
  match v with
  | Some s => negb (existsb illegal_character (take (N.to_nat 32767) (Text.chars s)))
  | None => true
  end.

(** openpyxl's [check_string] *)
Definition check_string (v : option string) : result unit :=
  if legal v then ok tt else raise IllegalCharacterError.

(** The rows of a sheet are numbered 1 to 1048576.  pandas refuses a frame
    with more rows ("This sheet is too large"), and openpyxl's [_get_cell]
    refuses a row number beyond the last. *)
Definition max_rows : N := 1048576.

Definition check_row (row : N) : result unit :=
  if (row <=? max_rows)%N then ok tt else raise ValueError.

(** One cell of the body: data row [i] of the frame, counted from 0, lies in
    sheet row [i + 2], below the header row. *)
Definition write_cell (i : nat) (v : option string) : result unit :=
  _ <- check_row (N.of_nat i + 2) ;;
  check_string v.

(** The body of the sheet as pandas writes it: series by series, each from
    its first row down.  The first cell that is refused stops the write. *)
Definition write_cells (df : list merged_row) : result unit :=
  _ <- mapM (fun col => mapM (fun im => write_cell (fst im) (col (snd im)))
                             (imap pair df))
            columns ;;
  ok tt.


(** [df.to_excel(output_file, index=index)].  pandas checks the size of the
    frame, then that the directory of the path exists (OSError: "Cannot save
    file into a non-existent directory"), then opens the file for writing,
    which empties it, and writes the cells.  When a cell is refused the
    exception leaves [to_excel] after the workbook has been closed, so the
    file holds a workbook cut short. *)
Definition to_excel (df : list merged_row) (output_file : string) (index : bool)
  : prog unit :=
  fun w =>
    let p := resolve (cwd w) output_file in
    let put wb := mk_world (fs_dirs w) (<[p := wb]> (fs_files w)) (cwd w)
                           (stdout w) (log w) (clock w) in
    if (max_rows <? N.of_nat (length df))%N then (raise ValueError, w)
    else if negb (bool_decide (parent p ∈ fs_dirs w)) then (raise OSError, w)
    else if bool_decide (p ∈ fs_dirs w) then (raise IsADirectoryError, w)
    else match write_cells df with
         | inr _ => (ok tt, put (mk_workbook df index))
         | inl e => (raise e, put cut_workbook)
         end.

(** ** The orchestrator [JAWSCasemgrRecon] *)

Section Orchestrator.

(** The collaborators of the orchestrator.  None of them is defined in
    [done.py]; each is a function of its arguments here, raising through
    [result]. *)

(** [json.loads] and [Mapping().jaws_casestatus_map], as above. *)
Variable json_loads : string -> option json.
Variable jaws_casestatus_map : cell -> cell -> string.

(** [AppGlobal.Config.get(section, key)], the Configuration Provider. *)
Variable Config_get : string -> string -> result string.

(** [datetime.datetime.now()]: the n-th reading of the system clock. *)
Variable datetime_now : nat -> datetime.

(** [pd.read_excel(path, sheet_name=["Casemgr", "JAWS DB"], converters=...)]:
    the two sheets of the input workbook, which no step of the program
    writes. *)
Variable read_excel : string -> result (list (casemgr_row cell) * list jaws_row).

(** [SqlClient(conn)], [client.executeProcedure(text, params)], [Query(name)]
    and [query.getQuery()]: the Database Client and the Named Query
    Registry. *)
Variables sql_client sql_query sql_table : Type.
Variable SqlClient : string -> result sql_client.
Variable executeProcedure : sql_client -> string -> list string -> result sql_table.
Variable Query : string -> result sql_query.
Variable getQuery : sql_query -> result string.

(** [datetime.datetime.now()] as a call: it reads the clock. *)
Definition now : prog datetime :=
  fun w => (ok (datetime_now (clock w)),
            mk_world (fs_dirs w) (fs_files w) (cwd w) (stdout w) (log w) (S (clock w))).

(** The name of the report of a run at time [t]. *)
Definition report_name (t : datetime) : string :=
  "JAWSCasemgrRecon_" +:+ strftime_stamp t +:+ ".xlsx".

(** Lines 60 to 71 of [analyze_data]: save the final analysis results. *)
Definition save_results (discrepancies : list merged_row) : prog unit :=
  temp_dir <~ lift (Config_get "Storage" "TempDirectory") ;;
  present <~ os_path_exists temp_dir ;;
  _ <~ (if present then ret tt else os_makedirs temp_dir) ;;
  t <~ now ;;
  let output_file := os_path_join temp_dir (report_name t) in
  _ <~ to_excel discrepancies output_file false ;;
  _ <~ logger_info ("Reconciled data saved to " +:+ output_file) ;;
  print discrepancies.

(** [analyze_data(jaws_data, casemgr_data)] *)
Definition analyze_data (jaws_data : list jaws_row) (casemgr_data : list (casemgr_row cell))
  : prog unit :=
  _ <~ logger_info "Analyzing data for reconciliation" ;;
  frames <~ lift (process_data json_loads jaws_data casemgr_data) ;;
  merged_data <~ lift (merge_data jaws_casestatus_map (fst frames) (snd frames)) ;;
  let discrepancies := compare_data merged_data in
  save_results discrepancies.

(** [execute_locally()] *)
Definition execute_locally : prog unit :=
  _ <~ logger_info "Starting local execution with Excel data for testing" ;;
  df_sheet_multi <~ lift (read_excel "data/jaws_bpm_recon_raw_data_case_mgr.xlsx") ;;
  let casemgr_data := fst df_sheet_multi in
  let jaws_data := snd df_sheet_multi in
  _ <~ logger_info "Read successful from Excel sheet" ;;
  analyze_data jaws_data casemgr_data.

(** [execute_full()] *)
Definition execute_full : prog unit :=
  _ <~ logger_info "Starting full recon process with JAWS SQL database" ;;
  jawsDBConn <~ lift (Config_get "Databases" "JAWSDBConnectionString") ;;
  sqlConn <~ lift (SqlClient jawsDBConn) ;;
  test_query <~ lift (Query "Test_Sql") ;;
  t <~ now ;;
  updated_time <~ lift (minus_30_minutes t) ;;
  let updated_time_tuple := [strftime_sql updated_time] in
  _ <~ logger_info "Executing query on JAWS DB" ;;
  text <~ lift (getQuery test_query) ;;
  jaws_data <~ lift (executeProcedure sqlConn text updated_time_tuple) ;;
  _ <~ logger_info "Fetched data from JAWS DB" ;;
  casemgrDBConn <~ lift (Config_get "Databases" "CaseMgrDBConnectionString") ;;
  case_sqlConn <~ lift (SqlClient casemgrDBConn) ;;
  case_query <~ lift (Query "CaseMgr_Sql") ;;
  _ <~ logger_info "Falling back to Excel data for Casemgr due to missing DB query" ;;
  execute_locally.

End Orchestrator.

Arguments execute_full json_loads jaws_casestatus_map Config_get datetime_now read_excel
  {sql_client sql_query sql_table} SqlClient executeProcedure Query getQuery.

(** ** Row-wise reading of the cleaning step

    What [process_data] makes of one decoded Casemgr row and of one JAWS
    row, written per row; [process_data_decoded] below relates the
    column-wise program to it. *)

Definition records_of (r : casemgr_row json) : list case_record :=
  let pieces := pd.split_cell "3" (key r) in
  map (fun e => mk_case e (value r) (pd.column 1 pieces) (strip_upper (pd.column 3 pieces)))
      (pd.explode_entries (CASE_DATA r)).

Definition cleaned (j : jaws_row) : jaws_row :=
  mk_jaws (strip_upper (IDN_REQUEST j)) (CDE_JNL_STA j).

(** ** Sample data for the examples *)

(** [json.loads] on the CASE_DATA texts of the samples: a list of two
    numbers, a single number, an empty list.  The samples use no other JSON
    text; "not json" and the like are refused. *)
Definition sample_json_loads (s : string) : option json :=
  if String.eqb s "[1, 2]" then Some (JArray [JNumber "1"; JNumber "2"])
  else if String.eqb s "7" then Some (JNumber "7")
  else if String.eqb s "[]" then Some (JArray [])
  else None.

Definition sample_casemgr : list (casemgr_row cell) :=
  [ mk_casemgr (Str "[1, 2]") (Str "A3SYM3B3 sec12 ") (Str "OPEN");
    mk_casemgr (Str "7") (Str "X3IBM3Y3b") (Str "CLOSED") ].

Definition sample_jaws : list jaws_row :=
  [ mk_jaws (Str " b ") (Str "OPEN"); mk_jaws (Str "c") (Str "OPEN") ].

(** A sheet with keys of two and of four pieces and a blank key. *)
Definition ragged_casemgr : list (casemgr_row cell) :=
  [ mk_casemgr (Str "7") (Str "A3SYM") (Str "OPEN");
    mk_casemgr (Str "[]") (Str "X3IBM3Y3b") (Str "CLOSED");
    mk_casemgr (Str "7") NaN (Str "HOLD") ].

(** A translator for the examples: it tells agreement from disagreement and
    from a missing status. *)
Definition sample_status_map (jaws_status case_status : cell) : string :=
  match jaws_status, case_status with
  | Str j, Str c => if String.eqb j c then "Matched" else "Mismatch"
  | _, _ => "Unmapped"
  end.

(** Case Records with Security ID A and B, JAWS Records with IDN_REQUEST B
    and C. *)
Definition sample_case_AB : list case_record :=
  [ mk_case None (Str "OPEN") (Str "SYM") (Str "A");
    mk_case None (Str "OPEN") (Str "IBM") (Str "B") ].

Definition sample_jaws_BC : list jaws_row :=
  [ mk_jaws (Str "B") (Str "CLOSED"); mk_jaws (Str "C") (Str "OPEN") ].

(** The Merged Record [merge_data] makes of one joined pair, written per
    row; [merge_data_rows] below relates the column-wise program to it. *)
Definition reconciled (jaws_casestatus_map : cell -> cell -> string)
    (m : case_record * jaws_row) : merged_row :=
  mk_merged (fst m) (snd m)
            (calreconstatuscase jaws_casestatus_map (Status (fst m)) (CDE_JNL_STA (snd m))).

(** The two sides of a Merged Record. *)
Definition sides (m : merged_row) : case_record * jaws_row :=
  (case_side m, jaws_side m).





(** Collaborators for the examples. *)
Definition sample_config (section key : string) : result string :=
  if String.eqb section "Storage" && String.eqb key "TempDirectory" then ok "out/recon"
  else if String.eqb section "Databases" && String.eqb key "JAWSDBConnectionString"
  then ok "dsn-jaws"
  else if String.eqb section "Databases" && String.eqb key "CaseMgrDBConnectionString"
  then ok "dsn-casemgr"
  else raise (Raised "NotFound").

Definition sample_clock (n : nat) : datetime :=
  mk_datetime 2024 3 1 0 5 (9 + N.of_nat n).

Definition sample_read_excel (path : string)
  : result (list (casemgr_row cell) * list jaws_row) :=
  if String.eqb path "data/jaws_bpm_recon_raw_data_case_mgr.xlsx"
  then ok (sample_casemgr, sample_jaws)
  else raise FileNotFoundError.

Definition sample_SqlClient (conn : string) : result string := ok conn.
Definition sample_Query (name : string) : result string := ok name.
Definition sample_getQuery (q : string) : result string := ok ("EXEC " +:+ q).
Definition sample_executeProcedure (client text : string) (params : list string)
  : result (list jaws_row) :=
  ok [mk_jaws (Str "Z") (Str "HOLD")].

(** A world with a home directory and nothing else. *)
Definition sample_world : World :=
  mk_world {[ []; ["home"] ]} ∅ ["home"] [] [] 0.


(** The world in which [execute_full] reaches its last line when nothing
    raised before: four log lines written and the clock read once. *)
Definition fallen_back (w : World) : World :=
  mk_world (fs_dirs w) (fs_files w) (cwd w) (stdout w)
           (log w ++ [ "Starting full recon process with JAWS SQL database";
                       "Executing query on JAWS DB";
                       "Fetched data from JAWS DB";
                       "Falling back to Excel data for Casemgr due to missing DB query" ])
           (S (clock w)).

(** The occurrences of an ASCII character in a text. *)
Fixpoint count_char (c : ascii) (s : string) : nat :=
  match s with
  | EmptyString => 0
  | String x s' => (if Ascii.eqb x c then 1 else 0) + count_char c s'
  end.






(** * Properties *)

Example split_demo : Text.split "3" "A3SYM3B3SEC12" = ["A"; "SYM"; "B"; "SEC12"].
Proof. reflexivity. Qed.

Example strip_demo : Text.upper (Text.strip " sec123 ") = "SEC123".
Proof. vm_compute. reflexivity. Qed.

(** Beyond ASCII: a no-break space (U+00A0) is stripped, e-acute becomes
    E-acute, and the sharp s becomes two letters. *)
Example strip_demo_unicode :
  Text.upper (Text.strip (Text.bytes [194; 160] +:+ "é z" +:+ Text.bytes [194; 160]))
  = "É Z"
  /\ Text.upper "straße" = "STRASSE".
Proof. vm_compute. split; reflexivity. Qed.

(** ** Text: strip and upper *)

Module TextFacts.
Import Text.

Lemma append_assoc (a b c : string) : (a +:+ b) +:+ c = a +:+ b +:+ c.
Proof.
  induction a as [|x a IH]; [reflexivity|].
  change (String x ((a +:+ b) +:+ c) = String x (a +:+ b +:+ c)). now rewrite IH.
Qed.

Lemma append_nil_r (a : string) : a +:+ "" = a.
Proof.
  induction a as [|x a IH]; [reflexivity|].
  change (String x (a +:+ "") = String x a). now rewrite IH.
Qed.

Lemma width_cases b : width b = 1 \/ width b = 2 \/ width b = 3 \/ width b = 4.
Proof.
  unfold width. destruct (Nat.ltb _ 192); [auto|].
  destruct (Nat.ltb _ 224); [auto|]. destruct (Nat.ltb _ 240); auto.
Qed.

Lemma chars_cons b1 s1 :
  chars (String b1 s1) =
  match width b1, s1 with
  | 1, _ => String b1 EmptyString :: chars s1
  | 2, String b2 s2 => String b1 (String b2 EmptyString) :: chars s2
  | 3, String b2 (String b3 s3) => String b1 (String b2 (String b3 EmptyString)) :: chars s3
  | S (S (S (S _))), String b2 (String b3 (String b4 s4)) =>
      String b1 (String b2 (String b3 (String b4 EmptyString))) :: chars s4
  | _, _ => [String b1 s1]
  end.
Proof. reflexivity. Qed.

Lemma chars_full_app c t : full c = true -> chars (c +:+ t) = c :: chars t.
Proof.
  destruct c as [|b1 c1]; [discriminate|]. unfold full. cbn [String.length].
  intros H%Nat.eqb_eq.
  destruct (width_cases b1) as [W|[W|[W|W]]]; rewrite W in H.
  - destruct c1; [|discriminate].
    change (chars (String b1 t) = [String b1 ""] ++ chars t)%list.
    now rewrite chars_cons, W.
  - destruct c1 as [|b2 [|]]; try discriminate.
    change (chars (String b1 (String b2 t)) = [String b1 (String b2 "")] ++ chars t)%list.
    now rewrite chars_cons, W.
  - destruct c1 as [|b2 [|b3 [|]]]; try discriminate.
    change (chars (String b1 (String b2 (String b3 t)))
            = [String b1 (String b2 (String b3 ""))] ++ chars t)%list.
    now rewrite chars_cons, W.
  - destruct c1 as [|b2 [|b3 [|b4 [|]]]]; try discriminate.
    change (chars (String b1 (String b2 (String b3 (String b4 t))))
            = [String b1 (String b2 (String b3 (String b4 "")))] ++ chars t)%list.
    now rewrite chars_cons, W.
Qed.

Lemma chars_full c : full c = true -> chars c = [c].
Proof. intros H. rewrite <- (append_nil_r c) at 1. now rewrite chars_full_app. Qed.

Lemma chars_short c : short c = true -> chars c = [c].
Proof.
  destruct c as [|b1 c1]; [discriminate|]. unfold short. cbn [String.length].
  intros H%Nat.ltb_lt. rewrite chars_cons.
  destruct (width_cases b1) as [W|[W|[W|W]]]; rewrite W in H |- *.
  - lia.
  - destruct c1; [reflexivity|cbn in H; lia].
  - destruct c1 as [|b2 [|]]; try (cbn in H; lia); reflexivity.
  - destruct c1 as [|b2 [|b3 [|]]]; try (cbn in H; lia); reflexivity.
Qed.

Lemma full_not_short c : full c = true -> short c = false.
Proof.
  destruct c; [reflexivity|]. unfold full, short.
  intros H%Nat.eqb_eq. apply Nat.ltb_ge. lia.
Qed.

Lemma chars_step s :
  s = "" \/ short s = true
  \/ exists c t, s = c +:+ t /\ full c = true /\ String.length t < String.length s.
Proof.
  destruct s as [|b1 s1]; [now left|]. right.
  destruct (width_cases b1) as [W|[W|[W|W]]].
  - right. exists (String b1 ""), s1. unfold full. cbn. rewrite W. auto.
  - destruct s1 as [|b2 s2].
    + left. unfold short. cbn. now rewrite W.
    + right. exists (String b1 (String b2 "")), s2. unfold full. cbn. rewrite W.
      repeat split; auto.
  - destruct s1 as [|b2 [|b3 s3]].
    + left. unfold short. cbn. now rewrite W.
    + left. unfold short. cbn. now rewrite W.
    + right. exists (String b1 (String b2 (String b3 ""))), s3. unfold full. cbn.
      rewrite W. repeat split; auto.
  - destruct s1 as [|b2 [|b3 [|b4 s4]]].
    + left. unfold short. cbn. now rewrite W.
    + left. unfold short. cbn. now rewrite W.
    + left. unfold short. cbn. now rewrite W.
    + right. exists (String b1 (String b2 (String b3 (String b4 "")))), s4.
      unfold full. cbn. rewrite W. repeat split; auto.
Qed.

Lemma chars_chunked s : chunked (chars s) /\ join (chars s) = s.
Proof.
  remember (String.length s) as n eqn:Hn. revert s Hn.
  induction n as [n IH] using lt_wf_ind. intros s Hn.
  destruct (chars_step s) as [->|[Hs|(c & t & -> & Hc & Hlen)]].
  - split; [constructor | reflexivity].
  - rewrite (chars_short _ Hs). split; [now constructor|]. apply append_nil_r.
  - rewrite (chars_full_app _ _ Hc).
    destruct (IH (String.length t) ltac:(lia) t eq_refl) as [Ht Hj].
    split; [now constructor|]. cbn [join fold_right]. fold (join (chars t)).
    now rewrite Hj.
Qed.

Lemma join_chars s : join (chars s) = s.
Proof. apply chars_chunked. Qed.

Lemma chunked_chars l : chunked l -> chars (join l) = l.
Proof.
  induction 1 as [|c Hc|c l Hc _ IH].
  - reflexivity.
  - cbn [join fold_right]. rewrite append_nil_r. now apply chars_short.
  - cbn [join fold_right]. fold (join l). now rewrite chars_full_app, IH.
Qed.

Lemma join_app a b : join (a ++ b)%list = join a +:+ join b.
Proof.
  induction a as [|x a IH]; [reflexivity|].
  cbn [join fold_right app]. fold (join (a ++ b)%list) (join a).
  now rewrite IH, append_assoc.
Qed.

Lemma chars_fulls_app l t :
  forallb full l = true -> chars (join l +:+ t) = (l ++ chars t)%list.
Proof.
  induction l as [|c l IH]; [reflexivity|].
  cbn [forallb]. intros [Hc Hl]%andb_prop.
  cbn [join fold_right]. fold (join l).
  now rewrite append_assoc, (chars_full_app _ _ Hc), (IH Hl).
Qed.

(** *** Whole and cut characters *)

Lemma chunked_elem l : chunked l -> Forall elem l.
Proof.
  induction 1; constructor; try (now left); try (now right); auto.
Qed.

Lemma chars_elem s : Forall elem (chars s).
Proof. apply chunked_elem, chars_chunked. Qed.

(** *** The tables *)

Lemma whitespace_full : forallb full whitespace = true.
Proof. vm_compute. reflexivity. Qed.

Lemma uppercase_checked :
  forallb (fun kv => full (fst kv) && upper_ok (fst kv) (snd kv)) uppercase = true.
Proof. vm_compute. reflexivity. Qed.

Lemma single_checked :
  forallb (fun n => let c := String (ascii_of_nat n) "" in upper_ok c (upper_char c))
          (seq 0 192) = true.
Proof. vm_compute. reflexivity. Qed.

Lemma found_in_table c kv :
  List.find (fun kv => String.eqb (fst kv) c) uppercase = Some kv ->
  fst kv = c /\ full c = true /\ upper_ok c (snd kv) = true.
Proof.
  intros [Hin Heq]%find_some. apply String.eqb_eq in Heq.
  pose proof (proj1 (forallb_forall _ _) uppercase_checked kv Hin) as Hk.
  cbv beta in Hk. apply andb_prop in Hk as [Hf Hok]. rewrite Heq in Hf, Hok. auto.
Qed.

Lemma width_one b : width b = 1 <-> nat_of_ascii b < 192.
Proof.
  unfold width. destruct (Nat.ltb_spec (nat_of_ascii b) 192) as [H|H]; [tauto|].
  split; [|lia]. destruct (Nat.ltb _ 224); [discriminate|].
  destruct (Nat.ltb _ 240); discriminate.
Qed.

Lemma upper_char_multi b b2 c2 :
  upper_char (String b (String b2 c2)) =
  match List.find (fun kv => String.eqb (fst kv) (String b (String b2 c2))) uppercase with
  | Some kv => snd kv
  | None => String b (String b2 c2)
  end.
Proof. reflexivity. Qed.

Lemma upper_char_ok c : full c = true -> upper_ok c (upper_char c) = true.
Proof.
  intros Hc. destruct c as [|b [|b2 c2]]; [discriminate| |].
  - unfold full in Hc. cbn [String.length] in Hc. apply Nat.eqb_eq in Hc.
    symmetry in Hc. apply width_one in Hc.
    pose proof (proj1 (forallb_forall _ _) single_checked (nat_of_ascii b)) as H.
    cbv beta zeta in H. rewrite ascii_nat_embedding in H. apply H.
    apply in_seq. lia.
  - rewrite upper_char_multi.
    destruct (List.find _ uppercase) as [kv|] eqn:E.
    + now apply found_in_table in E as (_ & _ & Hok).
    + unfold upper_ok. rewrite (chars_full _ Hc). cbn [forallb length first_of last_of hd List.last].
      rewrite Hc, upper_char_multi, E, String.eqb_refl. cbn [lower_ascii negb Nat.eqb andb].
      destruct (isspace _); reflexivity.
Qed.

Lemma upper_char_short c : short c = true -> upper_char c = c.
Proof.
  intros Hc. destruct c as [|b [|b2 c2]]; [discriminate| |].
  - unfold short in Hc. cbn [String.length] in Hc. apply Nat.ltb_lt in Hc.
    unfold upper_char.
    destruct (Nat.leb 97 (nat_of_ascii b) && Nat.leb (nat_of_ascii b) 122) eqn:E;
      [|reflexivity].
    apply andb_prop in E as [_ E%Nat.leb_le].
    assert (width b = 1) by (apply width_one; lia). lia.
  - rewrite upper_char_multi.
    destruct (List.find _ uppercase) as [kv|] eqn:E; [|reflexivity].
    apply found_in_table in E as (_ & Hf & _).
    rewrite (full_not_short _ Hf) in Hc. discriminate.
Qed.

Lemma isspace_full c : isspace c = true -> full c = true.
Proof.
  unfold isspace. intros (x & Hin & Heq)%existsb_exists.
  apply String.eqb_eq in Heq. subst x.
  exact (proj1 (forallb_forall _ _) whitespace_full c Hin).
Qed.

Lemma isspace_short c : short c = true -> isspace c = false.
Proof.
  intros Hc. destruct (isspace c) eqn:E; [|reflexivity].
  apply isspace_full in E. rewrite (full_not_short _ E) in Hc. discriminate.
Qed.

Lemma lower_ascii_short c : short c = true -> lower_ascii c = false.
Proof.
  destruct c as [|b [|b2 c2]]; try reflexivity.
  unfold short. cbn [String.length]. intros Hc%Nat.ltb_lt. unfold lower_ascii.
  destruct (Nat.leb 97 _ && Nat.leb _ 122) eqn:E; [|reflexivity].
  apply andb_prop in E as [_ E%Nat.leb_le].
  assert (width b = 1) by (apply width_one; lia). lia.
Qed.

(** *** The upper case of one character *)

Lemma join_up c : join (up c) = upper_char c.
Proof. apply join_chars. Qed.

Lemma up_short c : short c = true -> up c = [c].
Proof. intros Hc. unfold up. rewrite (upper_char_short _ Hc). now apply chars_short. Qed.

Lemma up_ok c :
  full c = true ->
  forallb full (up c) = true
  /\ Forall (fun d => upper_char d = d) (up c)
  /\ Forall (fun d => lower_ascii d = false) (up c)
  /\ up c <> []
  /\ (isspace c = true -> up c = [c])
  /\ (isspace c = false ->
      isspace (first_of (up c)) = false /\ isspace (last_of (up c)) = false).
Proof.
  intros Hc. pose proof (upper_char_ok c Hc) as H. unfold upper_ok in H. fold (up c) in H.
  apply andb_prop in H as [H HE]. apply andb_prop in H as [H HD].
  apply andb_prop in H as [H HC]. apply andb_prop in H as [HA HB].
  split; [assumption|]. split.
  { apply Forall_forall. intros d Hd%list_elem_of_In.
    apply (proj1 (forallb_forall _ _) HB) in Hd. now apply String.eqb_eq. }
  split.
  { apply Forall_forall. intros d Hd%list_elem_of_In.
    apply (proj1 (forallb_forall _ _) HC) in Hd. now apply negb_true_iff. }
  split.
  { intros E. rewrite E in HD. discriminate. }
  split.
  - intros Hs. rewrite Hs in HE. apply String.eqb_eq in HE.
    unfold up. rewrite HE. now apply chars_full.
  - intros Hs. rewrite Hs in HE. apply andb_prop in HE as [H1 H2].
    now apply negb_true_iff in H1, H2.
Qed.

Lemma up_space c : elem c -> isspace c = true -> up c = [c].
Proof.
  intros [Hc|Hc] Hs; [now apply up_ok|]. rewrite (isspace_short _ Hc) in Hs. discriminate.
Qed.

Lemma up_nonspace c :
  elem c -> isspace c = false ->
  up c <> [] /\ isspace (first_of (up c)) = false /\ isspace (last_of (up c)) = false.
Proof.
  intros [Hc|Hc] Hs.
  - destruct (up_ok c Hc) as (_ & _ & _ & Hne & _ & H). split; [assumption | now apply H].
  - rewrite (up_short _ Hc). split; [discriminate|]. now split.
Qed.

Lemma up_nonempty c : elem c -> up c <> [].
Proof.
  intros Hc. destruct (isspace c) eqn:Hs.
  - rewrite (up_space _ Hc Hs). discriminate.
  - now apply up_nonspace.
Qed.

Lemma up_fixed c : elem c -> Forall (fun d => upper_char d = d) (up c).
Proof.
  intros [Hc|Hc]; [now apply up_ok|]. rewrite (up_short _ Hc).
  constructor; [now apply upper_char_short | constructor].
Qed.

Lemma up_no_lower c : elem c -> Forall (fun d => lower_ascii d = false) (up c).
Proof.
  intros [Hc|Hc]; [now apply up_ok|]. rewrite (up_short _ Hc).
  constructor; [now apply lower_ascii_short | constructor].
Qed.

(** *** upper *)

Lemma chars_join_up l : chunked l -> chars (join (map upper_char l)) = flat_map up l.
Proof.
  induction 1 as [|c Hc|c l Hc Hl IH]; [reflexivity| |].
  - cbn [map join fold_right flat_map]. rewrite append_nil_r, app_nil_r. reflexivity.
  - cbn [map join fold_right flat_map]. fold (join (map upper_char l)).
    rewrite <- (join_up c), chars_fulls_app by now apply up_ok. now rewrite IH.
Qed.

Lemma chars_upper s : chars (upper s) = flat_map up (chars s).
Proof. apply chars_join_up, chars_chunked. Qed.

Lemma join_flat_map_up l : join (flat_map up l) = join (map upper_char l).
Proof.
  induction l as [|c l IH]; [reflexivity|].
  cbn [flat_map map]. rewrite join_app, join_up, IH. reflexivity.
Qed.

Lemma map_fixed {A} (f : A -> A) l : Forall (fun d => f d = d) l -> map f l = l.
Proof. induction 1 as [|x l Hx _ IH]; [reflexivity|]. cbn [map]. now rewrite Hx, IH. Qed.

Lemma Forall_flat_map {A B} (P : A -> Prop) (Q : B -> Prop) (g : A -> list B) l :
  (forall a, P a -> Forall Q (g a)) -> Forall P l -> Forall Q (flat_map g l).
Proof.
  intros Hg. induction 1 as [|x l Hx _ IH]; [constructor|].
  cbn [flat_map]. apply Forall_app. split; auto.
Qed.

Lemma upper_fixed s : Forall (fun d => upper_char d = d) (chars (upper s)).
Proof.
  rewrite chars_upper. apply (Forall_flat_map elem); [apply up_fixed | apply chars_elem].
Qed.

Lemma upper_idem s : upper (upper s) = upper s.
Proof.
  unfold upper at 1. rewrite (map_fixed _ _ (upper_fixed s)). apply join_chars.
Qed.

Lemma upper_no_lower s : Forall (fun d => lower_ascii d = false) (chars (upper s)).
Proof.
  rewrite chars_upper. apply (Forall_flat_map elem); [apply up_no_lower | apply chars_elem].
Qed.

(** *** strip *)

Lemma lstrip_chars_chunked l : chunked l -> chunked (lstrip_chars l).
Proof.
  induction 1 as [|c Hc|c l Hc Hl IH]; cbn [lstrip_chars].
  - constructor.
  - destruct (isspace c); now constructor.
  - destruct (isspace c); [exact IH | now constructor].
Qed.

Lemma rstrip_chars_chunked l : chunked l -> chunked (rstrip_chars l).
Proof.
  induction 1 as [|c Hc|c l Hc Hl IH]; cbn [rstrip_chars].
  - constructor.
  - destruct (isspace c); now constructor.
  - destruct (rstrip_chars l) as [|y r]; [|now constructor].
    destruct (isspace c); constructor; [assumption | constructor].
Qed.

Lemma chars_strip s : chars (strip s) = rstrip_chars (lstrip_chars (chars s)).
Proof.
  apply chunked_chars, rstrip_chars_chunked, lstrip_chars_chunked, chars_chunked.
Qed.

Lemma rstrip_chars_cons c l :
  isspace c = false -> rstrip_chars (c :: l) = c :: rstrip_chars l.
Proof. intros Hc. cbn [rstrip_chars]. rewrite Hc. now destruct (rstrip_chars l). Qed.

Lemma last_of_cons c x l : last_of (c :: x :: l) = last_of (x :: l).
Proof. reflexivity. Qed.

Lemma rstrip_chars_last l :
  rstrip_chars l = [] \/ isspace (last_of (rstrip_chars l)) = false.
Proof.
  induction l as [|c l IH]; [now left|]. cbn [rstrip_chars].
  destruct (rstrip_chars l) as [|y r].
  - destruct (isspace c) eqn:E; [now left | now right].
  - right. destruct IH as [IH|IH]; [discriminate|]. now rewrite last_of_cons.
Qed.

Lemma lstrip_chars_first l :
  lstrip_chars l = [] \/ isspace (first_of (lstrip_chars l)) = false.
Proof.
  induction l as [|c l IH]; [now left|]. cbn [lstrip_chars].
  destruct (isspace c) eqn:E; [exact IH | now right].
Qed.

Lemma rstrip_chars_first l :
  isspace (first_of l) = false -> l <> [] ->
  rstrip_chars l <> [] /\ first_of (rstrip_chars l) = first_of l.
Proof.
  destruct l as [|c l]; [easy|]. cbn [first_of hd]. intros Hc _.
  rewrite (rstrip_chars_cons _ _ Hc). now split.
Qed.

Lemma strip_chars_trimmed l : trimmed (rstrip_chars (lstrip_chars l)).
Proof.
  destruct (lstrip_chars_first l) as [->|Hf]; [now left|].
  destruct (lstrip_chars l) as [|c r] eqn:E; [now left|].
  right. destruct (rstrip_chars_first (c :: r) Hf ltac:(discriminate)) as [Hne Heq].
  split; [now rewrite Heq|].
  destruct (rstrip_chars_last (c :: r)) as [?|?]; [contradiction | assumption].
Qed.

Lemma lstrip_chars_trimmed l : trimmed l -> lstrip_chars l = l.
Proof.
  intros [->|[Hf _]]; [reflexivity|]. destruct l as [|c l]; [reflexivity|].
  cbn [first_of hd] in Hf. cbn [lstrip_chars]. now rewrite Hf.
Qed.

Lemma rstrip_chars_fixed l :
  l <> [] -> isspace (last_of l) = false -> rstrip_chars l = l.
Proof.
  induction l as [|c l IH]; [easy|]. intros _ Hl. cbn [rstrip_chars].
  destruct l as [|x l].
  - cbn [rstrip_chars]. change (isspace c = false) in Hl. now rewrite Hl.
  - rewrite last_of_cons in Hl. now rewrite (IH ltac:(discriminate) Hl).
Qed.

Lemma rstrip_chars_trimmed l : trimmed l -> rstrip_chars l = l.
Proof.
  intros [->|[_ Hl]]; [reflexivity|]. destruct l as [|c l]; [reflexivity|].
  now apply rstrip_chars_fixed.
Qed.

Lemma strip_chars_idem l :
  rstrip_chars (lstrip_chars (rstrip_chars (lstrip_chars l)))
  = rstrip_chars (lstrip_chars l).
Proof.
  pose proof (strip_chars_trimmed l) as H.
  now rewrite (lstrip_chars_trimmed _ H), (rstrip_chars_trimmed _ H).
Qed.

Lemma strip_idem s : strip (strip s) = strip s.
Proof. unfold strip at 1. now rewrite chars_strip, strip_chars_idem. Qed.

Lemma rstrip_chars_app a b :
  rstrip_chars (a ++ b)%list =
  match rstrip_chars b with [] => rstrip_chars a | r => (a ++ r)%list end.
Proof.
  induction a as [|c a IH]; [cbn [app]; now destruct (rstrip_chars b)|].
  cbn [app rstrip_chars]. rewrite IH.
  destruct (rstrip_chars b) as [|y r]; [reflexivity|].
  now destruct a.
Qed.

Lemma rstrip_chars_prefix l : exists t, l = (rstrip_chars l ++ t)%list.
Proof.
  induction l as [|c l [t IH]]; [now exists []|]. cbn [rstrip_chars].
  destruct (rstrip_chars l) as [|y r].
  - destruct (isspace c); [now exists (c :: l)|]. exists l. reflexivity.
  - exists t. cbn [app]. now rewrite IH at 1.
Qed.

(** *** strip and upper *)

Lemma lstrip_chars_up l :
  Forall elem l -> lstrip_chars (flat_map up l) = flat_map up (lstrip_chars l).
Proof.
  induction 1 as [|c l Hc _ IH]; [reflexivity|].
  cbn [flat_map lstrip_chars]. destruct (isspace c) eqn:Hs.
  - rewrite (up_space _ Hc Hs). cbn [app lstrip_chars]. now rewrite Hs.
  - destruct (up_nonspace _ Hc Hs) as (Hne & Hf & _).
    destruct (up c) as [|d ds] eqn:E; [contradiction|]. cbn [first_of hd] in Hf.
    cbn [app lstrip_chars]. rewrite Hf. cbn [flat_map]. now rewrite E.
Qed.

Lemma rstrip_chars_up l :
  Forall elem l -> rstrip_chars (flat_map up l) = flat_map up (rstrip_chars l).
Proof.
  induction 1 as [|c l Hc Hl IH]; [reflexivity|].
  cbn [flat_map]. rewrite rstrip_chars_app, IH. cbn [rstrip_chars].
  destruct (rstrip_chars l) as [|y r] eqn:E.
  - cbn [flat_map]. destruct (isspace c) eqn:Hs.
    + rewrite (up_space _ Hc Hs). cbn [rstrip_chars]. now rewrite Hs.
    + destruct (up_nonspace _ Hc Hs) as (Hne & _ & Hlast).
      rewrite (rstrip_chars_fixed _ Hne Hlast). cbn [flat_map]. now rewrite app_nil_r.
  - assert (Hy : elem y).
    { destruct (rstrip_chars_prefix l) as [t Ht]. rewrite E in Ht. rewrite Ht in Hl.
      now inversion Hl. }
    cbn [flat_map]. destruct (up y) as [|d ds] eqn:Ey; [now apply up_nonempty in Ey|].
    reflexivity.
Qed.

Lemma strip_upper_comm s : upper (strip s) = strip (upper s).
Proof.
  unfold upper at 1. rewrite chars_strip. unfold strip. rewrite chars_upper.
  rewrite lstrip_chars_up by apply chars_elem.
  rewrite rstrip_chars_up, join_flat_map_up; [reflexivity|].
  pose proof (chars_elem s) as H. induction H as [|c l Hc Hl IH]; [constructor|].
  cbn [lstrip_chars]. destruct (isspace c); [exact IH | now constructor].
Qed.

Lemma strip_upper_twice s : upper (strip (upper (strip s))) = upper (strip s).
Proof.
  rewrite (strip_upper_comm s), strip_idem, (strip_upper_comm (upper s)), upper_idem.
  reflexivity.
Qed.

(** *** Padding *)

Lemma spaces_full l : forallb isspace l = true -> forallb full l = true.
Proof.
  intros H. apply forallb_forall. intros c Hc. apply isspace_full.
  exact (proj1 (forallb_forall _ _) H c Hc).
Qed.

Lemma lstrip_chars_spaces a b :
  forallb isspace a = true -> lstrip_chars (a ++ b)%list = lstrip_chars b.
Proof.
  induction a as [|c a IH]; [reflexivity|]. cbn [forallb].
  intros [Hc Ha]%andb_prop. cbn [app lstrip_chars]. rewrite Hc. auto.
Qed.

Lemma rstrip_chars_spaces a : forallb isspace a = true -> rstrip_chars a = [].
Proof.
  induction a as [|c a IH]; [reflexivity|]. cbn [forallb].
  intros [Hc Ha]%andb_prop. cbn [rstrip_chars]. now rewrite (IH Ha), Hc.
Qed.

Lemma lstrip_chars_app a b :
  lstrip_chars (a ++ b)%list =
  match lstrip_chars a with [] => lstrip_chars b | r => (r ++ b)%list end.
Proof.
  induction a as [|c a IH]; [cbn [app]; now destruct (lstrip_chars b)|].
  cbn [app lstrip_chars]. now destruct (isspace c).
Qed.

Lemma strip_chars_padding a l b :
  forallb isspace a = true -> forallb isspace b = true ->
  rstrip_chars (lstrip_chars (a ++ l ++ b)%list) = rstrip_chars (lstrip_chars l).
Proof.
  intros Ha Hb. rewrite (lstrip_chars_spaces _ _ Ha), lstrip_chars_app.
  destruct (lstrip_chars l) as [|y r] eqn:E.
  - replace (lstrip_chars b) with (@nil string); [reflexivity|].
    symmetry. clear -Hb. induction b as [|c b IH]; [reflexivity|].
    cbn [forallb] in Hb. apply andb_prop in Hb as [Hc Hb].
    cbn [lstrip_chars]. rewrite Hc. auto.
  - now rewrite rstrip_chars_app, (rstrip_chars_spaces _ Hb).
Qed.

(** Whitespace characters around a text that ends with a whole character
    are forgotten. *)
Lemma strip_padding l s r :
  forallb isspace (chars l) = true -> forallb full (chars s) = true ->
  forallb isspace (chars r) = true ->
  strip (l +:+ s +:+ r) = strip s.
Proof.
  intros Hl Hs Hr. unfold strip.
  rewrite <- (join_chars l) at 1. rewrite chars_fulls_app by now apply spaces_full.
  rewrite <- (join_chars s) at 1. rewrite chars_fulls_app by assumption.
  now rewrite strip_chars_padding.
Qed.

End TextFacts.

(** ** Fallible loops *)

Lemma mapM_ok_Forall2 {A B} (f : A -> result B) l l' :
  mapM f l = ok l' -> Forall2 (fun a b => f a = ok b) l l'.
Proof.
  revert l'. induction l as [|a l IH]; simpl; intros l' H.
  - injection H as <-. constructor.
  - destruct (f a) as [e|b] eqn:Ea; simpl in H; [discriminate|].
    destruct (mapM f l) as [e|bs]; simpl in H; [discriminate|].
    injection H as <-. constructor; [exact Ea | now apply IH].
Qed.

Lemma mapM_all_ok {A B} (f : A -> result B) l :
  (forall a, In a l -> exists b, f a = ok b) -> exists l', mapM f l = ok l'.
Proof.
  induction l as [|a l IH]; simpl; intros H; [now eexists|].
  destruct (H a (or_introl eq_refl)) as [b Hb].
  destruct IH as [bs Hbs]; [intros; apply H; now right|].
  exists (b :: bs). now rewrite Hb, Hbs.
Qed.


(** ** The cleaning step, row by row *)

Lemma nth_blank i k : nth i (replicate k NaN) NaN = NaN.
Proof. revert i. induction k as [|k IH]; intros [|i]; simpl; auto. Qed.

Lemma column_pad i n p : pd.column i (pd.pad n p) = pd.column i p.
Proof.
  unfold pd.column, pd.pad. generalize (n - length p) as k. intros k.
  revert i. induction p as [|c p IH]; intros i; simpl.
  - rewrite nth_blank. now destruct i.
  - destruct i; [reflexivity | apply IH].
Qed.

Lemma zip_with_map_r {A B C} (f : A -> B -> C) (g : A -> B) l :
  zip_with f l (map g l) = map (fun x => f x (g x)) l.
Proof. induction l as [|a l IH]; simpl; [reflexivity | now rewrite IH]. Qed.

Lemma map_flat_map {A B C} (g : B -> C) (f : A -> list B) l :
  map g (flat_map f l) = flat_map (fun a => map g (f a)) l.
Proof.
  induction l as [|a l IH]; simpl; [reflexivity|].
  now rewrite map_app, IH.
Qed.

Lemma width_app a b : pd.width (a ++ b)%list = Nat.max (pd.width a) (pd.width b).
Proof. unfold pd.width. induction a as [|x a IH]; simpl; [reflexivity|]. rewrite IH. lia. Qed.

Section ProcessFacts.

Variable json_loads : string -> option json.

(** Once every CASE_DATA cell has decoded, [process_data] is three checks
    and the row-wise table. *)
Lemma process_data_decoded jaws_data casemgr_data decoded :
  mapM (apply_json_loads json_loads) casemgr_data = ok decoded ->
  process_data json_loads jaws_data casemgr_data =
    (_ <- pd.str_accessor (map key (pd.explode decoded)) ;;
     _ <- pd.check_key_length 4
            (pd.width (map (pd.split_cell "3") (map key (pd.explode decoded)))) ;;
     _ <- pd.str_accessor (map IDN_REQUEST jaws_data) ;;
     ok (flat_map records_of decoded, map cleaned jaws_data)).
Proof.
  intros H. unfold process_data. rewrite H. cbn [bind ok].
  destruct (pd.str_accessor (map key (pd.explode decoded))) as [e|[]]; [reflexivity|].
  cbn [bind pd.str_split_expand].
  destruct (pd.check_key_length _ _) as [e|[]]; [reflexivity|].
  cbn [bind].
  destruct (pd.str_accessor (map IDN_REQUEST jaws_data)) as [e|[]]; [reflexivity|].
  cbn [bind]. unfold ok. do 2 f_equal.
  rewrite !map_map, zip_with_map_r.
  transitivity
    (map (fun x : casemgr_row (option json) =>
            mk_case (CASE_DATA x) (value x)
                    (pd.column 1 (pd.split_cell "3" (key x)))
                    (strip_upper (pd.column 3 (pd.split_cell "3" (key x)))))
         (pd.explode decoded)).
  { apply map_ext. intros x. now rewrite !column_pad. }
  unfold pd.explode. rewrite map_flat_map. clear H.
  induction decoded as [|r rs IH]; simpl; [reflexivity|].
  rewrite IH. f_equal. unfold records_of. now rewrite map_map.
Qed.

Lemma apply_json_loads_keeps r r' :
  apply_json_loads json_loads r = ok r' -> key r' = key r /\ value r' = value r.
Proof.
  unfold apply_json_loads. destruct (CASE_DATA r) as [s|]; [|discriminate].
  destruct (json_loads s); [|discriminate]. intros [= <-]. now split.
Qed.

Lemma decoded_keys casemgr_data decoded :
  mapM (apply_json_loads json_loads) casemgr_data = ok decoded ->
  map key decoded = map key casemgr_data.
Proof.
  intros H%mapM_ok_Forall2. induction H as [|r r' l l' Hr _ IH]; simpl; [reflexivity|].
  destruct (apply_json_loads_keeps _ _ Hr) as [-> _]. now rewrite IH.
Qed.

Lemma explode_entries_cons j : exists e es, pd.explode_entries j = e :: es.
Proof.
  destruct j as [| | | |[|x xs]|[|x xs]]; simpl; eauto.
Qed.

(** The explode repeats keys; it adds and removes none. *)
Lemma explode_keys (decoded : list (casemgr_row json)) :
  pd.str_accessor (map key (pd.explode decoded)) = pd.str_accessor (map key decoded)
  /\ pd.width (map (pd.split_cell "3") (map key (pd.explode decoded)))
     = pd.width (map (pd.split_cell "3") (map key decoded)).
Proof.
  assert (Hx : forall P, existsb P (map key (pd.explode decoded))
                         = existsb P (map key decoded)).
  { intros P. induction decoded as [|r rs IH]; simpl; [reflexivity|].
    rewrite map_app, existsb_app, IH, map_map. simpl. f_equal.
    destruct (explode_entries_cons (CASE_DATA r)) as (e & es & ->). simpl.
    induction es as [|e' es IHes]; simpl; [apply orb_false_r|].
    rewrite IHes. now destruct (P (key r)). }
  split.
  - unfold pd.str_accessor. rewrite Hx.
    destruct decoded as [|r rs]; simpl; [reflexivity|].
    destruct (explode_entries_cons (CASE_DATA r)) as (e & es & ->). reflexivity.
  - clear Hx. induction decoded as [|r rs IH]; [reflexivity|].
    change (pd.explode (r :: rs)) with
      (map (fun e => mk_casemgr e (key r) (value r)) (pd.explode_entries (CASE_DATA r))
       ++ pd.explode rs)%list.
    rewrite !map_app, width_app, IH.
    change (map (pd.split_cell "3") (map key (r :: rs))) with
      (pd.split_cell "3" (key r) :: map (pd.split_cell "3") (map key rs)).
    change (pd.width (pd.split_cell "3" (key r) :: ?l)) with
      (Nat.max (length (pd.split_cell "3" (key r))) (pd.width l)).
    f_equal.
    destruct (explode_entries_cons (CASE_DATA r)) as (e & es & ->).
    induction es as [|e' es IHes]; simpl in *; lia.
Qed.

(** [process_data] in terms of the sheet's own key column. *)
Lemma process_data_rows jaws_data casemgr_data decoded :
  mapM (apply_json_loads json_loads) casemgr_data = ok decoded ->
  process_data json_loads jaws_data casemgr_data =
    (_ <- pd.str_accessor (map key casemgr_data) ;;
     _ <- pd.check_key_length 4
            (pd.width (map (pd.split_cell "3") (map key casemgr_data))) ;;
     _ <- pd.str_accessor (map IDN_REQUEST jaws_data) ;;
     ok (flat_map records_of decoded, map cleaned jaws_data)).
Proof.
  intros H. rewrite (process_data_decoded _ _ _ H).
  destruct (explode_keys decoded) as [-> ->]. now rewrite (decoded_keys _ _ H).
Qed.

(** A frame of four columns has a text among its keys. *)
Lemma width_four_text (col : list cell) :
  pd.width (map (pd.split_cell "3") col) = 4 -> pd.str_accessor col = ok tt.
Proof.
  intros H. unfold pd.str_accessor. destruct col as [|c col]; [reflexivity|].
  destruct (existsb is_text (c :: col)) eqn:E; [reflexivity|]. exfalso.
  assert (Hle : pd.width (map (pd.split_cell "3") (c :: col)) <= 1); [|lia].
  clear H. induction (c :: col) as [|x l IH]; [simpl; lia|].
  cbn [existsb] in E. apply orb_false_elim in E as [Ex El]. specialize (IH El).
  change (Nat.max (length (pd.split_cell "3" x)) (pd.width (map (pd.split_cell "3") l)) <= 1).
  destruct x; [discriminate|]. simpl. lia.
Qed.

Lemma width_all_four (col : list cell) :
  col <> [] ->
  (forall c, In c col -> length (pd.split_cell "3" c) = 4) ->
  pd.width (map (pd.split_cell "3") col) = 4.
Proof.
  intros Hne H. destruct col as [|c col]; [congruence|]. clear Hne.
  revert c H. induction col as [|c' col IH]; intros c H; simpl.
  - rewrite (H c); [reflexivity | now left].
  - rewrite (H c) by now left.
    change (Nat.max 4 (pd.width (map (pd.split_cell "3") (c' :: col))) = 4).
    rewrite IH; [reflexivity|]. intros x Hx. apply H. now right.
Qed.

End ProcessFacts.

Section ProcessTheorems.

Variable json_loads : string -> option json.

Lemma process_data_ok_inv jaws_data casemgr_data case_df jaws_df :
  process_data json_loads jaws_data casemgr_data = ok (case_df, jaws_df) ->
  exists decoded,
    mapM (apply_json_loads json_loads) casemgr_data = ok decoded
    /\ case_df = flat_map records_of decoded
    /\ jaws_df = map cleaned jaws_data.
Proof.
  intros H.
  destruct (mapM (apply_json_loads json_loads) casemgr_data) as [e|decoded] eqn:HM.
  - unfold process_data in H. rewrite HM in H. discriminate.
  - rewrite (process_data_rows _ _ _ _ HM) in H.
    destruct (pd.str_accessor (map key casemgr_data)) as [?|[]]; [discriminate|].
    cbn [bind] in H. destruct (pd.check_key_length _ _) as [?|[]]; [discriminate|].
    cbn [bind] in H.
    destruct (pd.str_accessor (map IDN_REQUEST jaws_data)) as [?|[]]; [discriminate|].
    cbn [bind] in H. injection H as <- <-. now exists decoded.
Qed.

Lemma strip_upper_idem c : strip_upper (strip_upper c) = strip_upper c.
Proof.
  destruct c as [s|]; [|reflexivity]. unfold strip_upper, pd.str_upper, pd.str_strip.
  f_equal. apply TextFacts.strip_upper_twice.
Qed.

(** C7.  Before the join [process_data] replaces every IDN_REQUEST of the
    JAWS side by its trimmed, upper-cased text and sets every Security ID of
    the Case side to the trimmed, upper-cased fourth piece of the key.  The
    normalisation is idempotent on every text, it forgets whitespace
    characters around a text, and it forgets letter case: texts with the
    same upper case get the same key.  Whitespace and upper case are those
    of [str.strip] and [str.upper] on Unicode text. *)
Theorem join_keys_normalised jaws_data casemgr_data case_df jaws_df :
  process_data json_loads jaws_data casemgr_data = ok (case_df, jaws_df) ->
  map IDN_REQUEST jaws_df = map (fun j => strip_upper (IDN_REQUEST j)) jaws_data
  /\ (forall c, In c case_df ->
        exists r, In r casemgr_data
          /\ Security_ID c = strip_upper (pd.column 3 (pd.split_cell "3" (key r))))
  /\ (forall c, In c case_df -> strip_upper (Security_ID c) = Security_ID c)
  /\ (forall j, In j jaws_df -> strip_upper (IDN_REQUEST j) = IDN_REQUEST j)
  /\ (forall s, Text.upper (Text.strip (Text.upper (Text.strip s)))
                = Text.upper (Text.strip s))
  /\ (forall l s r, forallb Text.isspace (Text.chars l) = true ->
        Text.well_formed s = true ->
        forallb Text.isspace (Text.chars r) = true ->
        strip_upper (Str (l +:+ s +:+ r)) = strip_upper (Str s))
  /\ (forall a b, Text.upper a = Text.upper b ->
        strip_upper (Str a) = strip_upper (Str b)).
Proof.
  intros H. destruct (process_data_ok_inv _ _ _ _ H) as (decoded & HM & -> & ->).
  assert (Hcase : forall c, In c (flat_map records_of decoded) ->
            exists r, In r casemgr_data
              /\ Security_ID c = strip_upper (pd.column 3 (pd.split_cell "3" (key r)))).
  { intros c (r' & Hr' & Hc)%in_flat_map.
    apply mapM_ok_Forall2 in HM.
    apply list_elem_of_In in Hr'.
    destruct (proj1 (list_elem_of_lookup _ _) Hr') as [i Hi].
    destruct (Forall2_lookup_r _ _ _ _ _ HM Hi) as (r & Hri & Hdec).
    exists r. split; [apply list_elem_of_In; eapply list_elem_of_lookup_2; eauto|].
    destruct (apply_json_loads_keeps _ _ _ Hdec) as [<- _].
    unfold records_of in Hc. apply in_map_iff in Hc as (e & <- & _). reflexivity. }
  split; [now rewrite map_map|]. split; [exact Hcase|]. split.
  { intros c Hc. destruct (Hcase c Hc) as (r & _ & ->). apply strip_upper_idem. }
  split.
  { intros j (j0 & <- & _)%in_map_iff. apply strip_upper_idem. }
  split.
  { intros s. apply TextFacts.strip_upper_twice. }
  split.
  { intros l s r Hl Hs Hr. unfold strip_upper, pd.str_upper, pd.str_strip.
    now rewrite (TextFacts.strip_padding l s r Hl Hs Hr). }
  intros a b Hab. unfold strip_upper, pd.str_upper, pd.str_strip.
  now rewrite (TextFacts.strip_upper_comm a), (TextFacts.strip_upper_comm b), Hab.
Qed.

End ProcessTheorems.

Lemma join_keys_normalised_witness :
  map IDN_REQUEST (map cleaned sample_jaws) = [Str "B"; Str "C"]
  /\ strip_upper (Str " sec123 ") = Str "SEC123"
  /\ strip_upper (strip_upper (Str " sec123 ")) = Str "SEC123"
  /\ strip_upper (Str (Text.bytes [194; 160] +:+ "é12" +:+ Text.bytes [226; 128; 131]))
     = Str "É12".
Proof.
  destruct (join_keys_normalised sample_json_loads sample_jaws sample_casemgr
              (flat_map records_of
                 [mk_casemgr (JArray [JNumber "1"; JNumber "2"]) (Str "A3SYM3B3 sec12 ") (Str "OPEN");
                  mk_casemgr (JNumber "7") (Str "X3IBM3Y3b") (Str "CLOSED")])
              (map cleaned sample_jaws) eq_refl)
    as (Hj & _ & _ & _ & Hidem & Hpad & _).
  split; [exact Hj|]. split; [vm_compute; reflexivity|]. split.
  - change (Str (Text.upper (Text.strip (Text.upper (Text.strip " sec123 ")))) = Str "SEC123").
    rewrite Hidem. vm_compute. reflexivity.
  - rewrite Hpad; vm_compute; reflexivity.
Defined.

(** C3 (as amended).  When every key of the Casemgr sheet is a text of
    exactly four pieces between separators "3", the sheet decodes and the
    JAWS key column has text, [process_data] returns, and every Case Record
    takes the second piece of its key as Symbol and the trimmed, upper-cased
    fourth piece as Security ID; the first and third pieces appear nowhere.
    The key "A3SYM3B3SEC12" is such a key, with pieces A, SYM, B, SEC12. *)
Theorem key_split_four_pieces (json_loads : string -> option json) jaws_data casemgr_data :
  casemgr_data <> [] ->
  (forall r, In r casemgr_data ->
     exists s j, CASE_DATA r = Str s /\ json_loads s = Some j) ->
  (forall r, In r casemgr_data ->
     exists k a b c d, key r = Str k /\ Text.split "3" k = [a; b; c; d]) ->
  pd.str_accessor (map IDN_REQUEST jaws_data) = ok tt ->
  Text.split "3" "A3SYM3B3SEC12" = ["A"; "SYM"; "B"; "SEC12"]
  /\ exists decoded,
       mapM (apply_json_loads json_loads) casemgr_data = ok decoded
       /\ process_data json_loads jaws_data casemgr_data
          = ok (flat_map records_of decoded, map cleaned jaws_data)
       /\ length decoded = length casemgr_data
       /\ forall r k a b c d rec,
            In r decoded -> key r = Str k -> Text.split "3" k = [a; b; c; d] ->
            In rec (records_of r) ->
            Symbol rec = Str b
            /\ Security_ID rec = Str (Text.upper (Text.strip d))
            /\ Status rec = value r.
Proof.
  intros Hne Hjson Hkey Hjaws. split; [reflexivity|].
  destruct (mapM_all_ok (apply_json_loads json_loads) casemgr_data) as [decoded HM].
  { intros r Hr. destruct (Hjson r Hr) as (s & j & Hs & Hj).
    unfold apply_json_loads. rewrite Hs, Hj. eauto. }
  exists decoded. split; [exact HM|]. split; [|split].
  - rewrite (process_data_rows _ _ _ _ HM).
    assert (Hw : pd.width (map (pd.split_cell "3") (map key casemgr_data)) = 4).
    { apply width_all_four.
      - destruct casemgr_data; [congruence | discriminate].
      - intros c (r & <- & Hr)%in_map_iff.
        destruct (Hkey r Hr) as (k & a & b & c' & d & -> & Hk). simpl. now rewrite Hk. }
    rewrite (width_four_text _ Hw), Hw, Hjaws. reflexivity.
  - apply mapM_ok_Forall2, Forall2_length in HM. now symmetry.
  - intros r k a b c d rec _ Hk Hs (e & <- & _)%in_map_iff. simpl.
    rewrite Hk. simpl. rewrite Hs. simpl. auto.
Qed.

Lemma key_split_four_pieces_witness :
  process_data sample_json_loads sample_jaws sample_casemgr
  = ok ([ mk_case (Some (JNumber "1")) (Str "OPEN") (Str "SYM") (Str "SEC12");
          mk_case (Some (JNumber "2")) (Str "OPEN") (Str "SYM") (Str "SEC12");
          mk_case (Some (JNumber "7")) (Str "CLOSED") (Str "IBM") (Str "B") ],
        [ mk_jaws (Str "B") (Str "OPEN"); mk_jaws (Str "C") (Str "OPEN") ]).
Proof.
  destruct (key_split_four_pieces sample_json_loads sample_jaws sample_casemgr)
    as (_ & decoded & HM & HP & _).
  - discriminate.
  - intros r [<-|[<-|[]]]; simpl; eauto.
  - intros r [<-|[<-|[]]]; simpl; eauto 10.
  - reflexivity.
  - injection HM as <-. exact HP.
Defined.

(** C3, the claim's own example: the key "A3SYM3B3SEC123" ends in the
    separator, so it has five pieces, the fourth is "SEC12", and the
    assignment to four columns raises; no Case Record with Security ID
    "SEC123" comes of it. *)
Lemma key_split_claimed_example_fails :
  Text.split "3" "A3SYM3B3SEC123" = ["A"; "SYM"; "B"; "SEC12"; ""]
  /\ process_data sample_json_loads sample_jaws
       [mk_casemgr (Str "7") (Str "A3SYM3B3SEC123") (Str "OPEN")]
     = raise ValueError
  /\ ~ (exists case_df jaws_df rec,
          process_data sample_json_loads sample_jaws
            [mk_casemgr (Str "7") (Str "A3SYM3B3SEC123") (Str "OPEN")]
          = ok (case_df, jaws_df)
          /\ In rec case_df
          /\ Symbol rec = Str "SYM" /\ Security_ID rec = Str "SEC123").
Proof.
  split; [reflexivity|]. split; [reflexivity|].
  intros (case_df & jaws_df & rec & H & _). discriminate H.
Qed.

(** C4 (as amended).  With every CASE_DATA cell decoded and text in the JAWS
    key column, [process_data] returns exactly when the longest key of the
    sheet has four pieces.  It then tolerates shorter and blank keys: a
    Case Record whose key has fewer than four pieces has a blank Security
    ID, one whose key has fewer than two has a blank Symbol too, and the row
    is kept with its Status.  When the longest key has more or fewer than
    four pieces the run stops with an exception. *)
Theorem short_keys_leave_blanks (json_loads : string -> option json)
    jaws_data casemgr_data decoded :
  mapM (apply_json_loads json_loads) casemgr_data = ok decoded ->
  pd.str_accessor (map IDN_REQUEST jaws_data) = ok tt ->
  (pd.width (map (pd.split_cell "3") (map key casemgr_data)) = 4 ->
     process_data json_loads jaws_data casemgr_data
     = ok (flat_map records_of decoded, map cleaned jaws_data)
     /\ forall r rec, In r decoded -> In rec (records_of r) ->
          (length (pd.split_cell "3" (key r)) < 4 -> Security_ID rec = NaN)
          /\ (length (pd.split_cell "3" (key r)) < 2 -> Symbol rec = NaN)
          /\ Status rec = value r)
  /\ (pd.width (map (pd.split_cell "3") (map key casemgr_data)) <> 4 ->
      exists e, process_data json_loads jaws_data casemgr_data = raise e
                /\ (e = ValueError \/ e = AttributeError)).
Proof.
  intros HM Hjaws. rewrite (process_data_rows _ _ _ _ HM). split.
  - intros Hw. rewrite (width_four_text _ Hw), Hw, Hjaws. split; [reflexivity|].
    intros r rec _ (e & <- & _)%in_map_iff. simpl.
    assert (Hnth : forall i, length (pd.split_cell "3" (key r)) <= i ->
                     pd.column i (pd.split_cell "3" (key r)) = NaN).
    { intros i Hi. unfold pd.column. now apply nth_overflow. }
    split; [|split; [|reflexivity]].
    + intros Hlen. rewrite Hnth by lia. reflexivity.
    + intros Hlen. apply Hnth. lia.
  - intros Hw. destruct (pd.str_accessor (map key casemgr_data)) as [e|[]] eqn:Ha.
    + exists e. split; [reflexivity|]. right.
      unfold pd.str_accessor in Ha. destruct (map key casemgr_data); [discriminate|].
      destruct (existsb _ _); [discriminate|]. now injection Ha as <-.
    + exists ValueError. split; [|now left].
      cbn [bind]. unfold pd.check_key_length.
      destruct (Nat.eqb_spec (pd.width (map (pd.split_cell "3") (map key casemgr_data))) 4);
        [contradiction | reflexivity].
Qed.

Lemma short_keys_leave_blanks_witness :
  process_data sample_json_loads sample_jaws ragged_casemgr
  = ok ([ mk_case (Some (JNumber "7")) (Str "OPEN") (Str "SYM") NaN;
          mk_case None (Str "CLOSED") (Str "IBM") (Str "B");
          mk_case (Some (JNumber "7")) (Str "HOLD") NaN NaN ],
        [ mk_jaws (Str "B") (Str "OPEN"); mk_jaws (Str "C") (Str "OPEN") ]).
Proof.
  apply (short_keys_leave_blanks sample_json_loads sample_jaws ragged_casemgr
           [ mk_casemgr (JNumber "7") (Str "A3SYM") (Str "OPEN");
             mk_casemgr (JArray []) (Str "X3IBM3Y3b") (Str "CLOSED");
             mk_casemgr (JNumber "7") NaN (Str "HOLD") ]);
    reflexivity.
Defined.

(** C4, as claimed: a sheet whose only key has two pieces, and a sheet with
    a key of five pieces next to one of four, both stop [process_data] with
    ValueError instead of leaving blanks. *)
Lemma short_key_alone_raises :
  process_data sample_json_loads sample_jaws
    [mk_casemgr (Str "7") (Str "A3SYM") (Str "OPEN")]
  = raise ValueError
  /\ process_data sample_json_loads sample_jaws
       [ mk_casemgr (Str "7") (Str "A3SYM3B3C3D") (Str "OPEN");
         mk_casemgr (Str "7") (Str "X3IBM3Y3b") (Str "CLOSED") ]
     = raise ValueError.
Proof. split; reflexivity. Qed.

(** ** The outer join *)

Lemma insert_key_In x k ks : In x (pd.insert_key k ks) <-> x = k \/ In x ks.
Proof.
  induction ks as [|k' ks IH]; simpl; [intuition congruence|].
  destruct (String.compare k k') eqn:E; simpl.
  - apply String.compare_eq_iff in E. subst k'. intuition congruence.
  - intuition congruence.
  - rewrite IH. intuition congruence.
Qed.

Lemma sorted_keys_In s col : In s (pd.sorted_keys col) <-> In (Str s) col.
Proof.
  unfold pd.sorted_keys. induction col as [|c col IH]; simpl; [tauto|].
  destruct c as [s'|].
  - rewrite insert_key_In, IH. split; intros [H|H]; auto; left; congruence.
  - rewrite IH. split; [auto | intros [H|H]; [discriminate | auto]].
Qed.

Lemma join_keys_In k lk rk : In k (pd.join_keys lk rk) <-> In k lk \/ In k rk.
Proof.
  unfold pd.join_keys. rewrite in_app_iff, in_map_iff, <- in_app_iff.
  split.
  - intros [(s & <- & Hs)|H]; [now apply sorted_keys_In|].
    destruct (existsb isna (lk ++ rk)) eqn:E; [|destruct H].
    destruct H as [<-|[]]. apply existsb_exists in E as ([|] & Hin & Hx);
      [discriminate | exact Hin].
  - intros H. destruct k as [s|].
    + left. exists s. split; [reflexivity | now apply sorted_keys_In].
    + right. replace (existsb isna (lk ++ rk)) with true; [now left|].
      symmetry. apply existsb_exists. now exists NaN.
Qed.

Lemma join_group_In left right k c j :
  In (c, j) (pd.join_group left right k) <->
    (In c left /\ Security_ID c = k /\ In j right /\ IDN_REQUEST j = k)
    \/ (In c left /\ Security_ID c = k /\ j = pd.jaws_absent
        /\ forall j', In j' right -> IDN_REQUEST j' <> k)
    \/ (c = pd.case_absent /\ In j right /\ IDN_REQUEST j = k
        /\ forall c', In c' left -> Security_ID c' <> k).
Proof.
  unfold pd.join_group.
  set (ls := List.filter _ left). set (rs := List.filter _ right).
  assert (Hls : forall x, In x ls <-> In x left /\ Security_ID x = k).
  { intros x. unfold ls. rewrite filter_In, bool_decide_eq_true. tauto. }
  assert (Hrs : forall x, In x rs <-> In x right /\ IDN_REQUEST x = k).
  { intros x. unfold rs. rewrite filter_In, bool_decide_eq_true. tauto. }
  clearbody ls rs.
  replace (match ls, rs with
           | _, [] => map (fun l => (l, pd.jaws_absent)) ls
           | [], _ => map (fun r => (pd.case_absent, r)) rs
           | _, _ => flat_map (fun l => map (fun r => (l, r)) rs) ls
           end)
    with (match rs with
          | [] => map (fun l => (l, pd.jaws_absent)) ls
          | _ :: _ =>
              match ls with
              | [] => map (fun r => (pd.case_absent, r)) rs
              | _ :: _ => flat_map (fun l => map (fun r => (l, r)) rs) ls
              end
          end)
    by (destruct ls, rs; reflexivity).
  destruct rs as [|r rs].
  - rewrite in_map_iff. split.
    + intros (l & [= <- <-] & Hl). right. left. apply Hls in Hl as [? ?].
      repeat split; auto. intros j' Hj' Hk. destruct (proj2 (Hrs j') (conj Hj' Hk)).
    + intros [(_ & _ & Hj & Hk)|[(Hc & Hk & -> & _)|(_ & Hj & Hk & _)]].
      * destruct (proj2 (Hrs j) (conj Hj Hk)).
      * exists c. split; [reflexivity | now apply Hls].
      * destruct (proj2 (Hrs j) (conj Hj Hk)).
  - destruct ls as [|l ls].
    + rewrite in_map_iff. split.
      * intros (x & [= <- <-] & Hx). right. right. apply Hrs in Hx as [? ?].
        repeat split; auto. intros c' Hc' Hk. destruct (proj2 (Hls c') (conj Hc' Hk)).
      * intros [(Hc & Hk & _)|[(Hc & Hk & _)|(-> & Hj & Hk & _)]].
        -- destruct (proj2 (Hls c) (conj Hc Hk)).
        -- destruct (proj2 (Hls c) (conj Hc Hk)).
        -- exists j. split; [reflexivity | now apply Hrs].
    + rewrite in_flat_map. split.
      * intros (x & Hx & (y & [= <- <-] & Hy)%in_map_iff). left.
        apply Hls in Hx as [? ?]. apply Hrs in Hy as [? ?]. auto.
      * intros [(Hc & Hk & Hj & Hk')|[(_ & _ & _ & Hno)|(_ & _ & _ & Hno)]].
        -- exists c. split; [now apply Hls|]. apply in_map_iff. exists j.
           split; [reflexivity | now apply Hrs].
        -- exfalso. destruct (proj1 (Hrs r) (or_introl eq_refl)) as [Hr Hk].
           now apply (Hno r).
        -- exfalso. destruct (proj1 (Hls l) (or_introl eq_refl)) as [Hl Hk].
           now apply (Hno l).
Qed.

(** The rows of the outer join: the pairs with equal keys, the left rows
    without a partner, and the right rows without a partner. *)
Lemma merge_outer_In left right c j :
  In (c, j) (pd.merge_outer left right) <->
    (In c left /\ In j right /\ Security_ID c = IDN_REQUEST j)
    \/ (In c left /\ j = pd.jaws_absent
        /\ forall j', In j' right -> IDN_REQUEST j' <> Security_ID c)
    \/ (c = pd.case_absent /\ In j right
        /\ forall c', In c' left -> Security_ID c' <> IDN_REQUEST j).
Proof.
  unfold pd.merge_outer. rewrite in_flat_map. split.
  - intros (k & _ & H). apply join_group_In in H.
    destruct H as [(? & <- & ? & ?)|[(? & <- & ? & ?)|(? & ? & <- & ?)]]; auto 10.
  - intros [(Hc & Hj & Hk)|[(Hc & -> & Hno)|(-> & Hj & Hno)]].
    + exists (Security_ID c). split.
      * apply join_keys_In. left. now apply in_map.
      * apply join_group_In. left. auto.
    + exists (Security_ID c). split.
      * apply join_keys_In. left. now apply in_map.
      * apply join_group_In. right. left. auto.
    + exists (IDN_REQUEST j). split.
      * apply join_keys_In. right. now apply in_map.
      * apply join_group_In. right. right. auto.
Qed.

(** No row of either side is dropped. *)
Lemma merge_outer_left left right c :
  In c left -> exists j, In (c, j) (pd.merge_outer left right).
Proof.
  intros Hc.
  destruct (List.filter (fun r => bool_decide (IDN_REQUEST r = Security_ID c)) right)
    as [|j js] eqn:E.
  - exists pd.jaws_absent. apply merge_outer_In. right. left.
    repeat split; auto. intros j' Hj' Hk.
    assert (H : In j' []); [|destruct H].
    rewrite <- E. apply filter_In. split; [exact Hj' | now apply bool_decide_eq_true].
  - exists j. apply merge_outer_In. left.
    assert (H : In j (j :: js)) by now left.
    rewrite <- E in H. apply filter_In in H as [Hj Hk].
    apply bool_decide_eq_true in Hk. auto.
Qed.

Lemma merge_outer_right left right j :
  In j right -> exists c, In (c, j) (pd.merge_outer left right).
Proof.
  intros Hj.
  destruct (List.filter (fun l => bool_decide (Security_ID l = IDN_REQUEST j)) left)
    as [|c cs] eqn:E.
  - exists pd.case_absent. apply merge_outer_In. right. right.
    repeat split; auto. intros c' Hc' Hk.
    assert (H : In c' []); [|destruct H].
    rewrite <- E. apply filter_In. split; [exact Hc' | now apply bool_decide_eq_true].
  - exists c. apply merge_outer_In. left.
    assert (H : In c (c :: cs)) by now left.
    rewrite <- E in H. apply filter_In in H as [Hc Hk].
    apply bool_decide_eq_true in Hk. auto.
Qed.

(** ** merge_data *)

Section MergeFacts.

Variable jaws_casestatus_map : cell -> cell -> string.

Local Abbreviation reconciled := (reconciled jaws_casestatus_map).

Lemma zip_reconciled (l : list (case_record * jaws_row)) :
  zip_with (fun m s => mk_merged (fst m) (snd m) s) l
    (zip_with (calreconstatuscase jaws_casestatus_map)
       (map (fun m => Status (fst m)) l) (map (fun m => CDE_JNL_STA (snd m)) l))
  = map reconciled l.
Proof. induction l as [|x l IH]; simpl; [reflexivity|]. now rewrite IH. Qed.

Lemma merge_data_rows case_df jaws_df :
  merge_data jaws_casestatus_map case_df jaws_df =
    match pd.merge_outer case_df jaws_df with
    | [] => raise ValueError
    | ms => ok (map reconciled ms)
    end.
Proof.
  unfold merge_data, np_vectorize.
  destruct (pd.merge_outer case_df jaws_df) as [|m ms]; [reflexivity|].
  rewrite <- zip_reconciled. reflexivity.
Qed.

Lemma merge_data_returns case_df jaws_df :
  case_df <> [] \/ jaws_df <> [] ->
  merge_data jaws_casestatus_map case_df jaws_df
  = ok (map reconciled (pd.merge_outer case_df jaws_df)).
Proof.
  intros H. rewrite merge_data_rows.
  destruct (pd.merge_outer case_df jaws_df) as [|m ms] eqn:E; [exfalso|reflexivity].
  destruct H as [H|H].
  - destruct case_df as [|c l]; [congruence|].
    destruct (merge_outer_left (c :: l) jaws_df c) as [j Hj]; [now left|].
    rewrite E in Hj. destruct Hj.
  - destruct jaws_df as [|j l]; [congruence|].
    destruct (merge_outer_right case_df (j :: l) j) as [c Hc]; [now left|].
    rewrite E in Hc. destruct Hc.
Qed.

Lemma merge_data_ok_inv case_df jaws_df merged :
  merge_data jaws_casestatus_map case_df jaws_df = ok merged ->
  merged = map reconciled (pd.merge_outer case_df jaws_df).
Proof.
  rewrite merge_data_rows. destruct (pd.merge_outer case_df jaws_df); [discriminate|].
  intros [= <-]. reflexivity.
Qed.

Lemma In_reconciled m ms :
  In m (map reconciled ms) ->
  In (sides m) ms
  /\ Recon_Status m
     = calreconstatuscase jaws_casestatus_map (Status (case_side m))
                          (CDE_JNL_STA (jaws_side m)).
Proof. intros ([c j] & <- & H)%in_map_iff. now split. Qed.

Lemma reconciled_In c j ms :
  In (c, j) ms -> exists m, In m (map reconciled ms) /\ case_side m = c /\ jaws_side m = j.
Proof. intros H. exists (reconciled (c, j)). split; [now apply in_map | now split]. Qed.

End MergeFacts.

Lemma compare_refl s : String.compare s s = Eq.
Proof.
  pose proof (String.compare_antisym s s) as H.
  destruct (String.compare s s); simpl in H; congruence.
Qed.

Lemma compare_Lt_Gt a b : String.compare a b = Lt -> String.compare b a = Gt.
Proof. intros H. rewrite String.compare_antisym, H. reflexivity. Qed.

Lemma compare_Gt_Lt a b : String.compare a b = Gt -> String.compare b a = Lt.
Proof. intros H. rewrite String.compare_antisym, H. reflexivity. Qed.

(** The join of {A, B} with {B, C}, for any three distinct keys: three rows
    whatever the order of the keys. *)
Lemma merge_outer_AB_BC ca cb jb jc a b c :
  Security_ID ca = Str a -> Security_ID cb = Str b ->
  IDN_REQUEST jb = Str b -> IDN_REQUEST jc = Str c ->
  a <> b -> b <> c -> a <> c ->
  pd.merge_outer [ca; cb] [jb; jc]
  ≡ₚ [(ca, pd.jaws_absent); (cb, jb); (pd.case_absent, jc)].
Proof.
  intros Ha Hb Hb' Hc Hab Hbc Hac.
  assert (Hg : forall k, pd.join_group [ca; cb] [jb; jc] (Str k) =
            if bool_decide (k = a) then [(ca, pd.jaws_absent)]
            else if bool_decide (k = b) then [(cb, jb)]
            else if bool_decide (k = c) then [(pd.case_absent, jc)] else []).
  { intros k. unfold pd.join_group. cbn [List.filter]. rewrite Ha, Hb, Hb', Hc.
    repeat case_bool_decide; simplify_eq; reflexivity. }
  unfold pd.merge_outer, pd.join_keys. cbn [map app]. rewrite Ha, Hb, Hb', Hc.
  cbn [existsb isna orb app]. rewrite app_nil_r.
  assert (Hk : pd.sorted_keys [Str a; Str b; Str b; Str c] ≡ₚ [a; b; c]).
  { unfold pd.sorted_keys. cbn [foldr pd.insert_key].
    destruct (String.compare b c) eqn:Ebc;
      [apply String.compare_eq_iff in Ebc; congruence| |];
      cbn [pd.insert_key]; rewrite ?Ebc, ?compare_refl; cbn [pd.insert_key];
      rewrite ?compare_refl;
      destruct (String.compare a b) eqn:Eab;
      try (apply String.compare_eq_iff in Eab; congruence);
      destruct (String.compare a c) eqn:Eac;
      try (apply String.compare_eq_iff in Eac; congruence);
      cbn [pd.insert_key]; rewrite ?Eab, ?Eac; cbn [pd.insert_key];
      rewrite ?Eab, ?Eac; solve_Permutation. }
  rewrite flat_map_concat_map, map_map, <- flat_map_concat_map, Hk.
  cbn [flat_map]. rewrite !Hg.
  repeat (case_bool_decide; try congruence). reflexivity.
Qed.

Lemma sides_reconciled f ms : map sides (map (reconciled f) ms) = ms.
Proof.
  rewrite map_map. induction ms as [|[c j] ms IH]; simpl; [reflexivity|].
  now rewrite IH.
Qed.

(** C2.  [merge_data] is a full outer join on Security ID = IDN_REQUEST.
    Whenever one of the two frames has a row it returns, every Case Record
    is the Case side of a merged row and every JAWS Record the JAWS side of
    one, and each merged row is a pair with equal keys, a Case Record
    without partner next to a blank JAWS side, or a JAWS Record without
    partner next to a blank Case side.  For Case Records with keys A and B
    and JAWS Records with keys B and C, three distinct texts, the merged
    frame has exactly three rows: A with the JAWS side blank, B with both
    sides, C with the Case side blank. *)
Theorem outer_join_drops_no_record (f : cell -> cell -> string) :
  (forall case_df jaws_df,
     case_df <> [] \/ jaws_df <> [] ->
     exists merged,
       merge_data f case_df jaws_df = ok merged
       /\ (forall c, In c case_df -> exists m, In m merged /\ case_side m = c)
       /\ (forall j, In j jaws_df -> exists m, In m merged /\ jaws_side m = j)
       /\ (forall m, In m merged ->
             (In (case_side m) case_df /\ In (jaws_side m) jaws_df
              /\ Security_ID (case_side m) = IDN_REQUEST (jaws_side m))
             \/ (In (case_side m) case_df /\ jaws_side m = pd.jaws_absent
                 /\ forall j, In j jaws_df -> IDN_REQUEST j <> Security_ID (case_side m))
             \/ (case_side m = pd.case_absent /\ In (jaws_side m) jaws_df
                 /\ forall c, In c case_df -> Security_ID c <> IDN_REQUEST (jaws_side m))))
  /\ (forall ca cb jb jc a b c,
        Security_ID ca = Str a -> Security_ID cb = Str b ->
        IDN_REQUEST jb = Str b -> IDN_REQUEST jc = Str c ->
        a <> b -> b <> c -> a <> c ->
        exists merged,
          merge_data f [ca; cb] [jb; jc] = ok merged
          /\ length merged = 3
          /\ map sides merged
             ≡ₚ [(ca, pd.jaws_absent); (cb, jb); (pd.case_absent, jc)]).
Proof.
  split.
  - intros case_df jaws_df Hne. eexists. split; [now apply merge_data_returns|].
    split; [|split].
    + intros c Hc. destruct (merge_outer_left case_df jaws_df c Hc) as [j Hj].
      destruct (reconciled_In f _ _ _ Hj) as (m & Hm & Hcs & _). eauto.
    + intros j Hj. destruct (merge_outer_right case_df jaws_df j Hj) as [c Hc].
      destruct (reconciled_In f _ _ _ Hc) as (m & Hm & _ & Hjs). eauto.
    + intros m [Hm _]%In_reconciled. now apply merge_outer_In in Hm.
  - intros ca cb jb jc a b c Ha Hb Hb' Hc Hab Hbc Hac. eexists.
    split; [apply merge_data_returns; left; discriminate|].
    pose proof (merge_outer_AB_BC ca cb jb jc a b c Ha Hb Hb' Hc Hab Hbc Hac) as HP.
    split.
    + rewrite length_map. now rewrite (Permutation_length HP).
    + now rewrite sides_reconciled.
Qed.

Lemma outer_join_drops_no_record_witness :
  merge_data sample_status_map sample_case_AB sample_jaws_BC
  = ok [ mk_merged (mk_case None (Str "OPEN") (Str "SYM") (Str "A")) pd.jaws_absent "Unmapped";
         mk_merged (mk_case None (Str "OPEN") (Str "IBM") (Str "B"))
                   (mk_jaws (Str "B") (Str "CLOSED")) "Mismatch";
         mk_merged pd.case_absent (mk_jaws (Str "C") (Str "OPEN")) "Unmapped" ]
  /\ exists merged,
       merge_data sample_status_map sample_case_AB sample_jaws_BC = ok merged
       /\ length merged = 3
       /\ map sides merged
          ≡ₚ [ (mk_case None (Str "OPEN") (Str "SYM") (Str "A"), pd.jaws_absent);
               (mk_case None (Str "OPEN") (Str "IBM") (Str "B"),
                mk_jaws (Str "B") (Str "CLOSED"));
               (pd.case_absent, mk_jaws (Str "C") (Str "OPEN")) ].
Proof.
  split; [reflexivity|].
  apply (proj2 (outer_join_drops_no_record sample_status_map) _ _ _ _ "A" "B" "C");
    (reflexivity || discriminate).
Defined.

(** C5.  [merge_data] returns whenever the joined frame has a row, and in
    the frame it returns the column "Recon Status" is the translator applied
    element by element to the columns Status and CDE_JNL_STA: the Recon
    Status of a row is [calreconstatuscase] of that row's Status and
    CDE_JNL_STA, which hands the pair to the mapping with the JAWS status
    first; it depends on nothing else, so rows with the same pair of
    statuses carry the same Recon Status. *)
Theorem recon_status_per_row (f : cell -> cell -> string) case_df jaws_df :
  (case_df <> [] \/ jaws_df <> [] ->
     exists merged, merge_data f case_df jaws_df = ok merged)
  /\ forall merged,
       merge_data f case_df jaws_df = ok merged ->
       map sides merged = pd.merge_outer case_df jaws_df
       /\ map Recon_Status merged
          = zip_with (calreconstatuscase f)
              (map (fun m => Status (case_side m)) merged)
              (map (fun m => CDE_JNL_STA (jaws_side m)) merged)
       /\ (forall m, In m merged ->
             Recon_Status m
             = calreconstatuscase f (Status (case_side m)) (CDE_JNL_STA (jaws_side m))
             /\ Recon_Status m = f (CDE_JNL_STA (jaws_side m)) (Status (case_side m)))
       /\ (forall m m', In m merged -> In m' merged ->
             Status (case_side m) = Status (case_side m') ->
             CDE_JNL_STA (jaws_side m) = CDE_JNL_STA (jaws_side m') ->
             Recon_Status m = Recon_Status m').
Proof.
  split.
  - intros Hne. eexists. now apply merge_data_returns.
  - intros merged ->%merge_data_ok_inv.
    assert (Hrow : forall m, In m (map (reconciled f) (pd.merge_outer case_df jaws_df)) ->
              Recon_Status m
              = calreconstatuscase f (Status (case_side m)) (CDE_JNL_STA (jaws_side m))).
    { intros m Hm. now apply In_reconciled in Hm. }
    split; [apply sides_reconciled|]. split; [|split].
    + generalize (pd.merge_outer case_df jaws_df) as l.
      induction l as [|x l IH]; simpl; [reflexivity | now rewrite IH].
    + intros m Hm. split; [now apply Hrow | now rewrite (Hrow m Hm)].
    + intros m m' Hm Hm' HS HC. now rewrite (Hrow m Hm), (Hrow m' Hm'), HS, HC.
Qed.

Lemma recon_status_per_row_witness :
  exists merged,
    merge_data sample_status_map sample_case_AB sample_jaws_BC = ok merged
    /\ map Recon_Status merged = ["Unmapped"; "Mismatch"; "Unmapped"].
Proof.
  destruct (recon_status_per_row sample_status_map sample_case_AB sample_jaws_BC)
    as [Hret _].
  destruct Hret as [merged Hm]; [left; discriminate|].
  exists merged. split; [exact Hm|].
  apply merge_data_ok_inv in Hm. subst merged. reflexivity.
Defined.

(** ** compare_data *)

Lemma ne_false a b : pd.ne a b = false <-> exists s, a = Str s /\ b = Str s.
Proof.
  destruct a as [x|], b as [y|]; simpl.
  - rewrite negb_false_iff, String.eqb_eq. split.
    + intros ->. eauto.
    + intros (s & [= ->] & [= ->]). reflexivity.
  - split; [discriminate | intros (s & _ & [=])].
  - split; [discriminate | intros (s & [=] & _)].
  - split; [discriminate | intros (s & [=] & _)].
Qed.

(** C1.  The discrepancy set holds exactly the merged rows whose Status and
    CDE_JNL_STA are not one and the same text, in the order of the merged
    frame: a row with "OPEN" on both sides is left out, a row with "OPEN"
    against "CLOSED" is kept, and a row with a text on one side and a blank
    on the other is kept. *)
Theorem discrepancies_are_unequal_statuses (merged : list merged_row) :
  (forall m, In m (compare_data merged) <->
     In m merged
     /\ ~ (exists s, Status (case_side m) = Str s /\ CDE_JNL_STA (jaws_side m) = Str s))
  /\ sublist (compare_data merged) merged
  /\ (forall m, Status (case_side m) = Str "OPEN" ->
        CDE_JNL_STA (jaws_side m) = Str "OPEN" -> ~ In m (compare_data merged))
  /\ (forall m, In m merged -> Status (case_side m) = Str "OPEN" ->
        CDE_JNL_STA (jaws_side m) = Str "CLOSED" -> In m (compare_data merged))
  /\ (forall m, In m merged ->
        is_text (Status (case_side m)) <> is_text (CDE_JNL_STA (jaws_side m)) ->
        In m (compare_data merged)).
Proof.
  assert (Hiff : forall m, In m (compare_data merged) <->
            In m merged
            /\ ~ (exists s, Status (case_side m) = Str s
                            /\ CDE_JNL_STA (jaws_side m) = Str s)).
  { intros m. unfold compare_data. rewrite filter_In, <- ne_false.
    destruct (pd.ne _ _); intuition congruence. }
  split; [exact Hiff|]. split; [|split; [|split]].
  - unfold compare_data. clear Hiff.
    induction merged as [|m l IH]; cbn [List.filter]; [constructor|].
    destruct (pd.ne _ _); [apply sublist_skip | apply sublist_cons]; exact IH.
  - intros m HS HC [_ Hne]%Hiff. apply Hne. eauto.
  - intros m Hm HS HC. apply Hiff. split; [exact Hm|].
    intros (s & H1 & H2). congruence.
  - intros m Hm Hdiff. apply Hiff. split; [exact Hm|].
    intros (s & H1 & H2). rewrite H1, H2 in Hdiff. now apply Hdiff.
Qed.

(** C10.  A merged row whose Status and CDE_JNL_STA are both blank is in
    the discrepancy set: a blank differs from a blank. *)
Theorem both_blank_is_discrepancy (merged : list merged_row) (m : merged_row) :
  In m merged ->
  Status (case_side m) = NaN ->
  CDE_JNL_STA (jaws_side m) = NaN ->
  In m (compare_data merged).
Proof.
  intros Hm HS HC. unfold compare_data. apply filter_In. split; [exact Hm|].
  now rewrite HS, HC.
Qed.

Lemma both_blank_is_discrepancy_witness :
  In (mk_merged (mk_case None NaN (Str "SYM") (Str "A")) pd.jaws_absent "Unmapped")
     (compare_data
        [ mk_merged (mk_case None NaN (Str "SYM") (Str "A")) pd.jaws_absent "Unmapped";
          mk_merged (mk_case None (Str "OPEN") (Str "IBM") (Str "B"))
                    (mk_jaws (Str "B") (Str "OPEN")) "Matched" ]).
Proof.
  apply both_blank_is_discrepancy; [now left | reflexivity | reflexivity].
Defined.

(** ** Paths and report names *)

Lemma length_append (a b : string) :
  String.length (a +:+ b) = String.length a + String.length b.
Proof.
  induction a as [|x a IH]; [reflexivity|].
  change (S (String.length (a +:+ b)) = S (String.length a + String.length b)).
  now rewrite IH.
Qed.
















Lemma dec_year_length y :
  (1000 <= y)%N -> (y <= 9999)%N -> String.length (dec y) = 4.
Proof.
  intros Hlo Hhi.
  assert (Hall : forallb (fun n => Nat.eqb (String.length (dec (N.of_nat n))) 4)
                         (seq (N.to_nat 1000) (N.to_nat 9000)) = true)
    by (vm_compute; reflexivity).
  rewrite forallb_forall in Hall.
  specialize (Hall (N.to_nat y)). rewrite N2Nat.id in Hall.
  apply Nat.eqb_eq, Hall, in_seq. lia.
Qed.

Lemma dec2_length n : (n <= 99)%N -> String.length (dec2 n) = 2.
Proof.
  intros Hhi.
  assert (Hall : forallb (fun k => Nat.eqb (String.length (dec2 (N.of_nat k))) 2)
                         (seq 0 100) = true) by (vm_compute; reflexivity).
  rewrite forallb_forall in Hall.
  specialize (Hall (N.to_nat n)). rewrite N2Nat.id in Hall.
  apply Nat.eqb_eq, Hall, in_seq. lia.
Qed.



(** ** Saving the report *)












Section Saving.

Variable json_loads : string -> option json.
Variable jaws_casestatus_map : cell -> cell -> string.
Variable Config_get : string -> string -> result string.
Variable datetime_now : nat -> datetime.





End Saving.

(** ** The runs *)

Section Runs.

Variable json_loads : string -> option json.
Variable jaws_casestatus_map : cell -> cell -> string.
Variable Config_get : string -> string -> result string.
Variable datetime_now : nat -> datetime.
Variable read_excel : string -> result (list (casemgr_row cell) * list jaws_row).
Variables sql_client sql_query sql_table : Type.
Variable SqlClient : string -> result sql_client.
Variable executeProcedure : sql_client -> string -> list string -> result sql_table.
Variable Query : string -> result sql_query.
Variable getQuery : sql_query -> result string.

Local Abbreviation analyze :=
  (analyze_data json_loads jaws_casestatus_map Config_get datetime_now).
Local Abbreviation run_locally :=
  (execute_locally json_loads jaws_casestatus_map Config_get datetime_now read_excel).
Local Abbreviation run_full :=
  (execute_full json_loads jaws_casestatus_map Config_get datetime_now read_excel
     SqlClient executeProcedure Query getQuery).







(** A local run reads the world through its file system, its working
    directory and the clock only: with the same clock reading, worlds that
    differ in log and reading count end in the same file system, with the
    same output and the same outcome. *)
Lemma execute_locally_same_report w l n :
  datetime_now n = datetime_now (clock w) ->
  let w0 := mk_world (fs_dirs w) (fs_files w) (cwd w) (stdout w) l n in
  fst (run_locally w0) = fst (run_locally w)
  /\ fs_dirs (snd (run_locally w0)) = fs_dirs (snd (run_locally w))
  /\ fs_files (snd (run_locally w0)) = fs_files (snd (run_locally w))
  /\ stdout (snd (run_locally w0)) = stdout (snd (run_locally w)).
Proof.
  intros Hn.
  unfold execute_locally, analyze_data, save_results, bindP, lift, logger_info,
    os_path_exists, os_makedirs, now, to_excel, print, ret, raise, ok.
  cbn [fs_dirs fs_files cwd stdout log clock]. rewrite ?Hn.
  repeat match goal with
         | |- context [match ?x with _ => _ end] =>
             lazymatch x with
             | context [match _ with _ => _ end] => fail
             | _ => destruct x eqn:?
             end; cbn [fs_dirs fs_files cwd stdout log clock fst snd]; rewrite ?Hn
         end;
    repeat split; reflexivity.
Qed.

(** C6.  When none of the calls before its last line raises, [execute_full]
    is [execute_locally], run in the world with four more log lines and one
    more reading of the clock.  The table fetched from the JAWS database
    appears nowhere in that run: the report is made of the spreadsheet
    alone.  With the clock showing the same time to both, a full run and a
    local run from the same world end with the same outcome, the same
    directories, the same workbooks and the same printed output. *)
Theorem full_mode_falls_back w c1 s1 q1 t' text table c2 s2 q2 :
  Config_get "Databases" "JAWSDBConnectionString" = ok c1 ->
  SqlClient c1 = ok s1 ->
  Query "Test_Sql" = ok q1 ->
  minus_30_minutes (datetime_now (clock w)) = ok t' ->
  getQuery q1 = ok text ->
  executeProcedure s1 text [strftime_sql t'] = ok table ->
  Config_get "Databases" "CaseMgrDBConnectionString" = ok c2 ->
  SqlClient c2 = ok s2 ->
  Query "CaseMgr_Sql" = ok q2 ->
  run_full w = run_locally (fallen_back w)
  /\ (datetime_now (S (clock w)) = datetime_now (clock w) ->
      fst (run_full w) = fst (run_locally w)
      /\ fs_dirs (snd (run_full w)) = fs_dirs (snd (run_locally w))
      /\ fs_files (snd (run_full w)) = fs_files (snd (run_locally w))
      /\ stdout (snd (run_full w)) = stdout (snd (run_locally w))).
Proof.
  intros Hc1 Hs1 Hq1 Ht Hg He Hc2 Hs2 Hq2.
  assert (Hrun : run_full w = run_locally (fallen_back w)).
  { unfold execute_full, bindP, lift, logger_info, now, ok in *.
    repeat (cbn [fs_dirs fs_files cwd stdout log clock];
            progress rewrite ?Hc1, ?Hs1, ?Hq1, ?Ht, ?Hg, ?He, ?Hc2, ?Hs2, ?Hq2).
    unfold fallen_back. cbn [fs_dirs fs_files cwd stdout log clock].
    rewrite <- !app_assoc. reflexivity. }
  split; [exact Hrun|]. intros Hclock. rewrite Hrun.
  apply (execute_locally_same_report w). exact Hclock.
Qed.

End Runs.




Lemma full_mode_falls_back_witness :
  execute_full sample_json_loads sample_status_map sample_config sample_clock
    sample_read_excel sample_SqlClient sample_executeProcedure sample_Query
    sample_getQuery sample_world
  = execute_locally sample_json_loads sample_status_map sample_config sample_clock
      sample_read_excel (fallen_back sample_world).
Proof.
  pose proof (fun t' table =>
                full_mode_falls_back sample_json_loads sample_status_map sample_config
                  sample_clock sample_read_excel string string (list jaws_row)
                  sample_SqlClient sample_executeProcedure sample_Query
                  sample_getQuery sample_world "dsn-jaws" "dsn-jaws" "Test_Sql"
                  t' "EXEC Test_Sql" table "dsn-casemgr" "dsn-casemgr" "CaseMgr_Sql")
    as Hfull.
  edestruct Hfull as [Hrun _]; [reflexivity .. | exact Hrun].
Defined.

(** The fallback at work: the full run of the samples writes the report of
    the spreadsheet, one clock reading later; the fetched row with key Z is
    not in it. *)
Example full_mode_report :
  fs_files (snd (execute_full sample_json_loads sample_status_map sample_config
                   sample_clock sample_read_excel sample_SqlClient
                   sample_executeProcedure sample_Query sample_getQuery sample_world))
    !! ["home"; "out"; "recon"; "JAWSCasemgrRecon_20240301_000510.xlsx"]
  = Some (mk_workbook
            [ mk_merged (mk_case (Some (JNumber "7")) (Str "CLOSED") (Str "IBM") (Str "B"))
                        (mk_jaws (Str "B") (Str "OPEN")) "Mismatch";
              mk_merged pd.case_absent (mk_jaws (Str "C") (Str "OPEN")) "Unmapped";
              mk_merged (mk_case (Some (JNumber "1")) (Str "OPEN") (Str "SYM") (Str "SEC12"))
                        pd.jaws_absent "Unmapped";
              mk_merged (mk_case (Some (JNumber "2")) (Str "OPEN") (Str "SYM") (Str "SEC12"))
                        pd.jaws_absent "Unmapped" ]
            false).
Proof. vm_compute. reflexivity. Qed.

(** * Further properties of the pipeline *)

(** ** Keys and the digit 3 *)

Lemma split_length sep s : length (Text.split sep s) = S (count_char sep s).
Proof.
  induction s as [|c s IH]; [reflexivity|].
  cbn [Text.split count_char]. destruct (Ascii.eqb c sep).
  - cbn [length]. now rewrite IH.
  - destruct (Text.split sep s) as [|w ws]; [discriminate IH|]. exact IH.
Qed.

Lemma width_ge (rows : list (list cell)) r : In r rows -> length r <= pd.width rows.
Proof.
  unfold pd.width. induction rows as [|x rows IH]; [intros []|].
  intros [->|H]; simpl; [lia|]. specialize (IH H). lia.
Qed.

(** A key has one piece more than it has digits 3, so a key with four or
    more of them has at least five pieces; one such key in the sheet stops
    [process_data] with ValueError once the CASE_DATA cells have decoded,
    whatever the other rows hold. *)
Theorem key_with_four_threes_aborts (json_loads : string -> option json)
    jaws_data casemgr_data decoded r k :
  mapM (apply_json_loads json_loads) casemgr_data = ok decoded ->
  In r casemgr_data -> key r = Str k -> 4 <= count_char "3" k ->
  length (Text.split "3" k) = S (count_char "3" k)
  /\ process_data json_loads jaws_data casemgr_data = raise ValueError.
Proof.
  intros HM Hr Hk Hc. split; [apply split_length|].
  rewrite (process_data_rows _ _ _ _ HM).
  assert (Hacc : pd.str_accessor (map key casemgr_data) = ok tt).
  { unfold pd.str_accessor. destruct casemgr_data as [|x l]; [destruct Hr|].
    cbn [map]. change (key x :: map key l) with (map key (x :: l)).
    replace (existsb is_text (map key (x :: l))) with true; [reflexivity|].
    symmetry. apply existsb_exists. exists (key r). split; [now apply in_map|].
    now rewrite Hk. }
  rewrite Hacc. cbn [bind].
  assert (Hw : 5 <= pd.width (map (pd.split_cell "3") (map key casemgr_data))).
  { etransitivity; [|apply (width_ge _ (pd.split_cell "3" (key r)))].
    - rewrite Hk. cbn [pd.split_cell]. rewrite length_map, split_length. lia.
    - apply in_map, in_map. exact Hr. }
  unfold pd.check_key_length.
  destruct (Nat.eqb_spec (pd.width (map (pd.split_cell "3") (map key casemgr_data))) 4);
    [lia | reflexivity].
Qed.

Lemma key_with_four_threes_aborts_witness :
  process_data sample_json_loads sample_jaws
    [ mk_casemgr (Str "7") (Str "X3IBM3Y3b") (Str "CLOSED");
      mk_casemgr (Str "7") (Str "A3SYM3B3ID3303") (Str "OPEN") ]
  = raise ValueError.
Proof.
  apply (key_with_four_threes_aborts sample_json_loads sample_jaws
           [ mk_casemgr (Str "7") (Str "X3IBM3Y3b") (Str "CLOSED");
             mk_casemgr (Str "7") (Str "A3SYM3B3ID3303") (Str "OPEN") ]
           [ mk_casemgr (JNumber "7") (Str "X3IBM3Y3b") (Str "CLOSED");
             mk_casemgr (JNumber "7") (Str "A3SYM3B3ID3303") (Str "OPEN") ]
           (mk_casemgr (Str "7") (Str "A3SYM3B3ID3303") (Str "OPEN"))
           "A3SYM3B3ID3303");
    [reflexivity | right; now left | reflexivity | cbn; lia].
Defined.

(** ** What [process_data] needs, and what the explode makes *)

Lemma width_attained (rows : list (list cell)) :
  0 < pd.width rows -> exists r, In r rows /\ length r = pd.width rows.
Proof.
  unfold pd.width. induction rows as [|x rows IH]; simpl; [lia|]. intros Hpos.
  destruct (Nat.le_ge_cases (foldr (fun r n => Nat.max (length r) n) 0 rows) (length x))
    as [Hle|Hge].
  - exists x. split; [now left | lia].
  - destruct IH as (r & Hr & Hlen); [lia|]. exists r. split; [now right | lia].
Qed.

Lemma Forall2_In_l {A B} (P : A -> B -> Prop) l l' a :
  Forall2 P l l' -> In a l -> exists b, In b l' /\ P a b.
Proof.
  induction 1 as [|x y l l' Hxy _ IH]; [intros []|].
  intros [<-|Hin]; [exists y; split; [now left | exact Hxy]|].
  destruct (IH Hin) as (b & Hb & HP). exists b. split; [now right | exact HP].
Qed.

Lemma Forall2_In_r {A B} (P : A -> B -> Prop) l l' b :
  Forall2 P l l' -> In b l' -> exists a, In a l /\ P a b.
Proof.
  induction 1 as [|x y l l' Hxy _ IH]; [intros []|].
  intros [<-|Hin]; [exists x; split; [now left | exact Hxy]|].
  destruct (IH Hin) as (a & Ha & HP). exists a. split; [now right | exact HP].
Qed.

(** [process_data] returns only for a sheet that has a row, whose CASE_DATA
    cells are all JSON texts, in which some key has exactly three digits 3
    and no key has more, and only for JAWS data without rows or with a text
    in IDN_REQUEST.  An empty Casemgr sheet, a sheet of blank keys and a
    JAWS sheet whose IDN_REQUEST cells are all blank each make it raise. *)
Theorem process_data_returns_only_if (json_loads : string -> option json)
    jaws_data casemgr_data case_df jaws_df :
  process_data json_loads jaws_data casemgr_data = ok (case_df, jaws_df) ->
  casemgr_data <> []
  /\ (forall r, In r casemgr_data ->
        exists s j, CASE_DATA r = Str s /\ json_loads s = Some j)
  /\ (exists r k, In r casemgr_data /\ key r = Str k /\ count_char "3" k = 3)
  /\ (forall r k, In r casemgr_data -> key r = Str k -> count_char "3" k <= 3)
  /\ (jaws_data = [] \/ exists j, In j jaws_data /\ is_text (IDN_REQUEST j) = true).
Proof.
  intros H.
  destruct (process_data_ok_inv _ _ _ _ _ H) as (decoded & HM & _ & _).
  rewrite (process_data_rows _ _ _ _ HM) in H.
  destruct (pd.str_accessor (map key casemgr_data)) as [?|[]]; [discriminate|].
  cbn [bind] in H. unfold pd.check_key_length in H.
  destruct (Nat.eqb_spec (pd.width (map (pd.split_cell "3") (map key casemgr_data))) 4)
    as [Hw|]; [|discriminate].
  cbn [bind] in H.
  destruct (pd.str_accessor (map IDN_REQUEST jaws_data)) as [?|[]] eqn:Hj; [discriminate|].
  clear H. split; [|split; [|split; [|split]]].
  - intros ->. discriminate Hw.
  - intros r Hr. apply mapM_ok_Forall2 in HM.
    destruct (Forall2_In_l _ _ _ _ HM Hr) as (r' & _ & Hdec).
    unfold apply_json_loads in Hdec. destruct (CASE_DATA r) as [s|]; [|discriminate].
    destruct (json_loads s) as [j|] eqn:Ej; [|discriminate]. eauto.
  - destruct (width_attained (map (pd.split_cell "3") (map key casemgr_data)))
      as (row & Hrow & Hlen); [lia|].
    rewrite map_map in Hrow. apply in_map_iff in Hrow as (r & <- & Hr).
    destruct (key r) as [k|] eqn:Hk.
    + exists r, k. split; [exact Hr|]. split; [exact Hk|].
      cbn [pd.split_cell] in Hlen. rewrite length_map, split_length in Hlen. lia.
    + cbn in Hlen. lia.
  - intros r k Hr Hk.
    assert (Hle : length (pd.split_cell "3" (key r)) <= 4).
    { rewrite <- Hw. apply width_ge. rewrite map_map. apply in_map_iff. eauto. }
    rewrite Hk in Hle. cbn [pd.split_cell] in Hle.
    rewrite length_map, split_length in Hle. lia.
  - unfold pd.str_accessor in Hj. destruct jaws_data as [|j l]; [now left|]. right.
    change (map IDN_REQUEST (j :: l)) with (IDN_REQUEST j :: map IDN_REQUEST l) in Hj.
    destruct (existsb is_text (IDN_REQUEST j :: map IDN_REQUEST l)) eqn:E; [|discriminate].
    apply existsb_exists in E as (c & Hc & Ht).
    change (IDN_REQUEST j :: map IDN_REQUEST l) with (map IDN_REQUEST (j :: l)) in Hc.
    apply in_map_iff in Hc as (j' & <- & Hj'). eauto.
Qed.

Lemma process_data_returns_only_if_witness :
  exists r k, In r sample_casemgr /\ key r = Str k /\ count_char "3" k = 3.
Proof.
  apply (process_data_returns_only_if sample_json_loads sample_jaws sample_casemgr
           (flat_map records_of
              [mk_casemgr (JArray [JNumber "1"; JNumber "2"]) (Str "A3SYM3B3 sec12 ") (Str "OPEN");
               mk_casemgr (JNumber "7") (Str "X3IBM3Y3b") (Str "CLOSED")])
           (map cleaned sample_jaws)).
  reflexivity.
Defined.

Lemma flat_map_length_ge {A B} (f : A -> list B) l :
  (forall a, In a l -> 1 <= length (f a)) -> length l <= length (flat_map f l).
Proof.
  induction l as [|a l IH]; simpl; [lia|]. intros H.
  rewrite length_app. specialize (H a (or_introl eq_refl)) as Ha.
  assert (length l <= length (flat_map f l)) by (apply IH; intros; apply H; now right).
  lia.
Qed.

(** The explode fans a Casemgr row out into one Case Record per entry of
    its decoded CASE_DATA and loses no row: a list of [n] entries, [n] at
    least one, gives [n] records that carry the entries in order, an empty
    list or dict gives one record with a blank entry, a dict gives one
    record per key, and any other JSON value gives one record.  Every
    record of a row carries that row's value as its Status. *)
Theorem explode_fan_out (json_loads : string -> option json)
    jaws_data casemgr_data case_df jaws_df :
  process_data json_loads jaws_data casemgr_data = ok (case_df, jaws_df) ->
  exists decoded,
    mapM (apply_json_loads json_loads) casemgr_data = ok decoded
    /\ length decoded = length casemgr_data
    /\ case_df = flat_map records_of decoded
    /\ length casemgr_data <= length case_df
    /\ forall r, In r decoded ->
         (forall rec, In rec (records_of r) -> Status rec = value r)
         /\ (forall items, CASE_DATA r = JArray items -> items <> [] ->
               map CASE_DATA_entry (records_of r) = map Some items)
         /\ (forall members, CASE_DATA r = JObject members -> members <> [] ->
               map CASE_DATA_entry (records_of r)
               = map (fun kv => Some (JString (fst kv))) members)
         /\ (CASE_DATA r = JArray [] \/ CASE_DATA r = JObject [] ->
               map CASE_DATA_entry (records_of r) = [None])
         /\ ((forall items, CASE_DATA r <> JArray items) ->
             (forall members, CASE_DATA r <> JObject members) ->
               map CASE_DATA_entry (records_of r) = [Some (CASE_DATA r)]).
Proof.
  intros H.
  destruct (process_data_ok_inv _ _ _ _ _ H) as (decoded & HM & -> & _).
  exists decoded. split; [exact HM|].
  assert (Hlen : length decoded = length casemgr_data).
  { apply mapM_ok_Forall2, Forall2_length in HM. now symmetry. }
  assert (Hentries : forall r, map CASE_DATA_entry (records_of r)
                               = pd.explode_entries (CASE_DATA r)).
  { intros r. unfold records_of. rewrite map_map. cbn [CASE_DATA_entry]. apply map_id. }
  split; [exact Hlen|]. split; [reflexivity|]. split.
  - rewrite <- Hlen. apply flat_map_length_ge. intros r _.
    unfold records_of. rewrite length_map.
    destruct (explode_entries_cons (CASE_DATA r)) as (e & es & ->). simpl. lia.
  - intros r _. split; [|split; [|split; [|split]]].
    + intros rec (e & <- & _)%in_map_iff. reflexivity.
    + intros items Hc Hne. rewrite Hentries, Hc. destruct items; [congruence | reflexivity].
    + intros members Hc Hne. rewrite Hentries, Hc.
      destruct members; [congruence | reflexivity].
    + intros [Hc|Hc]; now rewrite Hentries, Hc.
    + intros Hl Hd. rewrite Hentries.
      destruct (CASE_DATA r) as [| | | |items|members]; try reflexivity.
      * now destruct (Hl items).
      * now destruct (Hd members).
Qed.

Lemma explode_fan_out_witness :
  exists decoded,
    mapM (apply_json_loads sample_json_loads) sample_casemgr = ok decoded
    /\ length decoded = 2
    /\ length (flat_map records_of decoded) = 3.
Proof.
  destruct (explode_fan_out sample_json_loads sample_jaws sample_casemgr
              (flat_map records_of
                 [mk_casemgr (JArray [JNumber "1"; JNumber "2"]) (Str "A3SYM3B3 sec12 ") (Str "OPEN");
                  mk_casemgr (JNumber "7") (Str "X3IBM3Y3b") (Str "CLOSED")])
              (map cleaned sample_jaws) eq_refl)
    as (decoded & HM & Hlen & Hdf & _).
  exists decoded. split; [exact HM|]. split; [exact Hlen|]. now rewrite <- Hdf.
Defined.

(** ** The shape of a normalised key *)

Lemma last_last_of (l : list string) c : last l = Some c -> Text.last_of l = c.
Proof.
  induction l as [|x l IH]; [discriminate|]. destruct l as [|y l].
  - now intros [= <-].
  - intros H. rewrite TextFacts.last_of_cons. apply IH. exact H.
Qed.

Lemma normalised_text_clean s :
  let k := Text.upper (Text.strip s) in
  Text.upper k = k
  /\ Text.strip k = k
  /\ Forall (fun c => Text.lower_ascii c = false) (Text.chars k)
  /\ (forall c, head (Text.chars k) = Some c -> Text.isspace c = false)
  /\ (forall c, last (Text.chars k) = Some c -> Text.isspace c = false).
Proof.
  cbv zeta. split; [apply TextFacts.upper_idem|]. split.
  { now rewrite TextFacts.strip_upper_comm, TextFacts.strip_idem. }
  split; [apply TextFacts.upper_no_lower|].
  rewrite TextFacts.strip_upper_comm, TextFacts.chars_strip.
  destruct (TextFacts.strip_chars_trimmed (Text.chars (Text.upper s))) as [->|[Hf Hl]].
  - split; intros c; discriminate.
  - split; intros c Hc.
    + destruct (Text.rstrip_chars _) as [|x l]; [discriminate|].
      injection Hc as <-. exact Hf.
    + apply last_last_of in Hc. now rewrite <- Hc.
Qed.

(** The keys [process_data] hands to the join are clean: a Security ID or
    IDN_REQUEST that is a text is its own upper case and its own trimmed
    text, holds no letter a to z, and neither begins nor ends with a
    whitespace character. *)
Theorem normalised_keys_are_clean (json_loads : string -> option json)
    jaws_data casemgr_data case_df jaws_df :
  process_data json_loads jaws_data casemgr_data = ok (case_df, jaws_df) ->
  forall k,
    (exists c, In c case_df /\ Security_ID c = Str k)
    \/ (exists j, In j jaws_df /\ IDN_REQUEST j = Str k) ->
    Text.upper k = k
    /\ Text.strip k = k
    /\ Forall (fun c => Text.lower_ascii c = false) (Text.chars k)
    /\ (forall c, head (Text.chars k) = Some c -> Text.isspace c = false)
    /\ (forall c, last (Text.chars k) = Some c -> Text.isspace c = false).
Proof.
  intros H k Hk.
  destruct (process_data_ok_inv _ _ _ _ _ H) as (decoded & _ & -> & ->).
  assert (Hs : exists p, Str k = strip_upper p).
  { destruct Hk as [(c & Hc & <-)|(j & Hj & <-)].
    - apply in_flat_map in Hc as (r & _ & (e & <- & _)%in_map_iff). eauto.
    - apply in_map_iff in Hj as (j0 & <- & _). eauto. }
  destruct Hs as ([s|] & Hs); [|discriminate].
  injection Hs as ->. apply normalised_text_clean.
Qed.

Lemma normalised_keys_are_clean_witness :
  Text.upper "SEC12" = "SEC12"
  /\ Text.strip "SEC12" = "SEC12"
  /\ Forall (fun c => Text.lower_ascii c = false) (Text.chars "SEC12")
  /\ (forall c, head (Text.chars "SEC12") = Some c -> Text.isspace c = false)
  /\ (forall c, last (Text.chars "SEC12") = Some c -> Text.isspace c = false).
Proof.
  apply (normalised_keys_are_clean sample_json_loads sample_jaws sample_casemgr
           (flat_map records_of
              [mk_casemgr (JArray [JNumber "1"; JNumber "2"]) (Str "A3SYM3B3 sec12 ") (Str "OPEN");
               mk_casemgr (JNumber "7") (Str "X3IBM3Y3b") (Str "CLOSED")])
           (map cleaned sample_jaws) eq_refl).
  left. eexists. split; [left; reflexivity | vm_compute; reflexivity].
Defined.

(** ** The join and the report *)

(** [merge_data] returns exactly when one of the two frames has a row; on
    two empty frames numpy's vectorize refuses the empty column and the call
    raises ValueError. *)
Theorem merge_data_returns_iff (f : cell -> cell -> string) case_df jaws_df :
  ((exists merged, merge_data f case_df jaws_df = ok merged)
   <-> case_df <> [] \/ jaws_df <> [])
  /\ (case_df = [] -> jaws_df = [] -> merge_data f case_df jaws_df = raise ValueError).
Proof.
  split; [split|].
  - intros [merged H]. destruct case_df as [|c l]; [|left; discriminate].
    destruct jaws_df as [|j l]; [discriminate H | right; discriminate].
  - intros H. eexists. now apply merge_data_returns.
  - intros -> ->. reflexivity.
Qed.

(** Every Case Record and every JAWS Record with the same key are joined
    into a merged row, however many records share the key; two blank keys
    count as the same key. *)
Theorem equal_keys_are_joined (f : cell -> cell -> string) case_df jaws_df c j :
  In c case_df -> In j jaws_df -> Security_ID c = IDN_REQUEST j ->
  exists merged m,
    merge_data f case_df jaws_df = ok merged
    /\ In m merged /\ case_side m = c /\ jaws_side m = j
    /\ Recon_Status m = f (CDE_JNL_STA j) (Status c).
Proof.
  intros Hc Hj Hk. eexists. exists (reconciled f (c, j)).
  split; [apply merge_data_returns; left; intros ->; destruct Hc|].
  split; [|now repeat split].
  apply in_map. apply merge_outer_In. left. auto.
Qed.

Lemma equal_keys_are_joined_witness :
  exists merged m,
    merge_data sample_status_map
      [mk_case None (Str "OPEN") NaN NaN; mk_case None (Str "HOLD") NaN NaN]
      [mk_jaws NaN (Str "OPEN")] = ok merged
    /\ In m merged
    /\ case_side m = mk_case None (Str "HOLD") NaN NaN
    /\ jaws_side m = mk_jaws NaN (Str "OPEN")
    /\ Recon_Status m = "Mismatch".
Proof.
  apply (equal_keys_are_joined sample_status_map
           [mk_case None (Str "OPEN") NaN NaN; mk_case None (Str "HOLD") NaN NaN]
           [mk_jaws NaN (Str "OPEN")]
           (mk_case None (Str "HOLD") NaN NaN) (mk_jaws NaN (Str "OPEN")));
    [right; now left | now left | reflexivity].
Defined.

Lemma compare_data_reconciled f ms :
  compare_data (map (reconciled f) ms)
  = map (reconciled f)
        (List.filter (fun p => pd.ne (Status (fst p)) (CDE_JNL_STA (snd p))) ms).
Proof.
  unfold compare_data. induction ms as [|[c j] ms IH]; [reflexivity|].
  cbn [map List.filter reconciled case_side jaws_side fst snd].
  destruct (pd.ne (Status c) (CDE_JNL_STA j)); cbn [map]; now rewrite IH.
Qed.

(** The status mapping labels the rows and decides nothing: which rows are
    reported is the same under any two translators, and so is whether
    [merge_data] returns. *)
Theorem report_ignores_translator (f g : cell -> cell -> string) case_df jaws_df :
  (forall merged_f,
     merge_data f case_df jaws_df = ok merged_f ->
     exists merged_g,
       merge_data g case_df jaws_df = ok merged_g
       /\ map sides (compare_data merged_g) = map sides (compare_data merged_f))
  /\ (forall e, merge_data f case_df jaws_df = raise e ->
                merge_data g case_df jaws_df = raise e).
Proof.
  rewrite !merge_data_rows. destruct (pd.merge_outer case_df jaws_df) as [|m ms].
  - split; [discriminate | auto].
  - split; [|discriminate]. intros merged_f H. exists (map (reconciled g) (m :: ms)).
    split; [reflexivity|].
    assert (merged_f = map (reconciled f) (m :: ms)) as -> by (now injection H).
    now rewrite !compare_data_reconciled, !sides_reconciled.
Qed.

Lemma report_ignores_translator_witness :
  exists merged_g,
    merge_data (fun _ _ => "Same") sample_case_AB sample_jaws_BC = ok merged_g
    /\ length (compare_data merged_g) = 3.
Proof.
  destruct (proj1 (report_ignores_translator sample_status_map (fun _ _ => "Same")
                     sample_case_AB sample_jaws_BC) _ eq_refl)
    as (merged_g & Hg & Hsides).
  exists merged_g. split; [exact Hg|].
  apply (f_equal length) in Hsides. rewrite !length_map in Hsides. exact Hsides.
Defined.

(** A record without counterpart is always reported: a Case Record whose
    Security ID no JAWS Record has, and a JAWS Record whose IDN_REQUEST no
    Case Record has, each give a row of the discrepancy set with the other
    side blank, whatever their status. *)
Theorem unmatched_records_are_reported (f : cell -> cell -> string) case_df jaws_df :
  (forall c, In c case_df ->
     (forall j, In j jaws_df -> IDN_REQUEST j <> Security_ID c) ->
     exists merged m,
       merge_data f case_df jaws_df = ok merged
       /\ In m (compare_data merged)
       /\ case_side m = c /\ jaws_side m = pd.jaws_absent)
  /\ (forall j, In j jaws_df ->
        (forall c, In c case_df -> Security_ID c <> IDN_REQUEST j) ->
        exists merged m,
          merge_data f case_df jaws_df = ok merged
          /\ In m (compare_data merged)
          /\ case_side m = pd.case_absent /\ jaws_side m = j).
Proof.
  split.
  - intros c Hc Hno. eexists. exists (reconciled f (c, pd.jaws_absent)).
    split; [apply merge_data_returns; left; intros ->; destruct Hc|].
    split; [|now split].
    apply filter_In. split.
    + apply in_map, merge_outer_In. right. left. auto.
    + cbn. now destruct (Status c).
  - intros j Hj Hno. eexists. exists (reconciled f (pd.case_absent, j)).
    split; [apply merge_data_returns; right; intros ->; destruct Hj|].
    split; [|now split].
    apply filter_In. split.
    + apply in_map, merge_outer_In. right. right. auto.
    + reflexivity.
Qed.

Lemma unmatched_records_are_reported_witness :
  exists merged m,
    merge_data sample_status_map sample_case_AB sample_jaws_BC = ok merged
    /\ In m (compare_data merged)
    /\ case_side m = mk_case None (Str "OPEN") (Str "SYM") (Str "A")
    /\ jaws_side m = pd.jaws_absent.
Proof.
  apply (proj1 (unmatched_records_are_reported sample_status_map
                  sample_case_AB sample_jaws_BC)).
  - now left.
  - intros j [<-|[<-|[]]]; discriminate.
Defined.

(** Comparing is a filter: comparing a discrepancy set again changes
    nothing, the discrepancies of two frames put end to end are the two
    discrepancy sets put end to end, and the discrepancy set never has more
    rows than the merged frame. *)
Theorem compare_data_is_a_filter (m1 m2 : list merged_row) :
  compare_data (compare_data m1) = compare_data m1
  /\ compare_data (m1 ++ m2) = (compare_data m1 ++ compare_data m2)%list
  /\ length (compare_data m1) <= length m1.
Proof.
  unfold compare_data. split; [|split].
  - induction m1 as [|m l IH]; [reflexivity|]. cbn [List.filter].
    destruct (pd.ne _ _) eqn:E; [|exact IH].
    cbn [List.filter]. now rewrite E, IH.
  - apply List.filter_app.
  - apply List.filter_length_le.
Qed.

(** ** Runs that fail, and runs that follow one another *)

Section MoreRuns.

Variable json_loads : string -> option json.
Variable jaws_casestatus_map : cell -> cell -> string.
Variable Config_get : string -> string -> result string.
Variable datetime_now : nat -> datetime.
Variable read_excel : string -> result (list (casemgr_row cell) * list jaws_row).
Variables sql_client sql_query sql_table : Type.
Variable SqlClient : string -> result sql_client.
Variable executeProcedure : sql_client -> string -> list string -> result sql_table.
Variable Query : string -> result sql_query.
Variable getQuery : sql_query -> result string.

Local Abbreviation analyze :=
  (analyze_data json_loads jaws_casestatus_map Config_get datetime_now).
Local Abbreviation run_locally :=
  (execute_locally json_loads jaws_casestatus_map Config_get datetime_now read_excel).
Local Abbreviation run_full :=
  (execute_full json_loads jaws_casestatus_map Config_get datetime_now read_excel
     SqlClient executeProcedure Query getQuery).






End MoreRuns.



(** ** The time filter of the full run *)

Lemma strftime_sql_length t : datetime_ok t = true -> String.length (strftime_sql t) = 19.
Proof.
  unfold datetime_ok. rewrite !andb_true_iff, !N.leb_le.
  intros ((((((((Hy1 & Hy2) & Hm1) & Hm2) & Hd1) & Hd2) & Hh) & Hmi) & Hs).
  unfold strftime_sql.
  rewrite !length_append, (dec_year_length _ Hy1 Hy2), !dec2_length by lia.
  reflexivity.
Qed.

(** The parameter of the JAWS query.  Half an hour before a time of the
    present era exists on the calendar unless it would leave year 1, so the
    subtraction raises only in the first half hour of year 1; it keeps the
    seconds, moves the minutes by thirty, and steps back over midnight, the
    month and the year as needed.  From year 1001 on the result prints as a
    timestamp of nineteen characters. *)
Theorem time_filter_is_half_an_hour_back (t : datetime) :
  datetime_ok t = true ->
  exists t',
    minus_30_minutes t = ok t'
    /\ second t' = second t
    /\ ((30 <= minute t)%N -> t' = mk_datetime (year t) (month t) (day t) (hour t)
                                       (minute t - 30) (second t))
    /\ ((minute t < 30)%N -> (1 <= hour t)%N ->
        t' = mk_datetime (year t) (month t) (day t) (hour t - 1) (minute t + 30) (second t))
    /\ ((minute t < 30)%N -> hour t = 0%N ->
        hour t' = 23%N /\ minute t' = (minute t + 30)%N
        /\ ((2 <= day t)%N -> day t' = (day t - 1)%N /\ month t' = month t
                              /\ year t' = year t)
        /\ (day t = 1%N -> (2 <= month t)%N ->
            day t' = days_in_month (year t) (month t - 1)
            /\ month t' = (month t - 1)%N /\ year t' = year t)
        /\ (day t = 1%N -> month t = 1%N ->
            day t' = 31%N /\ month t' = 12%N /\ year t' = (year t - 1)%N))
    /\ ((1001 <= year t)%N ->
        datetime_ok t' = true /\ String.length (strftime_sql t') = 19).
Proof.
  intros Hok. pose proof Hok as Hok'.
  unfold datetime_ok in Hok'. rewrite !andb_true_iff, !N.leb_le in Hok'.
  destruct Hok' as ((((((((Hy1 & Hy2) & Hm1) & Hm2) & Hd1) & Hd2) & Hh) & Hmi) & Hs).
  destruct t as [y mo d h mi s]. cbn [year month day hour minute second] in *.
  assert (Hdim : forall m, (28 <= days_in_month y m <= 31)%N).
  { intros m. unfold days_in_month.
    destruct (m =? 2)%N; [destruct (is_leap y); lia|].
    destruct ((m =? 4)%N || (m =? 6)%N || (m =? 9)%N || (m =? 11)%N); lia. }
  assert (Hvalid : forall t', (1001 <= y)%N ->
            (1000 <= year t')%N -> (year t' <= 9999)%N ->
            (1 <= month t')%N -> (month t' <= 12)%N ->
            (1 <= day t')%N -> (day t' <= 31)%N ->
            (hour t' <= 23)%N -> (minute t' <= 59)%N -> (second t' <= 59)%N ->
            datetime_ok t' = true /\ String.length (strftime_sql t') = 19).
  { intros t' _ ? ? ? ? ? ? ? ? ?.
    assert (datetime_ok t' = true).
    { unfold datetime_ok. rewrite !andb_true_iff, !N.leb_le. repeat split; assumption. }
    split; [assumption | now apply strftime_sql_length]. }
  unfold minus_30_minutes.
  destruct (N.leb_spec 30 mi) as [H30|H30].
  { eexists. split; [reflexivity|]. cbn [year month day hour minute second].
    repeat split; try lia; try (intros; apply Hvalid; cbn; lia). }
  destruct (N.leb_spec 1 h) as [H1|H1].
  { eexists. split; [reflexivity|]. cbn [year month day hour minute second].
    repeat split; try lia; try (intros; apply Hvalid; cbn; lia). }
  destruct (N.leb_spec 2 d) as [H2|H2].
  { eexists. split; [reflexivity|]. cbn [year month day hour minute second].
    repeat split; try lia; try (intros; apply Hvalid; cbn; lia). }
  destruct (N.leb_spec 2 mo) as [H3|H3].
  { eexists. split; [reflexivity|]. cbn [year month day hour minute second].
    pose proof (Hdim (mo - 1)%N).
    repeat split; try lia; try (intros; apply Hvalid; cbn; lia). }
  destruct (N.leb_spec 2 y) as [H4|H4]; [|lia].
  eexists. split; [reflexivity|]. cbn [year month day hour minute second].
  repeat split; try lia; try (intros; apply Hvalid; cbn; lia).
Qed.

Lemma time_filter_is_half_an_hour_back_witness :
  exists t',
    minus_30_minutes (mk_datetime 2024 3 1 0 5 9) = ok t'
    /\ strftime_sql t' = "2024-02-29 23:35:09".
Proof.
  destruct (time_filter_is_half_an_hour_back (mk_datetime 2024 3 1 0 5 9) eq_refl)
    as (t' & Ht & _).
  exists t'. split; [exact Ht|]. injection Ht as <-. reflexivity.
Defined.

(** ** Report names and the clock *)

Lemma append_inj_l (a x y : string) : a +:+ x = a +:+ y -> x = y.
Proof.
  induction a as [|c a IH]; [auto|].
  change (String c (a +:+ x) = String c (a +:+ y) -> x = y). intros [= H]. auto.
Qed.

Lemma append_inj_length (a a' x y : string) :
  String.length a = String.length a' -> a +:+ x = a' +:+ y -> a = a' /\ x = y.
Proof.
  revert a'. induction a as [|c a IH]; intros [|c' a'] Hlen; try discriminate Hlen.
  - auto.
  - change (String c (a +:+ x) = String c' (a' +:+ y) -> String c a = String c' a' /\ x = y).
    intros [= -> H]. injection Hlen as Hlen.
    destruct (IH a' Hlen H) as [-> ->]. auto.
Qed.

Lemma dec_inj n m : dec n = dec m -> n = m.
Proof.
  unfold dec. intros H.
  apply (f_equal NilEmpty.uint_of_string) in H. rewrite !NilEmpty.usu in H.
  injection H as H. apply (f_equal N.of_uint) in H.
  now rewrite !DecimalN.Unsigned.of_to in H.
Qed.

Lemma dec2_inj n m : (n <= 99)%N -> (m <= 99)%N -> dec2 n = dec2 m -> n = m.
Proof.
  intros Hn Hm H.
  assert (Hall : forallb (fun a => forallb (fun b =>
                    implb (String.eqb (dec2 (N.of_nat a)) (dec2 (N.of_nat b))) (Nat.eqb a b))
                    (seq 0 100)) (seq 0 100) = true) by (vm_compute; reflexivity).
  rewrite forallb_forall in Hall.
  specialize (Hall (N.to_nat n)). rewrite forallb_forall in Hall.
  specialize (Hall ltac:(apply in_seq; lia) (N.to_nat m) ltac:(apply in_seq; lia)).
  rewrite !N2Nat.id, H, String.eqb_refl in Hall. cbn [implb] in Hall.
  apply Nat.eqb_eq in Hall. lia.
Qed.

(** Reports of different seconds have different names: for times of the
    present era the name of the report determines the time on the clock, so
    one run overwrites the report of another only when both read the same
    second. *)
Theorem report_name_determines_time (t1 t2 : datetime) :
  datetime_ok t1 = true -> datetime_ok t2 = true ->
  report_name t1 = report_name t2 -> t1 = t2.
Proof.
  unfold datetime_ok. rewrite !andb_true_iff, !N.leb_le.
  intros ((((((((Hy1 & Hy2) & Hm1) & Hm2) & Hd1) & Hd2) & Hh) & Hmi) & Hs).
  intros ((((((((Hy1' & Hy2') & Hm1') & Hm2') & Hd1') & Hd2') & Hh') & Hmi') & Hs').
  unfold report_name, strftime_stamp. intros H.
  apply append_inj_l in H. rewrite !TextFacts.append_assoc in H.
  apply append_inj_length in H as [Hy H];
    [|now rewrite !dec_year_length by assumption].
  apply append_inj_length in H as [Hmo H]; [|now rewrite !dec2_length by lia].
  apply append_inj_length in H as [Hd H]; [|now rewrite !dec2_length by lia].
  apply (append_inj_l "_") in H.
  apply append_inj_length in H as [Hho H]; [|now rewrite !dec2_length by lia].
  apply append_inj_length in H as [Hmin H]; [|now rewrite !dec2_length by lia].
  apply append_inj_length in H as [Hse _]; [|now rewrite !dec2_length by lia].
  apply dec_inj in Hy. apply dec2_inj in Hmo, Hd, Hho, Hmin, Hse; try lia.
  destruct t1, t2. cbn [year month day hour minute second] in *. congruence.
Qed.

Lemma report_name_determines_time_witness :
  sample_clock 0 = sample_clock 0
  /\ report_name (sample_clock 0) <> report_name (sample_clock 1).
Proof.
  split.
  - apply (report_name_determines_time (sample_clock 0) (sample_clock 0)); reflexivity.
  - intros H.
    apply (report_name_determines_time (sample_clock 0) (sample_clock 1)) in H;
      [discriminate H | reflexivity | reflexivity].
Defined.

Lemma merge_data_returns_iff_witness :
  exists merged, merge_data sample_status_map sample_case_AB [] = ok merged.
Proof.
  apply (proj1 (merge_data_returns_iff sample_status_map sample_case_AB [])).
  left. discriminate.
Defined.


